(** * SpatiaEngine: AOI resolution and multi-source orchestration

    A shallow embedding of the parts of SpatiaEngine that carry the
    specification's invariants, module by module:

    - [PyStr], [Py]      Python strings (ASCII text), results and exceptions
    - [ErrorHandler]     core/utils/error_handler.py ([handle_errors])
    - [Geo], [FS]        geometries, data frames and the file system
    - [Zone]             zone selection (core/aoi/aoi.py, aoi_handler.py)
    - [TileCode]         the tile-code grammar (core/aoi/aoi.py)
    - [Engine]           the calls into pyproj, geopandas, shapely and GDAL
    - [AoiResolver]      AOI definition and finalization (core/aoi/aoi.py)
    - [World]            the output stores next to the file system
    - [VectorProcessor]  core/processing/vector_processor.py
    - [MntLidar]         core/datasources/mnt_lidar.py
    - [Pipeline]         core/pipeline/pipeline_manager.py
    - [Sample]           a small world in which the program is run

    Python values are modelled as the code has them: coordinates are
    IEEE-754 binary64 numbers (Rocq's primitive floats), tile codes and
    identifiers are strings, dictionaries are finite maps, and a call that
    may raise returns a [result].  Objects that the code mutates ([Aoi],
    [PipelineManager], the file system, the output store) are passed
    explicitly.  The external geometry, raster and network collaborators
    appear as records of oracles, one field per library call.  Logging and
    progress display have no effect on control flow and are left out. *)

From Stdlib Require Import ZArith Floats Ascii String List Bool Lia.
From Stdlib Require Import Sorting.Permutation Sorting.Sorted.
From stdpp Require Import gmap strings list pretty.

Local Open Scope string_scope.
Local Open Scope list_scope.

(* ================================================================== *)
(** * Part I: the program                                              *)
(* ================================================================== *)

(** ** Python strings (ASCII text) *)

Module PyStr.

(** Tile codes, layer names and paths are ASCII text; [upper], [isdigit]
    and [isalpha] are Python's [str] methods on that alphabet, and
    [String.length] is [len].  On other code points Python follows the
    Unicode database (there are letters, digits and case mappings outside
    ASCII, and a code point is one character whatever its encoding),
    which these definitions do not: [is_ascii] marks the strings on which
    they are Python's methods. *)

Definition is_lower (c : ascii) : bool :=
  let n := nat_of_ascii c in (97 <=? n)%nat && (n <=? 122)%nat.

Definition is_upper (c : ascii) : bool :=
  let n := nat_of_ascii c in (65 <=? n)%nat && (n <=? 90)%nat.

Definition isdigit_char (c : ascii) : bool :=
  let n := nat_of_ascii c in (48 <=? n)%nat && (n <=? 57)%nat.

Definition isalpha_char (c : ascii) : bool := is_lower c || is_upper c.

Definition upper_char (c : ascii) : ascii :=
  if is_lower c then ascii_of_nat (nat_of_ascii c - 32) else c.

(** [s.upper()] *)
Fixpoint upper (s : string) : string :=
  match s with
  | EmptyString => EmptyString
  | String c s' => String (upper_char c) (upper s')
  end.

Fixpoint all_chars (f : ascii -> bool) (s : string) : bool :=
  match s with
  | EmptyString => true
  | String c s' => f c && all_chars f s'
  end.



(** [s.isdigit()], [s.isalpha()]: false on the empty string. *)
Definition isdigit (s : string) : bool :=
  match s with EmptyString => false | _ => all_chars isdigit_char s end.

Definition isalpha (s : string) : bool :=
  match s with EmptyString => false | _ => all_chars isalpha_char s end.

(** [s[a:b]] for [0 <= a]; indices past the end are clamped. *)
Definition slice (s : string) (a b : nat) : string := substring a (b - a) s.

(** [s[a:]] *)
Fixpoint drop (a : nat) (s : string) : string :=
  match a, s with
  | O, _ => s
  | S a', EmptyString => EmptyString
  | S a', String _ s' => drop a' s'
  end.

(** [s[-2:]] *)
Definition last2 (s : string) : string := drop (String.length s - 2) s.

(** [s[i].isalpha()], reached only when [i < len(s)] (an [IndexError]
    otherwise, which the guards of the callers exclude). *)
Definition isalpha_at (s : string) (i : nat) : bool :=
  match String.get i s with
  | Some c => isalpha_char c
  | None => false
  end.

(** [s.startswith(p)] *)
Definition startswith (s p : string) : bool := String.prefix p s.

(** [s in l] on a list of strings. *)
Definition str_in (s : string) (l : list string) : bool :=
  existsb (String.eqb s) l.

(** Truthiness of a [str]. *)
Definition truthy (s : string) : bool := negb (String.eqb s "").

Definition lower_char (c : ascii) : ascii :=
  if is_upper c then ascii_of_nat (nat_of_ascii c + 32) else c.

(** [s.lower()] *)
Fixpoint lower (s : string) : string :=
  match s with
  | EmptyString => EmptyString
  | String c s' => String (lower_char c) (lower s')
  end.

(** [s.endswith(suffix)] *)
Definition endswith (s suffix : string) : bool :=
  (String.length suffix <=? String.length s)%nat
  && String.eqb (drop (String.length s - String.length suffix) s) suffix.

(** [sub in s] *)
Definition contains (sub s : string) : bool :=
  match String.index 0 sub s with Some _ => true | None => false end.

(** [s.rstrip('/')] *)
Fixpoint rstrip_slash (s : string) : string :=
  match s with
  | EmptyString => EmptyString
  | String c s' =>
      match rstrip_slash s' with
      | EmptyString => if Ascii.eqb c "/" then EmptyString else String c EmptyString
      | r => String c r
      end
  end.

(** [s.replace(' ', '_').replace('.', '').replace(':', '')] *)
Fixpoint clean_column_name (s : string) : string :=
  match s with
  | EmptyString => EmptyString
  | String c s' =>
      if Ascii.eqb c " " then String "_" (clean_column_name s')
      else if Ascii.eqb c "." || Ascii.eqb c ":" then clean_column_name s'
      else String c (clean_column_name s')
  end.

End PyStr.

(** ** Python results and exceptions *)

Module Py.

(** The exception classes the program defines (error_handler.py, lines
    9-31) and the built-in ones its collaborators raise.  Every class
    derives from [Exception]; interpreter signals ([KeyboardInterrupt],
    [SystemExit]) are not exceptions in this sense. *)
Inductive exn_class : Type :=
| SpatiaEngineError | ConfigurationError | DataSourceError
| ProcessingError | AOIError | ValidationError
| ValueError | KeyError | IndexError | AttributeError | TypeError
| OSError | FileNotFoundError | PermissionError
| CRSError | RequestException | Exception.

#[global] Instance exn_class_eq_dec : EqDecision exn_class.
Proof. solve_decision. Defined.

(** [issubclass(c, d)] *)
Definition issubclass (c d : exn_class) : bool :=
  bool_decide (c = d)
  || match d with
     | Exception => true
     | SpatiaEngineError =>
         match c with
         | ConfigurationError | DataSourceError | ProcessingError
         | AOIError | ValidationError => true
         | _ => false
         end
     | OSError =>
         match c with
         | FileNotFoundError | PermissionError => true
         | _ => false
         end
     | _ => false
     end.

Record exn : Type := Exn { exn_cls : exn_class; exn_msg : string }.

Definition isinstance (e : exn) (d : exn_class) : bool := issubclass (exn_cls e) d.

(** A call either returns a value or raises. *)
Inductive result (A : Type) : Type :=
| Return (a : A)
| Raise (e : exn).
Arguments Return {A} a.
Arguments Raise {A} e.

#[global] Instance result_ret : MRet result := fun A a => Return a.
#[global] Instance result_bind : MBind result :=
  fun A B k m => match m with Return a => k a | Raise e => Raise e end.

(** [try: m except Exception as e: h e] *)
Definition try_except {A : Type} (m : result A) (h : exn -> result A) : result A :=
  match m with
  | Return a => Return a
  | Raise e => h e
  end.

(** [[f(x) for x in l]], stopping at the first exception. *)
Fixpoint list_comp {A B : Type} (f : A -> result B) (l : list A) : result (list B) :=
  match l with
  | [] => Return []
  | x :: l' => y ← f x; ys ← list_comp f l'; Return (y :: ys)
  end.

(** The scalars that reach the program from YAML and from data frames. *)
Inductive pyval : Type :=
| PNone
| PInt (z : Z)
| PStr (s : string).

(** [v.upper()]: only [str] has the method. *)
Definition py_upper (v : pyval) : result string :=
  match v with
  | PStr s => Return (PyStr.upper s)
  | PInt _ => Raise (Exn AttributeError "'int' object has no attribute 'upper'")
  | PNone => Raise (Exn AttributeError "'NoneType' object has no attribute 'upper'")
  end.

End Py.

(** ** Unified error handling (core/utils/error_handler.py) *)

Module ErrorHandler.
Import Py.

(** The wrapper built by [handle_errors(error_type, default_return)]
    around [func] (lines 47-61), applied to what the call of [func] does.  Both handlers log and
    return [default_return]. *)
Definition handle_errors {A : Type} (error_type : exn_class) (default_return : A)
    (func : result A) : result A :=
  match func with
  | Return v => Return v
  | Raise e =>
      if isinstance e error_type then Return default_return
      else if isinstance e Exception then Return default_return
      else Raise e
  end.

(** The same decorator on a method that mutates [self]: the mutations made
    before the exception stay. *)
Definition handle_errors_method {S A : Type} (error_type : exn_class)
    (default_return : A) (func : S -> result A * S) (self : S) : result A * S :=
  let '(r, self') := func self in (handle_errors error_type default_return r, self').

(** [safe_execute], lines 64-82. *)
Definition safe_execute {A : Type} (func : result A) : bool * option A * option exn :=
  match func with
  | Return v => (true, Some v, None)
  | Raise e => (false, None, Some e)
  end.

End ErrorHandler.

(** ** Geometries and data frames (the Geometry Engine's values) *)

Module Geo.
Import Py.

(** A geometry is known by its vertices; the empty geometry has none. *)
Definition geometry : Type := list (float * float).

Definition is_empty (g : geometry) : bool :=
  match g with [] => true | _ => false end.

(** One feature: its attribute cells and its geometry (possibly [None]). *)
Record Row : Type := mkRow {
  row_cells : gmap string string;
  row_geometry : option geometry }.

Record GeoDataFrame : Type := mkGDF {
  gdf_columns : list string;
  gdf_rows : list Row;
  gdf_crs : option string }.

(** [len(gdf)] and [gdf.empty] *)
Definition gdf_len (gdf : GeoDataFrame) : nat := List.length (gdf_rows gdf).

Definition gdf_empty (gdf : GeoDataFrame) : bool :=
  match gdf_rows gdf with [] => true | _ => false end.

(** [row[c]], the empty string standing for a missing cell. *)
Definition cell (c : string) (r : Row) : string := default "" (row_cells r !! c).

(** [gdf[c]]: [KeyError] when the frame has no such column. *)
Definition column (gdf : GeoDataFrame) (c : string) : result (list string) :=
  if PyStr.str_in c (gdf_columns gdf) then Return (map (cell c) (gdf_rows gdf))
  else Raise (Exn KeyError c).

(** [gdf[c].iloc[0]] *)
Definition column_iloc0 (gdf : GeoDataFrame) (c : string) : result string :=
  vs ← column gdf c;
  match vs with
  | v :: _ => Return v
  | [] => Raise (Exn IndexError "single positional indexer is out-of-bounds")
  end.

(** [gdf.geometry.iloc[0]] *)
Definition geometry_iloc0 (gdf : GeoDataFrame) : result (option geometry) :=
  match gdf_rows gdf with
  | r :: _ => Return (row_geometry r)
  | [] => Raise (Exn IndexError "single positional indexer is out-of-bounds")
  end.

(** [gdf.iloc[[i]].copy()] for a row [r] of [gdf]. *)
Definition single_row (gdf : GeoDataFrame) (r : Row) : GeoDataFrame :=
  mkGDF (gdf_columns gdf) [r] (gdf_crs gdf).

(** [gdf[mask]] *)
Definition select (gdf : GeoDataFrame) (mask : Row -> bool) : GeoDataFrame :=
  mkGDF (gdf_columns gdf) (List.filter mask (gdf_rows gdf)) (gdf_crs gdf).

(** [gdf.set_crs(crs)] on a frame without CRS, or with [allow_override]. *)
Definition set_crs (gdf : GeoDataFrame) (crs : string) : GeoDataFrame :=
  mkGDF (gdf_columns gdf) (gdf_rows gdf) (Some crs).

(** [GeoDataFrame([{..., 'geometry': g}], crs=crs)] *)
Definition one_feature (cells : list (string * string)) (g : geometry)
    (crs : option string) : GeoDataFrame :=
  mkGDF (map fst cells ++ ["geometry"]) [mkRow (list_to_map cells) (Some g)] crs.

End Geo.

(** ** The file system *)

Module FS.
Import Py.

(** Files with their size in bytes; [locked] paths cannot be removed
    ([os.remove] raises [PermissionError]). *)
Record t : Type := mk {
  files : gmap string N;
  locked : gset string }.

Definition exists_ (fs : t) (path : string) : bool :=
  bool_decide (is_Some (files fs !! path)).

(** [os.path.getsize] *)
Definition getsize (fs : t) (path : string) : result N :=
  match files fs !! path with
  | Some n => Return n
  | None => Raise (Exn FileNotFoundError path)
  end.

(** [open(path, 'wb')] followed by writing [n] bytes. *)
Definition write (fs : t) (path : string) (n : N) : t :=
  mk (<[path := n]> (files fs)) (locked fs).

(** [os.remove] *)
Definition remove (fs : t) (path : string) : result unit * t :=
  match files fs !! path with
  | None => (Raise (Exn FileNotFoundError path), fs)
  | Some _ =>
      if bool_decide (path ∈ locked fs)
      then (Raise (Exn PermissionError path), fs)
      else (Return tt, mk (delete path (files fs)) (locked fs))
  end.

(** [os.path.basename]: what follows the last separator. *)
Fixpoint basename_from (acc s : string) : string :=
  match s with
  | EmptyString => acc
  | String c s' =>
      if Ascii.eqb c "/" then basename_from EmptyString s'
      else basename_from (acc +:+ String c EmptyString) s'
  end.

Definition basename (path : string) : string := basename_from EmptyString path.

(** [os.path.join(a, b)] for a relative [b]. *)
Definition join (a b : string) : string :=
  if PyStr.truthy a then
    if String.eqb (PyStr.drop (String.length a - 1) a) "/"
    then a +:+ b else a +:+ "/" +:+ b
  else b.

End FS.

(** ** Zone selection (core/aoi/aoi.py, core/aoi/aoi_handler.py) *)

Module Zone.

(** [bounds] is the tuple [(minx, miny, maxx, maxy)] of Python floats. *)
Definition bounds : Type := float * float * float * float.

Definition minx (b : bounds) : float := let '(x0, _, _, _) := b in x0.
Definition miny (b : bounds) : float := let '(_, y0, _, _) := b in y0.
Definition maxx (b : bounds) : float := let '(_, _, x1, _) := b in x1.
Definition maxy (b : bounds) : float := let '(_, _, _, y1) := b in y1.

(** Python's chained comparison [lo <= x < hi]. *)
Definition chain_le_lt (lo x hi : float) : bool :=
  ((lo <=? x) && (x <? hi))%float.

(** [center_lon = (bounds[0] + bounds[2]) / 2] *)
Definition center_lon (b : bounds) : float := ((minx b + maxx b) / 2)%float.
Definition center_lat (b : bounds) : float := ((miny b + maxy b) / 2)%float.

(** [VALID_MTM_CRS]: the EPSG codes accepted for the jurisdiction. *)
Definition VALID_MTM_CRS : gmap string string :=
  list_to_map
    [ ("32181", "MTM zone 1 (EPSG:32181)");
      ("32182", "MTM zone 2 (EPSG:32182)");
      ("32183", "MTM zone 3 (EPSG:32183)");
      ("32184", "MTM zone 4 (EPSG:32184)");
      ("32185", "MTM zone 5 (EPSG:32185)");
      ("32186", "MTM zone 6 (EPSG:32186)");
      ("32187", "MTM zone 7 (EPSG:32187)");
      ("32188", "MTM zone 8 (EPSG:32188)");
      ("32189", "MTM zone 9 (EPSG:32189)");
      ("32190", "MTM zone 10 (EPSG:32190)") ].

(** [Aoi.get_mtm_zone_from_bounds] (aoi.py, lines 67-94). *)
Definition get_mtm_zone_from_bounds (b : bounds) : string :=
  let center_lon := ((minx b + maxx b) / 2)%float in
  if chain_le_lt (-72) center_lon (-69) then "32187"
  else if chain_le_lt (-75) center_lon (-72) then "32188"
  else if chain_le_lt (-78) center_lon (-75) then "32189"
  else if chain_le_lt (-81) center_lon (-78) then "32190"
  else "32188".

(** [get_mtm_nad83_crs_from_bounds] (aoi_handler.py, lines 243-279): the
    strict sibling.  [None] as argument stands for a [bounds] value that
    is [None] or not of length 4. *)
Definition get_mtm_nad83_crs_from_bounds (b : option bounds) : option string :=
  match b with
  | None => None
  | Some b =>
      let center_lon := ((minx b + maxx b) / 2)%float in
      if chain_le_lt (-58.5) center_lon (-55.5) then Some "EPSG:32183"
      else if chain_le_lt (-61.5) center_lon (-58.5) then Some "EPSG:32184"
      else if chain_le_lt (-64.5) center_lon (-61.5) then Some "EPSG:32185"
      else if chain_le_lt (-67.5) center_lon (-64.5) then Some "EPSG:32186"
      else if chain_le_lt (-70.5) center_lon (-67.5) then Some "EPSG:32187"
      else if chain_le_lt (-73.5) center_lon (-70.5) then Some "EPSG:32188"
      else if chain_le_lt (-76.5) center_lon (-73.5) then Some "EPSG:32189"
      else if chain_le_lt (-79.5) center_lon (-76.5) then Some "EPSG:32190"
      else None
  end.

(** The band table the specification speaks of: each band is the
    half-open longitude interval [[band_lo, band_hi)] with its zone. *)
Record band : Type := Band { band_lo : float; band_hi : float; band_zone : string }.

Definition zone_bands : list band :=
  [ Band (-72) (-69) "32187";
    Band (-75) (-72) "32188";
    Band (-78) (-75) "32189";
    Band (-81) (-78) "32190" ].

Definition default_zone : string := "32188".

Definition in_band (bd : band) (c : float) : Prop :=
  chain_le_lt (band_lo bd) c (band_hi bd) = true.

(** Adjacent entries of the table meet end to start. *)
Fixpoint contiguous (l : list band) : Prop :=
  match l with
  | bd1 :: ((bd2 :: _) as tl) => band_lo bd1 = band_hi bd2 /\ contiguous tl
  | _ => True
  end.

End Zone.

(** ** Tile-code grammar (core/aoi/aoi.py, lines 126-143) *)

Module TileCode.
Import PyStr.

(** The suffix list of [Aoi._is_code_20k]. *)
Definition suffixes_20k : list string := ["NE"; "NO"; "SE"; "SO"; "NW"; "SW"].

(** [Aoi._is_code_20k], for a code that is ASCII text ([len] is then
    [String.length], and [upper], [isdigit], [isalpha] are those of
    [PyStr]). *)
Definition _is_code_20k (code : string) : bool :=
  let code_upper := upper code in
  let n := String.length code_upper in
  if ((n =? 7)%nat || (n =? 8)%nat) && str_in (last2 code_upper) suffixes_20k then
    let prefix_len := n - 2 in
    let prefix := slice code_upper 0 prefix_len in
    if ((prefix_len =? 5)%nat && isdigit (slice prefix 0 2)
          && isalpha_at prefix 2 && isdigit (slice prefix 3 5))
       || ((prefix_len =? 6)%nat && isdigit (slice prefix 0 3)
          && isalpha_at prefix 3 && isdigit (slice prefix 4 6))
    then true
    else false
  else false.

(** The body of [_is_code_20k] as a function of the upper-cased code. *)
Definition is_code_20k_upper (code_upper : string) : bool :=
  let n := String.length code_upper in
  ((n =? 7)%nat || (n =? 8)%nat) && str_in (last2 code_upper) suffixes_20k
  && (((n - 2 =? 5)%nat && isdigit (slice (slice code_upper 0 (n - 2)) 0 2)
         && isalpha_at (slice code_upper 0 (n - 2)) 2
         && isdigit (slice (slice code_upper 0 (n - 2)) 3 5))
      || ((n - 2 =? 6)%nat && isdigit (slice (slice code_upper 0 (n - 2)) 0 3)
         && isalpha_at (slice code_upper 0 (n - 2)) 3
         && isdigit (slice (slice code_upper 0 (n - 2)) 4 6))).

(** [Aoi._normalize_50k_code_for_20k_index], for a code that is ASCII
    text. *)
Definition _normalize_50k_code_for_20k_index (code_50k : string) : string :=
  let code_upper := upper code_50k in
  if (String.length code_upper =? 6)%nat && startswith code_upper "0"
  then drop 1 code_upper
  else code_upper.

(** [_normalize_code_for_20k_index] (aoi_handler.py, lines 30-43): every
    return statement yields [code_upper] or [code_upper[1:]]. *)
Definition _normalize_code_for_20k_index (code : string) : string :=
  let code_upper := upper code in
  if (String.length code_upper =? 8)%nat && startswith code_upper "0"
     && isalpha_at code_upper 3 then
    let prefix_50k_part := slice code_upper 1 6 in
    if (String.length prefix_50k_part =? 5)%nat
       && isdigit (slice prefix_50k_part 0 2)
       && isalpha_at prefix_50k_part 2
       && isdigit (slice prefix_50k_part 3 5)
    then drop 1 code_upper
    else code_upper
  else if (String.length code_upper =? 7)%nat && isalpha_at code_upper 2 then
    code_upper
  else code_upper.



(** The code-shape grammar in the specification's words: a character
    class per position. *)
Inductive char_class : Type := Digit | Letter.

Definition in_class (k : char_class) (c : ascii) : Prop :=
  match k with
  | Digit => isdigit_char c = true
  | Letter => isalpha_char c = true
  end.

Fixpoint has_shape (pat : list char_class) (s : string) : Prop :=
  match pat, s with
  | [], EmptyString => True
  | k :: pat', String c s' => in_class k c /\ has_shape pat' s'
  | _, _ => False
  end.

(** A parent prefix is two or three digits, a letter, two digits. *)
Definition valid_parent_prefix (p : string) : Prop :=
  has_shape [Digit; Digit; Letter; Digit; Digit] p \/
  has_shape [Digit; Digit; Digit; Letter; Digit; Digit] p.

(** A child code, for a given list of directional suffixes. *)
Definition child_shape (suffixes : list string) (code : string) : Prop :=
  (String.length code = 7 \/ String.length code = 8) /\
  exists p s, upper code = p +:+ s /\ In s suffixes /\ valid_parent_prefix p.

(** The claim's reading of a directional suffix: two upper-case letters. *)
Definition directional (s : string) : Prop :=
  String.length s = 2 /\ upper s = s.


(** "Starts with the prefix (case-insensitively) and is exactly one suffix
    level, two characters, deeper." *)
Definition one_level_deeper (prefix code : string) : Prop :=
  exists sfx, upper code = prefix +:+ sfx /\ String.length sfx = 2.

End TileCode.

(** ** The external collaborators *)

Module Engine.
Import Py Geo.

(** What the program asks of pyproj, geopandas, shapely, GDAL and the
    network.  Each field is the observable result of one library call. *)
Record t : Type := mk {
  (** [os.getenv('GIS_REFERENCE_PATH', '.')] *)
  GIS_REFERENCE_PATH : string;
  (** [CRS(x).to_epsg()], the code rendered by [str]; [None] when the CRS
      has no EPSG code; raises [CRSError] on an unknown CRS. *)
  crs_to_epsg : string -> result (option string);
  (** [CRS.from_user_input(x).to_string()] *)
  crs_to_string : string -> result string;
  (** [geopandas.read_file(path, layer=layer)] *)
  read_file : string -> option string -> result GeoDataFrame;
  (** [gdf.to_crs(crs)] *)
  to_crs : GeoDataFrame -> string -> result GeoDataFrame;
  (** [gdf.total_bounds] *)
  total_bounds : GeoDataFrame -> Zone.bounds;
  (** [unary_union(geoms)] and [gdf.unary_union] *)
  unary_union : list geometry -> result (option geometry);
  (** [GeoSeries([g], crs=src).to_crs(dst).iloc[0]] *)
  geom_to_crs : geometry -> string -> option string -> result geometry;
  (** [a.intersects(b)] *)
  intersects : geometry -> geometry -> bool;
  (** [get_mnt_20k_subfeuillet_data_gdal(code, target_crs_str)]: the
      GDAL attribute-filter lookup of one sub-sheet (aoi_handler.py,
      lines 117-196), already wrapped by [handle_errors]. *)
  get_mnt_20k_subfeuillet_data_gdal : string -> string -> option GeoDataFrame;
  (** [g.is_valid], [g.buffer(0)] *)
  is_valid : geometry -> bool;
  buffer0 : geometry -> geometry;
  (** [gpd.clip(gdf, mask, keep_geom_type=False)] *)
  clip : GeoDataFrame -> geometry -> result GeoDataFrame;
  (** [gdf.geometry = gdf.geometry.buffer(0)] on a copy *)
  gdf_buffer0 : GeoDataFrame -> result GeoDataFrame;
  (** [fiona.listlayers(path)] *)
  listlayers : string -> result (list string);
  (** Does [gdf.to_file(path, layer=..., driver="GPKG")] raise? *)
  to_file_error : GeoDataFrame -> string -> string -> option exn;
  (** The size in bytes of a GeoPackage file that holds these layers. *)
  gpkg_file_size : gmap string GeoDataFrame -> N }.

Definition MNT_20K_INDEX_GPKG_PATH (E : t) : string :=
  FS.join (GIS_REFERENCE_PATH E) "INDEX.gpkg".
Definition MNT_20K_INDEX_LAYER_NAME : string := "QC_index_url_snrc_mnt".
Definition MNT_20K_FEUILLET_COLUMN : string := "feuillet".
Definition MNT_20K_URL_COLUMN : string := "lidar_url".

End Engine.

(** ** AOI resolution (core/aoi/aoi.py, core/aoi/aoi_handler.py) *)

Module AoiResolver.
Import Py PyStr Geo Zone TileCode ErrorHandler.

(** The fields of an [Aoi] object. *)
Record Aoi : Type := mkAoi {
  definition_type : option string;
  input_references : list string;
  combined_gdf_epsg4326 : option GeoDataFrame;
  combined_geometry_epsg4326 : option geometry;
  bounds_epsg4326 : option bounds;
  use_custom_crs : bool;
  target_mtm_crs : option string;
  combined_geometry_mtm : option geometry;
  subfeuillet_20k_data_gdfs : list GeoDataFrame }.

Definition set_definition_type (v : option string) (a : Aoi) : Aoi :=
  mkAoi v (input_references a) (combined_gdf_epsg4326 a)
    (combined_geometry_epsg4326 a) (bounds_epsg4326 a) (use_custom_crs a)
    (target_mtm_crs a) (combined_geometry_mtm a) (subfeuillet_20k_data_gdfs a).

Definition set_input_references (v : list string) (a : Aoi) : Aoi :=
  mkAoi (definition_type a) v (combined_gdf_epsg4326 a)
    (combined_geometry_epsg4326 a) (bounds_epsg4326 a) (use_custom_crs a)
    (target_mtm_crs a) (combined_geometry_mtm a) (subfeuillet_20k_data_gdfs a).

Definition set_combined_gdf_epsg4326 (v : option GeoDataFrame) (a : Aoi) : Aoi :=
  mkAoi (definition_type a) (input_references a) v
    (combined_geometry_epsg4326 a) (bounds_epsg4326 a) (use_custom_crs a)
    (target_mtm_crs a) (combined_geometry_mtm a) (subfeuillet_20k_data_gdfs a).

Definition set_combined_geometry_epsg4326 (v : option geometry) (a : Aoi) : Aoi :=
  mkAoi (definition_type a) (input_references a) (combined_gdf_epsg4326 a)
    v (bounds_epsg4326 a) (use_custom_crs a)
    (target_mtm_crs a) (combined_geometry_mtm a) (subfeuillet_20k_data_gdfs a).

Definition set_bounds_epsg4326 (v : option bounds) (a : Aoi) : Aoi :=
  mkAoi (definition_type a) (input_references a) (combined_gdf_epsg4326 a)
    (combined_geometry_epsg4326 a) v (use_custom_crs a)
    (target_mtm_crs a) (combined_geometry_mtm a) (subfeuillet_20k_data_gdfs a).

Definition set_use_custom_crs (v : bool) (a : Aoi) : Aoi :=
  mkAoi (definition_type a) (input_references a) (combined_gdf_epsg4326 a)
    (combined_geometry_epsg4326 a) (bounds_epsg4326 a) v
    (target_mtm_crs a) (combined_geometry_mtm a) (subfeuillet_20k_data_gdfs a).

Definition set_target_mtm_crs (v : option string) (a : Aoi) : Aoi :=
  mkAoi (definition_type a) (input_references a) (combined_gdf_epsg4326 a)
    (combined_geometry_epsg4326 a) (bounds_epsg4326 a) (use_custom_crs a)
    v (combined_geometry_mtm a) (subfeuillet_20k_data_gdfs a).

Definition set_combined_geometry_mtm (v : option geometry) (a : Aoi) : Aoi :=
  mkAoi (definition_type a) (input_references a) (combined_gdf_epsg4326 a)
    (combined_geometry_epsg4326 a) (bounds_epsg4326 a) (use_custom_crs a)
    (target_mtm_crs a) v (subfeuillet_20k_data_gdfs a).

Definition set_subfeuillet_20k_data_gdfs (v : list GeoDataFrame) (a : Aoi) : Aoi :=
  mkAoi (definition_type a) (input_references a) (combined_gdf_epsg4326 a)
    (combined_geometry_epsg4326 a) (bounds_epsg4326 a) (use_custom_crs a)
    (target_mtm_crs a) (combined_geometry_mtm a) v.

(** Truthiness of an attribute that is [None] or a [str]. *)
Definition opt_truthy (o : option string) : bool :=
  match o with Some s => truthy s | None => false end.

(** [str(x)] for [x] an EPSG code or [None]. *)
Definition str_epsg (o : option string) : string := default "None" o.

(** [Aoi.is_valid_mtm_crs], lines 48-65. *)
Definition is_valid_mtm_crs (E : Engine.t) (crs : string) : bool :=
  match Engine.crs_to_epsg E crs with
  | Return epsg_code => bool_decide (is_Some (VALID_MTM_CRS !! str_epsg epsg_code))
  | Raise _ => false
  end.

(** [Aoi.__init__], lines 96-124. *)
Definition init (E : Engine.t) (custom_crs : option string) : result Aoi :=
  let self := mkAoi None [] None None None false None None [] in
  if opt_truthy custom_crs then
    let c := default "" custom_crs in
    if is_valid_mtm_crs E c then
      epsg ← Engine.crs_to_epsg E c;
      Return (set_use_custom_crs true (set_target_mtm_crs (Some (str_epsg epsg)) self))
    else Return self
  else Return self.

(** "Validate custom CRS if used" (lines 313-319). *)
Definition validate_custom_crs (E : Engine.t) (self : Aoi) : Aoi :=
  if use_custom_crs self && opt_truthy (target_mtm_crs self) then
    if negb (is_valid_mtm_crs E (default "" (target_mtm_crs self)))
    then set_target_mtm_crs None (set_use_custom_crs false self)
    else self
  else self.

(** "Determine MTM projection if needed" (lines 321-323). *)
Definition determine_mtm_projection (bnds : bounds) (self : Aoi) : Aoi :=
  if negb (opt_truthy (target_mtm_crs self))
  then set_target_mtm_crs (Some (get_mtm_zone_from_bounds bnds)) self
  else self.

(** "Ensure CRS is properly formatted" (lines 329-351): a numeric code
    gets the [EPSG:] prefix; the CRS is resolved and rewritten in canonical
    form; when that fails the zone selector is asked again. *)
Definition format_target_crs (E : Engine.t) (bnds : bounds) (self : Aoi) : Aoi :=
  let self :=
    if isdigit (default "" (target_mtm_crs self))
    then set_target_mtm_crs (Some ("EPSG:" +:+ default "" (target_mtm_crs self))) self
    else self in
  match Engine.crs_to_epsg E (default "" (target_mtm_crs self)) with
  | Return (Some epsg_code) =>
      set_target_mtm_crs (Some ("EPSG:" +:+ epsg_code)) self
  | Return None | Raise _ =>
      set_target_mtm_crs (Some ("EPSG:" +:+ get_mtm_zone_from_bounds bnds)) self
  end.

(** "Reproject to target CRS" (lines 353-381). *)
Definition reproject_to_target (E : Engine.t) (gdf : GeoDataFrame) (self : Aoi)
    : bool * Aoi :=
  let target := default "" (target_mtm_crs self) in
  match gdf_crs gdf with
  | None => (false, self)
  | Some crs =>
      if String.eqb (upper crs) (upper target) then
        match geometry_iloc0 gdf with
        | Return g => (true, set_combined_geometry_mtm g self)
        | Raise _ => (false, self)
        end
      else
        match Engine.to_crs E gdf target with
        | Raise _ => (false, self)
        | Return gdf_mtm =>
            if negb (gdf_empty gdf_mtm) then
              match geometry_iloc0 gdf_mtm with
              | Return (Some geom_mtm) =>
                  if is_empty geom_mtm then (false, self)
                  else (true, set_combined_geometry_mtm (Some geom_mtm) self)
              | Return None => (false, self)
              | Raise _ => (false, self)
              end
            else (false, self)
        end
  end.

(** [Aoi._finalize_definition], lines 301-381. *)
Definition _finalize_definition (E : Engine.t) (self : Aoi) : bool * Aoi :=
  match combined_gdf_epsg4326 self, bounds_epsg4326 self with
  | Some gdf, Some bnds =>
      let self := validate_custom_crs E self in
      let self := determine_mtm_projection bnds self in
      if negb (opt_truthy (target_mtm_crs self)) then (false, self)
      else
        let self := format_target_crs E bnds self in
        reproject_to_target E gdf self
  | _, _ => (false, self)
  end.

(** What the last step of finalization needs from the Geometry Engine for
    it to report success (lines 355-381): a frame already in the target
    CRS with a first feature, or a reprojection whose first feature has a
    non-empty geometry. *)
Definition reprojects_to (E : Engine.t) (gdf : GeoDataFrame) (target : string) : Prop :=
  match gdf_crs gdf with
  | None => False
  | Some crs =>
      if String.eqb (upper crs) (upper target) then gdf_rows gdf <> []
      else exists gdf_mtm r rest g,
          Engine.to_crs E gdf target = Return gdf_mtm /\
          gdf_rows gdf_mtm = r :: rest /\
          row_geometry r = Some g /\ is_empty g = false
  end.

(** The filter of lines 196-200: the rows of the fine-grained index whose
    code starts with the prefix and is two characters longer ([.str.upper]
    and [.str.len] on a column of ASCII text). *)
Definition is_child_row (normalized_50k_prefix : string) (r : Row) : bool :=
  startswith (upper (cell Engine.MNT_20K_FEUILLET_COLUMN r)) normalized_50k_prefix
  && (String.length (cell Engine.MNT_20K_FEUILLET_COLUMN r)
      =? String.length normalized_50k_prefix + 2)%nat.

Definition intersecting_20k_tiles (index_mnt_gdf_full : GeoDataFrame)
    (normalized_50k_prefix : string) : result GeoDataFrame :=
  _ ← column index_mnt_gdf_full Engine.MNT_20K_FEUILLET_COLUMN;
  Return (select index_mnt_gdf_full (is_child_row normalized_50k_prefix)).

(** The index as the parent branch reads it (lines 186-193). *)
Definition read_index_20k (E : Engine.t) (common_crs_for_union : string)
    : result GeoDataFrame :=
  index_mnt_gdf_full ←
    Engine.read_file E (Engine.MNT_20K_INDEX_GPKG_PATH E)
      (Some Engine.MNT_20K_INDEX_LAYER_NAME);
  match gdf_crs index_mnt_gdf_full with
  | None => Return (set_crs index_mnt_gdf_full common_crs_for_union)
  | Some crs =>
      if negb (String.eqb (upper crs) (upper common_crs_for_union))
      then Engine.to_crs E index_mnt_gdf_full common_crs_for_union
      else Return index_mnt_gdf_full
  end.

(** One iteration of the loop of [define_from_snrc_codes] (lines 167-215):
    the frames it appends to [collected_20k_gdfs]. *)
Definition collect_code (E : Engine.t) (common_crs_for_union : string)
    (code_input_orig : string) : list GeoDataFrame :=
  let code_input := upper code_input_orig in
  if _is_code_20k code_input then
    match Engine.get_mnt_20k_subfeuillet_data_gdal E code_input common_crs_for_union with
    | Some gdf_20k => if negb (gdf_empty gdf_20k) then [gdf_20k] else []
    | None => []
    end
  else
    let normalized_50k_prefix := _normalize_50k_code_for_20k_index code_input in
    match (index_mnt_gdf_full ← read_index_20k E common_crs_for_union;
           intersecting_20k_tiles index_mnt_gdf_full normalized_50k_prefix) with
    | Return tiles => map (single_row tiles) (gdf_rows tiles)
    | Raise _ => []
    end.

(** [[gdf.geometry.iloc[0] for gdf in collected if not gdf.empty and
    gdf.geometry.iloc[0] is not None]] *)
Definition geoms_for_union (collected : list GeoDataFrame) : list geometry :=
  omap (fun gdf => match gdf_rows gdf with
                   | r :: _ => row_geometry r
                   | [] => None
                   end) collected.

(** The body of [Aoi.define_from_snrc_codes], lines 146-242. *)
Definition define_from_snrc_codes_body (E : Engine.t)
    (snrc_codes_input : list pyval) (self : Aoi) : result bool * Aoi :=
  match snrc_codes_input with
  | [] => (Return false, self)
  | _ =>
      let self := set_definition_type (Some "SNRC") self in
      match list_comp py_upper snrc_codes_input with
      | Raise e => (Raise e, self)
      | Return refs =>
          let self := set_input_references refs self in
          let common_crs_for_union := "EPSG:32198" in
          let collected_20k_gdfs :=
            flat_map (collect_code E common_crs_for_union) refs in
          match collected_20k_gdfs with
          | [] => (Return false, self)
          | _ =>
              let self := set_subfeuillet_20k_data_gdfs collected_20k_gdfs self in
              match geoms_for_union collected_20k_gdfs with
              | [] => (Return false, self)
              | geoms =>
                  match Engine.unary_union E geoms with
                  | Raise _ | Return None => (Return false, self)
                  | Return (Some unified_20k_geometry) =>
                      if is_empty unified_20k_geometry then (Return false, self)
                      else
                        let gdf :=
                          one_feature [("id", "1"); ("description", "Combined 1:20k AOI")]
                            unified_20k_geometry (Some common_crs_for_union) in
                        let self := set_combined_gdf_epsg4326 (Some gdf) self in
                        match Engine.to_crs E gdf "EPSG:4326" with
                        | Raise _ => (Return false, self)
                        | Return gdf4326 =>
                            let self :=
                              set_bounds_epsg4326
                                (Some (Engine.total_bounds E gdf4326)) self in
                            let '(ok, self) := _finalize_definition E self in
                            (Return ok, self)
                        end
                  end
              end
          end
      end
  end.

(** [Aoi.define_from_snrc_codes], decorated (line 145). *)
Definition define_from_snrc_codes (E : Engine.t) (snrc_codes_input : list pyval)
    (self : Aoi) : result bool * Aoi :=
  handle_errors_method AOIError false
    (define_from_snrc_codes_body E snrc_codes_input) self.

(** The body of [get_kml_bounds] (aoi_handler.py, lines 199-241). *)
Definition get_kml_bounds_body (E : Engine.t) (fs : FS.t) (kml_path : string)
    (target_crs_str : string) : result (option GeoDataFrame) :=
  if negb (FS.exists_ fs kml_path) then Return None
  else
    try_except
      (gdf_kml ← Engine.read_file E kml_path None;
       if gdf_empty gdf_kml then Return None
       else
         let gdf_kml :=
           match gdf_crs gdf_kml with
           | None => set_crs gdf_kml "EPSG:4326"
           | Some _ => gdf_kml
           end in
         unified_geom ←
           Engine.unary_union E (omap row_geometry (gdf_rows gdf_kml));
         match unified_geom with
         | None => Return None
         | Some unified_geom =>
             if is_empty unified_geom then Return None
             else
               let gdf_bounds :=
                 one_feature [("id", "1")] unified_geom (gdf_crs gdf_kml) in
               target_crs ← Engine.crs_to_string E target_crs_str;
               if negb (String.eqb (upper (default "" (gdf_crs gdf_bounds)))
                                   (upper target_crs))
               then gdf_bounds ← Engine.to_crs E gdf_bounds target_crs;
                    Return (Some gdf_bounds)
               else Return (Some gdf_bounds)
         end)
      (fun _ => Return None).

Definition get_kml_bounds (E : Engine.t) (fs : FS.t) (kml_path : string)
    (target_crs_str : string) : option GeoDataFrame :=
  match handle_errors AOIError None (get_kml_bounds_body E fs kml_path target_crs_str) with
  | Return r => r
  | Raise _ => None
  end.

(** Lines 281-294: the sub-sheets of the index that intersect the KML
    geometry; an exception leaves the manifest as it was. *)
Definition kml_subfeuillets (E : Engine.t) (geom : geometry) (self : Aoi) : Aoi :=
  match (index_mnt_gdf ←
           Engine.read_file E (Engine.MNT_20K_INDEX_GPKG_PATH E)
             (Some Engine.MNT_20K_INDEX_LAYER_NAME);
         let index_mnt_gdf :=
           match gdf_crs index_mnt_gdf with
           | None => set_crs index_mnt_gdf "EPSG:32198"
           | Some _ => index_mnt_gdf
           end in
         kml_geom_reproj ←
           Engine.geom_to_crs E geom "EPSG:4326" (gdf_crs index_mnt_gdf);
         Return (select index_mnt_gdf
                   (fun r => match row_geometry r with
                             | Some g => Engine.intersects E g kml_geom_reproj
                             | None => false
                             end))) with
  | Return intersecting =>
      if negb (gdf_empty intersecting)
      then set_subfeuillet_20k_data_gdfs
             (map (single_row intersecting) (gdf_rows intersecting)) self
      else self
  | Raise _ => self
  end.

(** The body of [Aoi.define_from_kml_file], lines 245-299. *)
Definition define_from_kml_file_body (E : Engine.t) (fs : FS.t)
    (kml_filepath : string) (self : Aoi) : result bool * Aoi :=
  if negb (truthy kml_filepath) || negb (FS.exists_ fs kml_filepath)
  then (Return false, self)
  else
    let self := set_definition_type (Some "KML") self in
    let self := set_input_references [kml_filepath] self in
    match get_kml_bounds E fs kml_filepath "EPSG:4326" with
    | None => (Return false, self)
    | Some gdf_kml =>
        if gdf_empty gdf_kml then (Return false, self)
        else
          let self := set_combined_gdf_epsg4326 (Some gdf_kml) self in
          match geometry_iloc0 gdf_kml with
          | Raise _ | Return None => (Return false, self)
          | Return (Some geom) =>
              if is_empty geom then (Return false, self)
              else
                let self := set_combined_geometry_epsg4326 (Some geom) self in
                let self :=
                  set_bounds_epsg4326 (Some (Engine.total_bounds E gdf_kml)) self in
                let self := kml_subfeuillets E geom self in
                let '(ok, self) := _finalize_definition E self in
                (Return ok, self)
          end
    end.

(** [Aoi.define_from_kml_file], decorated (line 244). *)
Definition define_from_kml_file (E : Engine.t) (fs : FS.t) (kml_filepath : string)
    (self : Aoi) : result bool * Aoi :=
  handle_errors_method AOIError false
    (define_from_kml_file_body E fs kml_filepath) self.

End AoiResolver.

(** ** The run's mutable surroundings *)

Module World.
Import Py Geo.

(** The file system and the GeoPackage stores: path, then layer name. *)
Record t : Type := mk {
  fs : FS.t;
  gpkg : gmap string (gmap string GeoDataFrame) }.

Definition set_fs (f : FS.t) (w : t) : t := mk f (gpkg w).

Definition layers (w : t) (path : string) : gmap string GeoDataFrame :=
  default ∅ (gpkg w !! path).

(** [gdf.to_file(path, layer=layer, driver="GPKG", index=False)]: the named
    layer is written, or replaced, in the store, and the GeoPackage file at
    [path] is created or rewritten; a failing write leaves the store and
    the files as they were. *)
Definition to_file (E : Engine.t) (gdf : GeoDataFrame) (path layer : string)
    (w : t) : result unit * t :=
  match Engine.to_file_error E gdf path layer with
  | Some e => (Raise e, w)
  | None =>
      let written := <[layer := gdf]> (layers w path) in
      (Return tt,
       mk (FS.write (fs w) path (Engine.gpkg_file_size E written))
          (<[path := written]> (gpkg w)))
  end.

End World.

(** ** Vector normalization (core/processing/vector_processor.py) *)

Module VectorProcessor.
Import Py PyStr Geo ErrorHandler.

(** The triple [(success, count_before, count_after)]. *)
Definition report : Type := bool * Z * Z.

Definition len (gdf : GeoDataFrame) : Z := Z.of_nat (gdf_len gdf).

(** Lines 64-98, "Handle CRS" and "Reprojection": the frame in the target
    CRS with [count_after_reproj], or the report of the early return. *)
Definition reproject (E : Engine.t) (gdf : GeoDataFrame) (target_crs_mtm : string)
    : GeoDataFrame * Z + report :=
  let count_initial_read := len gdf in
  let gdf :=
    match gdf_crs gdf with
    | Some _ => gdf
    | None => set_crs gdf "EPSG:4326"
    end in
  let perform_reprojection :=
    match gdf_crs gdf with
    | Some crs => negb (String.eqb (upper crs) (upper target_crs_mtm))
    | None => true
    end in
  if perform_reprojection then
    match Engine.to_crs E gdf target_crs_mtm with
    | Return gdf_mtm => inl (gdf_mtm, len gdf_mtm)
    | Raise _ => inr (false, count_initial_read, (-1)%Z)
    end
  else inl (gdf, count_initial_read).

(** Lines 104-110, "Validate AOI geometry". *)
Definition validate_aoi (E : Engine.t) (aoi_geometry_mtm : geometry) : option geometry :=
  if negb (Engine.is_valid E aoi_geometry_mtm) then
    let repaired := Engine.buffer0 E aoi_geometry_mtm in
    if negb (Engine.is_valid E repaired) then None else Some repaired
  else Some aoi_geometry_mtm.

(** Lines 112-141, "Clipping": one attempt, then one retry on the frame
    repaired by a zero-width buffer. *)
Definition clip_with_retry (E : Engine.t) (gdf_mtm : GeoDataFrame)
    (aoi_geometry_mtm : geometry) (target_crs_mtm : string) : option GeoDataFrame :=
  let gdf_mtm :=
    match gdf_crs gdf_mtm with
    | None => set_crs gdf_mtm target_crs_mtm
    | Some _ => gdf_mtm
    end in
  match Engine.clip E gdf_mtm aoi_geometry_mtm with
  | Return gdf_clipped => Some gdf_clipped
  | Raise _ =>
      match (gdf_mtm_buffered ← Engine.gdf_buffer0 E gdf_mtm;
             let gdf_mtm_buffered :=
               match gdf_crs gdf_mtm_buffered, gdf_crs gdf_mtm with
               | None, Some crs => set_crs gdf_mtm_buffered crs
               | None, None =>
                   if truthy target_crs_mtm
                   then set_crs gdf_mtm_buffered target_crs_mtm
                   else gdf_mtm_buffered
               | Some _, _ => gdf_mtm_buffered
               end in
             Engine.clip E gdf_mtm_buffered aoi_geometry_mtm) with
      | Return gdf_clipped => Some gdf_clipped
      | Raise _ => None
      end
  end.

(** Lines 153-157, "Clean column names". *)
Definition clean_columns (gdf : GeoDataFrame) : GeoDataFrame :=
  mkGDF (map clean_column_name (gdf_columns gdf))
    (map (fun r => mkRow (list_to_map
                            (map (fun kv => (clean_column_name (fst kv), snd kv))
                                 (map_to_list (row_cells r))))
                     (row_geometry r))
         (gdf_rows gdf))
    (gdf_crs gdf).

(** Lines 150-181, "Save output": the write and the report that follows;
    the boolean is [processed_successfully]. *)
Definition save_output (E : Engine.t) (gdf_clipped : GeoDataFrame)
    (output_gpkg_path output_layer_name : string) (count_before count_after : Z)
    (w : World.t) : report * bool * World.t :=
  match World.to_file E (clean_columns gdf_clipped) output_gpkg_path
          output_layer_name w with
  | (Return _, w') => ((true, count_before, count_after), true, w')
  | (Raise _, w') => ((false, count_before, count_after), false, w')
  end.

(** The [try] block, lines 47-191, with its two handlers. *)
Definition process_vector_data_try (E : Engine.t) (input_filepath : string)
    (aoi_geometry_mtm : geometry) (target_crs_mtm output_gpkg_path
     output_layer_name : string) (w : World.t) : report * bool * World.t :=
  if negb (FS.exists_ (World.fs w) input_filepath)
  then ((false, (-1)%Z, (-1)%Z), false, w)
  else
    match Engine.read_file E input_filepath None with
    | Raise e =>
        if isinstance e FileNotFoundError
        then ((false, (-1)%Z, (-1)%Z), false, w)
        else ((false, 0%Z, (-1)%Z), false, w)
    | Return gdf =>
        if gdf_empty gdf then ((true, 0%Z, 0%Z), false, w)
        else
          match reproject E gdf target_crs_mtm with
          | inr early => (early, false, w)
          | inl (gdf_mtm, count_after_reproj) =>
              let count_before_clip_for_summary := count_after_reproj in
              match validate_aoi E aoi_geometry_mtm with
              | None => ((false, count_before_clip_for_summary, (-1)%Z), false, w)
              | Some aoi_geometry_mtm =>
                  match clip_with_retry E gdf_mtm aoi_geometry_mtm target_crs_mtm with
                  | None => ((false, count_before_clip_for_summary, (-1)%Z), false, w)
                  | Some gdf_clipped =>
                      let count_after_clip := len gdf_clipped in
                      save_output E gdf_clipped output_gpkg_path output_layer_name
                        count_before_clip_for_summary count_after_clip w
                  end
              end
          end
    end.

(** The [finally] block, lines 193-207: a temporary input is removed only
    after a successful run. *)
Definition process_vector_data_finally (input_filepath : string)
    (delete_input_temp_file : bool) (temp_processing_dir : option string)
    (processed_successfully : bool) (w : World.t) : World.t :=
  let is_temp_file :=
    match temp_processing_dir with
    | Some d => truthy d && truthy input_filepath && startswith input_filepath d
                && contains "temp_" (FS.basename input_filepath)
    | None => false
    end in
  if delete_input_temp_file && is_temp_file
     && FS.exists_ (World.fs w) input_filepath then
    if processed_successfully
    then World.set_fs (snd (FS.remove (World.fs w) input_filepath)) w
    else w
  else w.

(** [process_vector_data], decorated (line 19). *)
Definition process_vector_data (E : Engine.t) (input_filepath : string)
    (aoi_geometry_mtm : geometry) (target_crs_mtm output_gpkg_path
     output_layer_name : string) (delete_input_temp_file : bool)
    (temp_processing_dir : option string) (w : World.t) : result report * World.t :=
  let '(r, processed_successfully, w) :=
    process_vector_data_try E input_filepath aoi_geometry_mtm target_crs_mtm
      output_gpkg_path output_layer_name w in
  let w :=
    process_vector_data_finally input_filepath delete_input_temp_file
      temp_processing_dir processed_successfully w in
  (handle_errors ProcessingError (false, (-1)%Z, (-1)%Z) (Return r), w).

End VectorProcessor.

(** ** Tiled raster archive (core/datasources/mnt_lidar.py) *)

Module MntLidar.
Import Py PyStr Geo ErrorHandler.

(** The [content-length] header of a response: absent, an integer, or text
    that [int] rejects. *)
Inductive content_length_header : Type :=
| HeaderAbsent
| HeaderInt (n : Z)
| HeaderMalformed.

(** What [requests.get(url, stream=True, timeout=300)] delivers: the
    status, the declared length, the bytes that [iter_content] yields, and
    whether the stream breaks after them. *)
Record Response : Type := mkResponse {
  status_ok : bool;
  content_length : content_length_header;
  body_bytes : N;
  stream_fails : bool }.

Definition Net : Type := string -> result Response.

(** [int(response.headers.get('content-length', 0))] *)
Definition total_size_of (h : content_length_header) : result Z :=
  match h with
  | HeaderAbsent => Return 0%Z
  | HeaderInt n => Return n
  | HeaderMalformed => Raise (Exn ValueError "invalid literal for int()")
  end.

(** The fields of an [MNTLiDARSource]; a missing configuration entry is
    the empty string. *)
Record MNTLiDARSource : Type := mkSource {
  name : string;
  enabled : bool;
  index_gpkg_path : string;
  index_layer_name : string;
  index_feuillet_column : string;
  index_url_column : string;
  local_cache_dir : string;
  temp_files : list string }.

Definition required_fields (self : MNTLiDARSource) : list string :=
  [index_gpkg_path self; index_layer_name self;
   index_feuillet_column self; index_url_column self].

(** [validate_config() == []], lines 50-70; paths are taken as resolved. *)
Definition config_valid (self : MNTLiDARSource) (fs : FS.t) : bool :=
  forallb truthy (required_fields self)
  && (negb (truthy (index_gpkg_path self)) || FS.exists_ fs (index_gpkg_path self)).

(** [DataSource.is_enabled] (base.py, lines 63-72). *)
Definition is_enabled (self : MNTLiDARSource) (fs : FS.t) : bool :=
  if negb (enabled self) then false else config_valid self fs.

(** What the loop of [fetch_data] carries from tile to tile. *)
Record fetch_state : Type := mkState {
  local_tif_paths : list string;
  st_temp_files : list string;
  st_fs : FS.t }.

(** Lines 132-186: the [try] block of one tile. *)
Definition download_tile (self : MNTLiDARSource) (net : Net)
    (tif_filename download_url temp_tif_path : string) (st : fetch_state)
    : fetch_state :=
  let cached_path := FS.join (local_cache_dir self) tif_filename in
  if truthy (local_cache_dir self) && FS.exists_ (st_fs st) cached_path then
    mkState (local_tif_paths st ++ [cached_path]) (st_temp_files st) (st_fs st)
  else
    match net download_url with
    | Raise _ => st
    | Return response =>
        if negb (status_ok response) then st
        else
          match total_size_of (content_length response) with
          | Raise _ => st
          | Return total_size =>
              let fs1 := FS.write (st_fs st) temp_tif_path (body_bytes response) in
              if stream_fails response
              then mkState (local_tif_paths st) (st_temp_files st) fs1
              else
                if negb (total_size =? 0)%Z
                   && negb (Z.of_N (body_bytes response) =? total_size)%Z
                then
                  (* Download incomplete: delete the partial file *)
                  let fs2 :=
                    if FS.exists_ fs1 temp_tif_path
                    then snd (FS.remove fs1 temp_tif_path)
                    else fs1 in
                  mkState (local_tif_paths st) (st_temp_files st) fs2
                else
                  let fs2 :=
                    if truthy (local_cache_dir self) then
                      if negb (FS.exists_ fs1 cached_path)
                      then FS.write fs1 cached_path (body_bytes response)
                      else fs1
                    else fs1 in
                  mkState (local_tif_paths st ++ [temp_tif_path])
                    (st_temp_files st ++ [temp_tif_path]) fs2
          end
    end.

(** Lines 114-186: one iteration of the loop. *)
Definition fetch_tile (self : MNTLiDARSource) (net : Net) (temp_dir : string)
    (st : fetch_state) (tile_gdf : GeoDataFrame) : fetch_state :=
  match (feuillet_name ← column_iloc0 tile_gdf (index_feuillet_column self);
         folder_url ← column_iloc0 tile_gdf (index_url_column self);
         Return (feuillet_name, folder_url)) with
  | Raise _ => st
  | Return (feuillet_name, folder_url) =>
      if negb (truthy feuillet_name) || negb (truthy folder_url) then st
      else
        let tif_filename := "MNT_" +:+ feuillet_name +:+ ".tif" in
        let download_url := rstrip_slash folder_url +:+ "/" +:+ tif_filename in
        let temp_tif_path := FS.join temp_dir tif_filename in
        download_tile self net tif_filename download_url temp_tif_path st
  end.

(** The body of [MNTLiDARSource.fetch_data], lines 73-193; the AOI gives
    its sub-tile manifest. *)
Definition fetch_data_body (self : MNTLiDARSource) (net : Net)
    (subfeuillet_20k_data_gdfs : list GeoDataFrame) (temp_dir : string)
    (fs : FS.t) : result (option (list string)) * (MNTLiDARSource * FS.t) :=
  if negb (is_enabled self fs) then (Return None, (self, fs))
  else if negb (forallb truthy (required_fields self)) then (Return None, (self, fs))
  else
    match subfeuillet_20k_data_gdfs with
    | [] => (Return None, (self, fs))
    | _ =>
        let st :=
          fold_left (fetch_tile self net temp_dir) subfeuillet_20k_data_gdfs
            (mkState [] (temp_files self) fs) in
        let self :=
          mkSource (name self) (enabled self) (index_gpkg_path self)
            (index_layer_name self) (index_feuillet_column self)
            (index_url_column self) (local_cache_dir self) (st_temp_files st) in
        match local_tif_paths st with
        | [] => (Return None, (self, st_fs st))
        | paths => (Return (Some paths), (self, st_fs st))
        end
    end.

(** [MNTLiDARSource.fetch_data], decorated (line 72). *)
Definition fetch_data (self : MNTLiDARSource) (net : Net)
    (subfeuillet_20k_data_gdfs : list GeoDataFrame) (temp_dir : string)
    (fs : FS.t) : result (option (list string)) * (MNTLiDARSource * FS.t) :=
  let '(r, st) := fetch_data_body self net subfeuillet_20k_data_gdfs temp_dir fs in
  (handle_errors DataSourceError None r, st).

End MntLidar.

(** ** The orchestrator (core/pipeline/pipeline_manager.py) *)

Module Pipeline.
Import Py PyStr Geo ErrorHandler AoiResolver.

(** The classes [run] tells apart with [isinstance]. *)
Inductive source_class : Type :=
| IsMNTLiDARSource
| IsCourbesNiveauSource
| IsLocalRasterDataSource
| IsOtherSource.

(** A [DataSource] object as the orchestrator reads it (base.py, lines
    21-26, and the output names of the raster classes). *)
Record DataSource : Type := mkDataSource {
  ds_class : source_class;
  ds_id : string;
  ds_name : string;
  ds_type : string;
  ds_enabled : bool;
  ds_priority : Z;
  ds_output_layer_name : string;
  ds_output_name_mnt : string;
  ds_output_name_hillshade : string;
  ds_output_name_raster : string;
  ds_index_feuillet_column : string }.

(** One dictionary of [processing_summary]; [processed_items_in_aoi] is a
    key that only some branches set. *)
Record SourceOutcome : Type := mkOutcome {
  so_id : string;
  so_name : string;
  so_type : string;
  so_enabled : bool;
  so_status : string;
  items_source_in_aoi_bbox : pyval;
  items_processed_final : pyval;
  priority_level : Z;
  processed_items_in_aoi : option pyval }.

Definition set_status (v : string) (x : SourceOutcome) : SourceOutcome :=
  mkOutcome (so_id x) (so_name x) (so_type x) (so_enabled x) v
    (items_source_in_aoi_bbox x) (items_processed_final x) (priority_level x)
    (processed_items_in_aoi x).

Definition set_items_source (v : pyval) (x : SourceOutcome) : SourceOutcome :=
  mkOutcome (so_id x) (so_name x) (so_type x) (so_enabled x) (so_status x)
    v (items_processed_final x) (priority_level x) (processed_items_in_aoi x).

Definition set_processed_items (v : pyval) (x : SourceOutcome) : SourceOutcome :=
  mkOutcome (so_id x) (so_name x) (so_type x) (so_enabled x) (so_status x)
    (items_source_in_aoi_bbox x) (items_processed_final x) (priority_level x)
    (Some v).

(** The identifier of the AOI index source. *)
Definition AOI_INDEX_ID : string := "snrc_index_local_50k".

(** What [fetch_data] is given and what it returns. *)
Inductive fetch_arg : Type :=
| ArgAoi (a : Aoi)
| ArgBounds (b : Zone.bounds).

Inductive fetched : Type :=
| FetchedNone
| FetchedStr (path : string)
| FetchedList (paths : list string).

(** The calls of [run] into the data sources and the Raster Engine. *)
Record Hooks : Type := mkHooks {
  (** [ds_object.fetch_data(fetch_arg, temp_files_dir)] *)
  fetch_data : DataSource -> fetch_arg -> string -> World.t
               -> result fetched * World.t;
  (** [merge_reproject_clip_rasters(paths, crs, geometry, output)] *)
  merge_reproject_clip_rasters :
    list string -> string -> geometry -> string -> World.t
    -> option string * World.t;
  (** [generate_hillshade_gdal(input, output)] *)
  generate_hillshade_gdal : string -> string -> World.t -> bool * World.t;
  (** [datetime.now().strftime("%y%m%d")] *)
  date_yymmdd : string;
  (** [cleanup()] and [_generate_qgis_project()]: effects on the files
      only. *)
  cleanup : World.t -> World.t }.

(** [s.split(":")[1]] for a string that holds a colon. *)
Fixpoint until_colon (s : string) : string :=
  match s with
  | EmptyString => EmptyString
  | String c s' => if Ascii.eqb c ":" then EmptyString else String c (until_colon s')
  end.

Fixpoint after_colon (s : string) : string :=
  match s with
  | EmptyString => EmptyString
  | String c s' => if Ascii.eqb c ":" then s' else after_colon s'
  end.

(** [get_mtm_short_name], lines 31-43. *)
Definition get_mtm_short_name (mtm_epsg_code : option string) : string :=
  match mtm_epsg_code with
  | None => "UnknownZone"
  | Some code =>
      if negb (truthy code) || negb (contains "EPSG:" code) then "UnknownZone"
      else
        let code_epsg_num_str := until_colon (after_colon code) in
        let mtm_zone_map : gmap string string :=
          list_to_map [("32183", "3"); ("32184", "4"); ("32185", "5");
                       ("32186", "6"); ("32187", "7"); ("32188", "8");
                       ("32189", "9"); ("32190", "10")] in
        default ("EPSG" +:+ code_epsg_num_str) (mtm_zone_map !! code_epsg_num_str)
  end.

(** The fields of a [PipelineManager]. *)
Record PipelineManager : Type := mkPM {
  project_id : string;
  aoi : option Aoi;
  list_of_datasources : list DataSource;
  output_vector_gpkg_filepath : option string;
  imagery_output_subdir : option string;
  temp_files_dir : option string;
  project_output_dir : option string;
  processing_summary : list SourceOutcome }.

Definition set_processing_summary (v : list SourceOutcome) (pm : PipelineManager)
    : PipelineManager :=
  mkPM (project_id pm) (aoi pm) (list_of_datasources pm)
    (output_vector_gpkg_filepath pm) (imagery_output_subdir pm)
    (temp_files_dir pm) (project_output_dir pm) v.

(** [next((ds for ds in list if ds.id == AOI_INDEX_ID and ds.enabled), None)] *)
Definition is_enabled_index_source (ds : DataSource) : bool :=
  String.eqb (ds_id ds) AOI_INDEX_ID && ds_enabled ds.

Definition find_index_source (l : list DataSource) : option DataSource :=
  List.find is_enabled_index_source l.

(** Lines 430-446: saving the AOI extent; the status and the two counts. *)
Definition save_aoi_extent (E : Engine.t) (a : Aoi) (out layer : string)
    (w : World.t) : string * Z * Z * World.t :=
  match combined_gdf_epsg4326 a, target_mtm_crs a with
  | Some gdf, Some target =>
      let items_bruts := if negb (gdf_empty gdf) then 1%Z else 0%Z in
      match Engine.to_crs E gdf target with
      | Raise _ => ("Failed (AOI Extent Save)", items_bruts, 0%Z, w)
      | Return aoi_to_save =>
          if negb (gdf_empty aoi_to_save) then
            match World.to_file E aoi_to_save out layer w with
            | (Return _, w') =>
                ("Success", items_bruts, Z.of_nat (gdf_len aoi_to_save), w')
            | (Raise _, w') => ("Failed (AOI Extent Save)", items_bruts, 0%Z, w')
            end
          else ("Success (empty)", items_bruts, 0%Z, w)
      end
  | _, _ => ("Failed (AOI Extent Save)", 0%Z, 0%Z, w)
  end.

(** [PipelineManager._process_aoi_layer], lines 416-459. *)
Definition _process_aoi_layer (E : Engine.t) (pm : PipelineManager) (w : World.t)
    : PipelineManager * World.t :=
  match aoi pm, output_vector_gpkg_filepath pm with
  | Some a, Some out =>
      if negb (truthy out) then (pm, w)
      else
        match find_index_source (list_of_datasources pm) with
        | Some ds_cfg =>
            let '(status, items_bruts, items_final, w') :=
              save_aoi_extent E a out (ds_output_layer_name ds_cfg) w in
            (set_processing_summary
               (processing_summary pm
                ++ [mkOutcome (ds_id ds_cfg) (ds_name ds_cfg) (ds_type ds_cfg)
                      (ds_enabled ds_cfg) status (PInt items_bruts)
                      (PInt items_final) (ds_priority ds_cfg) None]) pm,
             w')
        | None => (pm, w)
        end
  | _, _ => (pm, w)
  end.

Definition is_raster_class (c : source_class) : bool :=
  match c with
  | IsMNTLiDARSource | IsCourbesNiveauSource | IsLocalRasterDataSource => true
  | IsOtherSource => false
  end.

(** Lines 285-300, "Count items in source". *)
Definition count_items (E : Engine.t) (fetched_data_result : fetched) (w : World.t)
    : pyval :=
  match fetched_data_result with
  | FetchedList l => PInt (Z.of_nat (List.length l))
  | FetchedStr path =>
      if FS.exists_ (World.fs w) path then
        if endswith (lower path) ".geojson" then
          match Engine.read_file E path None with
          | Return gdf_temp => PInt (Z.of_nat (gdf_len gdf_temp))
          | Raise _ => PStr "GeoJSON created"
          end
        else PStr "1 (raster)"
      else PStr "Invalid path"
  | FetchedNone => PInt 0
  end.

Definition tif_name (pm : PipelineManager) (H : Hooks) (a : Aoi) (base : string)
    : string :=
  project_id pm +:+ "_" +:+ base +:+ "_MTM"
  +:+ get_mtm_short_name (target_mtm_crs a) +:+ "_" +:+ date_yymmdd H +:+ ".tif".

(** Lines 305-347: a tile archive that delivered a non-empty list. *)
Definition process_mnt (E : Engine.t) (H : Hooks) (pm : PipelineManager)
    (a : Aoi) (geom : geometry) (ds : DataSource) (paths : list string)
    (summary : SourceOutcome) (w : World.t) : bool * SourceOutcome * World.t :=
  let valid_tif_paths :=
    List.filter (fun p => truthy p && FS.exists_ (World.fs w) p) paths in
  let summary :=
    set_items_source
      (PStr (pretty (List.length valid_tif_paths) +:+ " MNT tile(s)")) summary in
  match valid_tif_paths with
  | [] => (false, summary, w)
  | _ =>
      let single_name :=
        match valid_tif_paths, subfeuillet_20k_data_gdfs a with
        | [_], [gdf] =>
            if truthy (ds_index_feuillet_column ds) then
              match column_iloc0 gdf (ds_index_feuillet_column ds) with
              | Return v => Some v
              | Raise _ => None
              end
            else None
        | _, _ => None
        end in
      let mnt_base_sfx :=
        match single_name with
        | Some v => "MNT_" +:+ v
        | None => ds_output_name_mnt ds
        end in
      let hs_base_sfx :=
        match single_name with
        | Some v => "Hillshade_" +:+ v
        | None => ds_output_name_hillshade ds
        end in
      let subdir := default "" (imagery_output_subdir pm) in
      let final_mnt_fn := tif_name pm H a mnt_base_sfx in
      let final_mnt_path := FS.join subdir final_mnt_fn in
      let final_hs_fn := tif_name pm H a hs_base_sfx in
      let final_hs_path := FS.join subdir final_hs_fn in
      match merge_reproject_clip_rasters H valid_tif_paths
              (default "" (target_mtm_crs a)) geom final_mnt_path w with
      | (Some merged_path, w) =>
          let '(hs_ok, w) := generate_hillshade_gdal H merged_path final_hs_path w in
          let text :=
            if hs_ok
            then "MNT: " +:+ FS.basename final_mnt_path
                 +:+ ", HS: " +:+ FS.basename final_hs_path
            else "MNT: " +:+ FS.basename final_mnt_path in
          (true, set_processed_items (PStr text) summary, w)
      | (None, w) => (false, summary, w)
      end
  end.

(** Lines 349-363: a local raster that delivered an existing file. *)
Definition process_local_raster (H : Hooks) (pm : PipelineManager) (a : Aoi)
    (geom : geometry) (ds : DataSource) (path : string) (summary : SourceOutcome)
    (w : World.t) : bool * SourceOutcome * World.t :=
  let final_raster_fn := tif_name pm H a (ds_output_name_raster ds) in
  let final_raster_path :=
    FS.join (default "" (imagery_output_subdir pm)) final_raster_fn in
  match merge_reproject_clip_rasters H [path] (default "" (target_mtm_crs a))
          geom final_raster_path w with
  | (Some _, w) =>
      (true,
       set_processed_items (PStr ("Raster: " +:+ FS.basename final_raster_path))
         summary, w)
  | (None, w) => (false, summary, w)
  end.

(** Lines 369-382: a vector payload, handed to vector normalization. *)
Definition process_vector (E : Engine.t) (pm : PipelineManager) (a : Aoi)
    (geom : geometry) (ds : DataSource) (path : string) (summary : SourceOutcome)
    (w : World.t) : bool * SourceOutcome * World.t :=
  match VectorProcessor.process_vector_data E path geom
          (default "" (target_mtm_crs a))
          (default "" (output_vector_gpkg_filepath pm))
          (ds_output_layer_name ds) true (temp_files_dir pm) w with
  | (Return (process_success, count_before, count_after), w) =>
      let summary :=
        if negb (count_before =? -1)%Z
        then set_items_source (PInt count_before) summary
        else summary in
      let summary :=
        if process_success
        then set_processed_items
               (PStr (pretty count_after +:+ " (of " +:+ pretty count_before +:+ ")"))
               summary
        else summary in
      (process_success, summary, w)
  | (Raise _, w) => (false, summary, w)
  end.

(** Lines 304-391, "Process based on source type". *)
Definition dispatch (E : Engine.t) (H : Hooks) (pm : PipelineManager) (a : Aoi)
    (geom : geometry) (ds : DataSource) (fetched_data_result : fetched)
    (summary : SourceOutcome) (w : World.t) : bool * SourceOutcome * World.t :=
  match ds_class ds, fetched_data_result with
  | IsMNTLiDARSource, FetchedList (p :: ps) =>
      process_mnt E H pm a geom ds (p :: ps) summary w
  | _, _ =>
      let existing_file :=
        match fetched_data_result with
        | FetchedStr path => FS.exists_ (World.fs w) path
        | _ => false
        end in
      match ds_class ds, fetched_data_result with
      | IsLocalRasterDataSource, FetchedStr path =>
          if existing_file then process_local_raster H pm a geom ds path summary w
          else if String.eqb path "IS_AOI_INDEX_LAYER"
          then (true, set_status "Index (handled)" summary, w)
          else (false, summary, w)
      | _, FetchedStr path =>
          if String.eqb path "IS_AOI_INDEX_LAYER"
          then (true, set_status "Index (handled)" summary, w)
          else if existing_file then process_vector E pm a geom ds path summary w
          else (false, summary, w)
      | _, FetchedNone =>
          (true,
           set_processed_items (PInt 0)
             (set_items_source (PInt 0)
                (set_status "Success (no data in AOI)" summary)), w)
      | _, FetchedList _ => (false, summary, w)
      end
  end.

(** Lines 393-400: the final status of a source. *)
Definition final_status (current_step_success : bool) (summary : SourceOutcome)
    : SourceOutcome :=
  if current_step_success
     && negb (str_in (so_status summary)
                ["Index (handled)"; "Success (no data in AOI)"])
  then set_status "Success" summary
  else if negb current_step_success
          && negb (str_in (so_status summary)
                     ["Failed (MTM AOI missing)"; "Failed (AOI bounds fetch)"])
  then set_status "Processing Failed" summary
  else summary.

(** One iteration of the loop of [run] (lines 217-403): the dictionary
    appended to the summary, if any. *)
Definition process_source (E : Engine.t) (H : Hooks) (pm : PipelineManager)
    (a : Aoi) (ds_object : DataSource) (w : World.t)
    : result (option SourceOutcome) * World.t :=
  let source_summary :=
    mkOutcome (ds_id ds_object) (ds_name ds_object) (ds_type ds_object)
      (ds_enabled ds_object) "Ignored (not enabled)" (PStr "N/A") (PStr "N/A")
      (ds_priority ds_object) None in
  if negb (ds_enabled ds_object) then (Return (Some source_summary), w)
  else if String.eqb (ds_id ds_object) AOI_INDEX_ID then (Return None, w)
  else
    let source_summary := set_status "Fetch Failed" source_summary in
    match combined_geometry_mtm a with
    | None =>
        (Return (Some (set_status "Failed (MTM AOI missing)" source_summary)), w)
    | Some geom =>
        let fetch_arg :=
          if is_raster_class (ds_class ds_object) then Some (ArgAoi a)
          else ArgBounds <$> bounds_epsg4326 a in
        match fetch_arg with
        | None =>
            (Return (Some (set_status "Failed (AOI bounds fetch)" source_summary)), w)
        | Some arg =>
            match fetch_data H ds_object arg (default "" (temp_files_dir pm)) w with
            | (Raise e, w) => (Raise e, w)
            | (Return fetched_data_result, w) =>
                let source_summary :=
                  set_items_source (count_items E fetched_data_result w)
                    source_summary in
                let source_summary := set_status "Processing Failed" source_summary in
                let '(current_step_success, source_summary, w) :=
                  dispatch E H pm a geom ds_object fetched_data_result
                    source_summary w in
                (Return (Some (final_status current_step_success source_summary)), w)
            end
        end
    end.

(** The loop of [run]: every dictionary is appended to
    [processing_summary]; an exception stops the loop. *)
Fixpoint process_sources (E : Engine.t) (H : Hooks) (pm : PipelineManager)
    (a : Aoi) (l : list DataSource) (summary : list SourceOutcome) (w : World.t)
    : result unit * (list SourceOutcome * World.t) :=
  match l with
  | [] => (Return tt, (summary, w))
  | ds_object :: l' =>
      match process_source E H pm a ds_object w with
      | (Raise e, w) => (Raise e, (summary, w))
      | (Return o, w) =>
          process_sources E H pm a l' (summary ++ option_list o) w
      end
  end.

(** The key of [display_summary] (line 489) and Python's order on it. *)
Definition sort_key (x : SourceOutcome) : bool * Z * string :=
  (String.eqb (so_id x) AOI_INDEX_ID, priority_level x, so_id x).

Definition bool_lt (a b : bool) : bool := negb a && b.

Definition key_lt (k1 k2 : bool * Z * string) : bool :=
  let '(a1, p1, i1) := k1 in
  let '(a2, p2, i2) := k2 in
  if negb (Bool.eqb a1 a2) then bool_lt a1 a2
  else if negb (p1 =? p2)%Z then (p1 <? p2)%Z
  else String.ltb i1 i2.

(** [list.sort(key=...)]: the stable sort, which is the same list whatever
    the algorithm.  An element goes before the first one that is not
    smaller than it. *)
Fixpoint insert_by {A K : Type} (lt : K -> K -> bool) (key : A -> K)
    (x : A) (l : list A) : list A :=
  match l with
  | [] => [x]
  | y :: l' => if lt (key y) (key x) then y :: insert_by lt key x l' else x :: l
  end.

Fixpoint sort_by {A K : Type} (lt : K -> K -> bool) (key : A -> K)
    (l : list A) : list A :=
  match l with
  | [] => []
  | x :: l' => insert_by lt key x (sort_by lt key l')
  end.

(** [k1 <= k2], as "not [k2 < k1]". *)
Definition key_le (k1 k2 : bool * Z * string) : Prop := key_lt k2 k1 = false.

Definition key_eqb (k1 k2 : bool * Z * string) : bool :=
  let '(a1, p1, i1) := k1 in
  let '(a2, p2, i2) := k2 in
  Bool.eqb a1 a2 && (p1 =? p2)%Z && String.eqb i1 i2.

(** The entries of the AOI index source. *)
Definition is_index_entry (x : SourceOutcome) : bool :=
  String.eqb (so_id x) AOI_INDEX_ID.

(** "By priority, then by id". *)
Definition by_priority_then_id (x y : SourceOutcome) : Prop :=
  (priority_level x < priority_level y)%Z \/
  (priority_level x = priority_level y /\
   String.compare (so_id x) (so_id y) <> Gt).

(** [x] may stand before [y] in a list sorted by [key]. *)
Definition before {A K : Type} (lt : K -> K -> bool) (key : A -> K) (x y : A) : Prop :=
  lt (key y) (key x) = false.

(** [PipelineManager.display_summary], lines 461-505: the summary as it is
    ordered for display (and left in [processing_summary]). *)
Definition display_summary (pm : PipelineManager) : PipelineManager :=
  match processing_summary pm with
  | [] => pm
  | summary => set_processing_summary (sort_by key_lt sort_key summary) pm
  end.

(** The check at the head of [run], lines 201-204. *)
Definition initialized (pm : PipelineManager) : option Aoi :=
  match aoi pm with
  | Some a =>
      if opt_truthy (output_vector_gpkg_filepath pm)
         && opt_truthy (imagery_output_subdir pm)
         && bool_decide (is_Some (temp_files_dir pm))
         && opt_truthy (project_output_dir pm)
         && opt_truthy (target_mtm_crs a)
      then Some a else None
  | None => None
  end.

(** Lines 206-403 of [run]: the summary is reset, the AOI layer is
    processed, then every source in turn. *)
Definition collect (E : Engine.t) (H : Hooks) (pm : PipelineManager) (a : Aoi)
    (w : World.t) : result unit * (PipelineManager * World.t) :=
  let pm := set_processing_summary [] pm in
  let '(pm, w) := _process_aoi_layer E pm w in
  let '(r, (summary, w)) :=
    process_sources E H pm a (list_of_datasources pm) (processing_summary pm) w in
  (r, (set_processing_summary summary pm, w)).

(** The body of [PipelineManager.run], lines 192-414. *)
Definition run_body (E : Engine.t) (H : Hooks) (pm : PipelineManager) (w : World.t)
    : result (option (list SourceOutcome)) * (PipelineManager * World.t) :=
  match initialized pm with
  | None => (Return None, (pm, w))
  | Some a =>
      match collect E H pm a w with
      | (Raise e, st) => (Raise e, st)
      | (Return _, (pm, w)) =>
          let pm := display_summary pm in
          let w := cleanup H w in
          (Return (Some (processing_summary pm)), (pm, w))
      end
  end.

(** [PipelineManager.run], decorated (line 191). *)
Definition run (E : Engine.t) (H : Hooks) (pm : PipelineManager) (w : World.t)
    : result (option (list SourceOutcome)) * (PipelineManager * World.t) :=
  let '(r, st) := run_body E H pm w in
  (handle_errors SpatiaEngineError None r, st).

End Pipeline.

(** ** A small world to run the program in *)

Module Sample.
Import Py PyStr Geo.

Definition square (x y : float) : geometry :=
  [ (x, y); (x + 0.25, y); (x + 0.25, y + 0.25); (x, y + 0.25) ]%float.

Definition tile (code url : string) (g : geometry) : Row :=
  mkRow (list_to_map [("feuillet", code); ("lidar_url", url)]) (Some g).

(** A fine-grained index of seven sub-sheets. *)
Definition index : GeoDataFrame :=
  mkGDF ["feuillet"; "lidar_url"; "geometry"]
    [ tile "31H05NE" "https://tiles.example/31H05NE" (square (-73.75) 45.25);
      tile "31H05NO" "https://tiles.example/31H05NO" (square (-74) 45.25);
      tile "31H05SE" "https://tiles.example/31H05SE" (square (-73.75) 45);
      tile "31h05so" "https://tiles.example/31H05SO" (square (-74) 45);
      tile "31H06NE" "https://tiles.example/31H06NE" (square (-73.25) 45.25);
      tile "31H05NEX" "https://tiles.example/31H05NEX" (square (-73.75) 45.25);
      tile "21E05NE" "https://tiles.example/21E05NE" (square (-71.75) 45.25) ]
    (Some "EPSG:32198").

(** A boundary file around Paris, far from every zone band. *)
Definition paris_kml : GeoDataFrame :=
  mkGDF ["Name"; "geometry"]
    [ mkRow (list_to_map [("Name", "Paris")]) (Some (square 2.25 48.75)) ]
    (Some "EPSG:4326").

Definition fmin (a b : float) : float := if (b <? a)%float then b else a.
Definition fmax (a b : float) : float := if (a <? b)%float then b else a.

Definition vertices (gdf : GeoDataFrame) : list (float * float) :=
  flat_map (fun r => default [] (row_geometry r)) (gdf_rows gdf).

Definition bounds_of (gdf : GeoDataFrame) : Zone.bounds :=
  match vertices gdf with
  | [] => (nan, nan, nan, nan)
  | (x, y) :: vs =>
      fold_left (fun '(x0, y0, x1, y1) '(vx, vy) =>
                   (fmin x0 vx, fmin y0 vy, fmax x1 vx, fmax y1 vy))
        vs (x, y, x, y)
  end.

(** A registry that knows every code written [EPSG:<digits>]. *)
Definition epsg_of (crs : string) : result (option string) :=
  if startswith crs "EPSG:" && isdigit (drop 5 crs) then Return (Some (drop 5 crs))
  else Raise (Exn CRSError crs).

(** Features of a remote layer: three roads, one of them outside the AOI. *)
Definition roads : GeoDataFrame :=
  mkGDF ["road name"; "geometry"]
    [ mkRow (list_to_map [("road name", "A-10")]) (Some (square (-73.75) 45.25));
      mkRow (list_to_map [("road name", "A-20")]) (Some (square (-74) 45));
      mkRow (list_to_map [("road name", "A-40")]) (Some (square (-71.75) 46.75)) ]
    (Some "EPSG:32188").

Definition no_features : GeoDataFrame := mkGDF ["geometry"] [] (Some "EPSG:4326").

(** A clip by bounding box: the features whose first vertex lies within
    the box of the mask. *)
Definition in_box (b : Zone.bounds) (v : float * float) : bool :=
  let '(x0, y0, x1, y1) := b in
  ((x0 <=? fst v) && (fst v <=? x1) && (y0 <=? snd v) && (snd v <=? y1))%float.

Definition box_clip (gdf : GeoDataFrame) (mask : geometry) : result GeoDataFrame :=
  let b := bounds_of (mkGDF [] [mkRow ∅ (Some mask)] None) in
  Return (select gdf (fun r => match row_geometry r with
                               | Some (v :: _) => in_box b v
                               | _ => false
                               end)).

Definition engine_with (to_file_error : GeoDataFrame -> string -> string -> option exn)
    : Engine.t :=
  Engine.mk "."
    epsg_of
    (fun crs => Return crs)
    (fun path layer =>
       if String.eqb path "./INDEX.gpkg" then Return index
       else if String.eqb path "paris.kml" then Return paris_kml
       else if String.eqb path "tmp/temp_wfs_roads.geojson" then Return roads
       else if String.eqb path "tmp/temp_wfs_none.geojson" then Return no_features
       else Raise (Exn FileNotFoundError path))
    (fun gdf crs => Return (set_crs gdf crs))
    bounds_of
    (fun geoms => Return (head geoms))
    (fun g _ _ => Return g)
    (fun a b => false)
    (fun code crs =>
       match List.filter (fun r => String.eqb (upper (cell "feuillet" r)) (upper code))
               (gdf_rows index) with
       | r :: _ => Some (single_row index r)
       | [] => None
       end)
    (fun _ => true)
    (fun g => g)
    box_clip
    (fun gdf => Return gdf)
    (fun path => Return [])
    to_file_error
    (fun written => (4096 * N.of_nat (size written))%N).

Definition engine : Engine.t := engine_with (fun _ _ _ => None).

(** The same collaborators over an output store that refuses writes. *)
Definition engine_readonly : Engine.t :=
  engine_with (fun _ path _ => Some (Exn PermissionError path)).

(** The AOI polygon in the target zone. *)
Definition aoi_polygon : geometry :=
  [ (-74, 45); (-73.5, 45); (-73.5, 45.5); (-74, 45.5) ]%float.

(** An AOI resolved from the parent code 31H05, and a manager ready to
    run over a given list of sources. *)
Definition aoi_31H05 : AoiResolver.Aoi :=
  Eval vm_compute in
    snd (AoiResolver.define_from_snrc_codes engine [PStr "031h05"]
           (AoiResolver.mkAoi None [] None None None false None None [])).

Definition manager (sources : list Pipeline.DataSource) : Pipeline.PipelineManager :=
  Pipeline.mkPM "P42" (Some aoi_31H05) sources (Some "out/project.gpkg")
    (Some "out/imagery") (Some "tmp") (Some "out") [].

Definition world : World.t :=
  World.mk
    (FS.mk (list_to_map [("paris.kml", 4096%N);
                         ("tmp/temp_wfs_roads.geojson", 2048%N);
                         ("tmp/temp_wfs_none.geojson", 64%N)]) ∅)
    ∅.

Definition fs : FS.t := FS.mk (list_to_map [("paris.kml", 4096%N)]) ∅.

(** A tile archive source and three servers: one sends half of what it
    declares, one declares a length of zero and sends a body, one is
    honest. *)
Definition mnt_source : MntLidar.MNTLiDARSource :=
  MntLidar.mkSource "MNT LiDAR" true "./INDEX.gpkg" "QC_index_url_snrc_mnt"
    "feuillet" "lidar_url" "" [].

Definition serving (r : MntLidar.Response) : MntLidar.Net := fun _ => Return r.

Definition truncated : MntLidar.Response :=
  MntLidar.mkResponse true (MntLidar.HeaderInt 1000) 500 false.

Definition zero_declared : MntLidar.Response :=
  MntLidar.mkResponse true (MntLidar.HeaderInt 0) 500 false.

(** A stream that breaks after half of the declared bytes. *)
Definition broken : MntLidar.Response :=
  MntLidar.mkResponse true (MntLidar.HeaderInt 1000) 500 true.

Definition complete : MntLidar.Response :=
  MntLidar.mkResponse true (MntLidar.HeaderInt 1000) 1000 false.

Definition one_tile : list GeoDataFrame :=
  [ single_row index (tile "31H05NE" "https://tiles.example/31H05NE/"
                        (square (-73.75) 45.25)) ].

Definition index_fs : FS.t := FS.mk (list_to_map [("./INDEX.gpkg", 1048576%N)]) ∅.

(** The same file system, where the temporary tile cannot be removed. *)
Definition index_fs_locked : FS.t :=
  FS.mk (list_to_map [("./INDEX.gpkg", 1048576%N)]) {["tmp/MNT_31H05NE.tif"]}.

(** Three configured sources and the hooks of a run. *)
Definition roads_wfs : Pipeline.DataSource :=
  Pipeline.mkDataSource Pipeline.IsOtherSource "roads_wfs" "Road network" "wfs"
    true 2 "roads" "" "" "" "".

Definition lakes_disabled : Pipeline.DataSource :=
  Pipeline.mkDataSource Pipeline.IsOtherSource "lakes" "Lakes" "local_gpkg"
    false 3 "lakes" "" "" "" "".

Definition aoi_index : Pipeline.DataSource :=
  Pipeline.mkDataSource Pipeline.IsOtherSource "snrc_index_local_50k"
    "SNRC index" "indexed_local_gpkg" true 1 "aoi_extent" "" "" "" "".

Definition hooks : Pipeline.Hooks :=
  Pipeline.mkHooks
    (fun ds _ _ w =>
       if String.eqb (Pipeline.ds_id ds) "roads_wfs"
       then (Return (Pipeline.FetchedStr "tmp/temp_wfs_roads.geojson"), w)
       else (Return Pipeline.FetchedNone, w))
    (fun _ _ _ out w => (Some out, w))
    (fun _ _ w => (true, w))
    "261103"
    (fun w => w).

Definition aoi_outcome : Pipeline.SourceOutcome :=
  Pipeline.mkOutcome "snrc_index_local_50k" "SNRC index" "indexed_local_gpkg"
    true "Success" (PInt 1) (PInt 1) 1 None.

Definition roads_outcome : Pipeline.SourceOutcome :=
  Pipeline.mkOutcome "roads_wfs" "Road network" "wfs" true "Success" (PInt 3)
    (PStr "N/A") 2 (Some (PStr "1 (of 3)")).

Definition fresh_aoi : AoiResolver.Aoi :=
  AoiResolver.mkAoi None [] None None None false None None [].

(** The AOI of the Paris boundary file as it enters finalization. *)
Definition paris_frame : GeoDataFrame :=
  one_feature [("id", "1")] (square 2.25 48.75) (Some "EPSG:4326").

Definition paris_aoi : AoiResolver.Aoi :=
  AoiResolver.mkAoi (Some "KML") ["paris.kml"] (Some paris_frame)
    (Some (square 2.25 48.75)) (Some (bounds_of paris_frame))
    false None None [].

End Sample.

(** ** File helpers (core/utils/file_utils.py) *)

Module FileUtils.
Import Py.

(** [safe_delete_file], lines 50-68; paths are taken as resolved and the
    file system holds regular files only. *)
Definition safe_delete_file (fs : FS.t) (filepath : string) : bool * FS.t :=
  if FS.exists_ fs filepath then
    match FS.remove fs filepath with
    | (Return _, fs') => (true, fs')
    | (Raise _, fs') => (false, fs')
    end
  else (true, fs).

(** [cleanup_temp_files], lines 104-112. *)
Definition cleanup_temp_files (file_paths : list string) (fs : FS.t) : FS.t :=
  fold_left (fun fs filepath => snd (safe_delete_file fs filepath)) file_paths fs.

End FileUtils.

(** ** The base class of the data sources (core/datasources/base.py) *)

Module DataSourceBase.
Import Py MntLidar.

(** [DataSource.cleanup_temp_files], lines 74-79, on a tile archive
    source. *)
Definition cleanup_temp_files (self : MNTLiDARSource) (fs : FS.t)
    : MNTLiDARSource * FS.t :=
  let fs :=
    fold_left (fun fs temp_file => snd (FileUtils.safe_delete_file fs temp_file))
      (temp_files self) fs in
  (mkSource (name self) (enabled self) (index_gpkg_path self)
     (index_layer_name self) (index_feuillet_column self)
     (index_url_column self) (local_cache_dir self) [], fs).

(** The file name of the tile of one manifest entry (mnt_lidar.py, lines
    116 and 126), when the entry names its sheet. *)
Definition tif_filename_of (self : MNTLiDARSource) (tile_gdf : Geo.GeoDataFrame)
    : option string :=
  match Geo.column_iloc0 tile_gdf (index_feuillet_column self) with
  | Return feuillet_name => Some ("MNT_" +:+ feuillet_name +:+ ".tif")
  | Raise _ => None
  end.

(** The paths [fetch_data] may touch or return for a manifest: for every
    entry that names its sheet, the tile in the temporary directory and
    its copy in the cache directory. *)
Definition tile_paths (self : MNTLiDARSource) (temp_dir : string)
    (subfeuillet_20k_data_gdfs : list Geo.GeoDataFrame) : list string :=
  flat_map (fun tile_gdf =>
              match tif_filename_of self tile_gdf with
              | Some tif_filename =>
                  [FS.join temp_dir tif_filename;
                   FS.join (local_cache_dir self) tif_filename]
              | None => []
              end) subfeuillet_20k_data_gdfs.

(** What one step of the loop may add: at most one returned path, which
    is one of the two given paths, and a temporary file only together
    with its returned path. *)
Definition grows_by (st st' : fetch_state) (temp_path cache_path : string) : Prop :=
  exists new newt,
    local_tif_paths st' = local_tif_paths st ++ new /\
    st_temp_files st' = st_temp_files st ++ newt /\
    (List.length new <= 1)%nat /\
    (forall p, In p new -> p = temp_path \/ p = cache_path) /\
    (forall p, In p newt -> p = temp_path /\ In p new) /\
    FS.locked (st_fs st') = FS.locked (st_fs st) /\
    (forall p, p <> temp_path -> p <> cache_path ->
               FS.files (st_fs st') !! p = FS.files (st_fs st) !! p).

End DataSourceBase.

(** ** Local raster source (core/datasources/raster.py) *)

Module LocalRaster.
Import Py PyStr ErrorHandler.

(** The entries of a configuration dictionary that the class reads; a
    missing key is [None]. *)
Record Config : Type := mkConfig {
  cfg_id : option string;
  cfg_name : option string;
  cfg_type : option string;
  cfg_enabled : option bool;
  cfg_priority_level : option Z;
  cfg_output_layer_name : option string;
  cfg_output_name : option string;
  cfg_path : option string;
  cfg_output_name_raster : option string }.

Record LocalRasterDataSource : Type := mkLocalRaster {
  id : string;
  name : string;
  type : string;
  enabled : bool;
  priority : Z;
  output_layer_name : string;
  config : Config;
  temp_files : list string;
  output_name : string;
  raster_path : option string;
  output_name_raster : string }.

Definition set_enabled (v : bool) (self : LocalRasterDataSource)
    : LocalRasterDataSource :=
  mkLocalRaster (id self) (name self) (type self) v (priority self)
    (output_layer_name self) (config self) (temp_files self) (output_name self)
    (raster_path self) (output_name_raster self).

(** [not config.get('path')] *)
Definition no_path (c : Config) : bool :=
  negb (AoiResolver.opt_truthy (cfg_path c)).

(** [resolve_path] (file_utils.py, lines 13-30): environment variables
    expanded, then the absolute path that [Path.resolve] gives, as text. *)
Definition Resolver : Type := string -> string.

(** [validate_config], lines 39-57. *)
Definition validate_config (resolve_path : Resolver) (c : Config) (fs : FS.t)
    : list string :=
  (if no_path c then ["Local raster data source requires 'path'"] else [])
  ++ (if negb (no_path c) then
        let raster_path := resolve_path (default "" (cfg_path c)) in
        if negb (FS.exists_ fs raster_path)
        then ["Raster file not found: " +:+ raster_path]
        else []
      else []).

(** [DataSource.__init__] (base.py, lines 14-35), then
    [RasterDataSource.__init__] (lines 128-130), then
    [LocalRasterDataSource.__init__] (raster.py, lines 16-36). *)
Definition init (resolve_path : Resolver) (c : Config) (fs : FS.t)
    : LocalRasterDataSource :=
  let id := default "unknown" (cfg_id c) in
  let enabled := default true (cfg_enabled c) in
  let validation_errors := validate_config resolve_path c fs in
  let enabled :=
    match validation_errors with [] => enabled | _ => false end in
  let self :=
    mkLocalRaster id (default "Unknown Data Source" (cfg_name c))
      (default "unknown" (cfg_type c)) enabled
      (default 99%Z (cfg_priority_level c))
      (default id (cfg_output_layer_name c)) c []
      (default id (cfg_output_name c)) (cfg_path c)
      (default id (cfg_output_name_raster c)) in
  if negb (AoiResolver.opt_truthy (raster_path self)) then set_enabled false self
  else if negb (FS.exists_ fs (resolve_path (default "" (raster_path self))))
  then set_enabled false self
  else self.

(** [DataSource.is_enabled] (base.py, lines 63-72). *)
Definition is_enabled (resolve_path : Resolver) (self : LocalRasterDataSource)
    (fs : FS.t) : bool :=
  if negb (enabled self) then false
  else (List.length (validate_config resolve_path (config self) fs) =? 0)%nat.

(** [fetch_data], lines 59-82, decorated: the resolved path, as text. *)
Definition fetch_data (resolve_path : Resolver) (self : LocalRasterDataSource)
    (fs : FS.t) : result (option string) :=
  handle_errors DataSourceError None
    (if negb (is_enabled resolve_path self fs)
        || negb (AoiResolver.opt_truthy (raster_path self))
     then Return None
     else
       let raster_path := resolve_path (default "" (raster_path self)) in
       if negb (FS.exists_ fs raster_path) then Return None
       else Return (Some raster_path)).

End LocalRaster.

(** ** Local GeoPackage source (core/datasources/local_gpkg.py) *)

Module LocalGpkg.
Import Py PyStr Geo ErrorHandler.

(** The entries of a configuration dictionary that the class and
    [filter_local_gpkg] read; a missing key is [None]. *)
Record Config : Type := mkConfig {
  cfg_id : option string;
  cfg_name : option string;
  cfg_type : option string;
  cfg_enabled : option bool;
  cfg_priority_level : option Z;
  cfg_output_layer_name : option string;
  cfg_path : option string;
  cfg_layer_name : option string;
  cfg_snrc_column_name : option string }.

Record LocalGpkgDataSource : Type := mkLocalGpkg {
  id : string;
  name : string;
  type : string;
  enabled : bool;
  priority : Z;
  output_layer_name : string;
  config : Config;
  temp_files : list string;
  gpkg_path : option string;
  layer_name : option string;
  snrc_column_name : option string }.

Definition set_enabled (v : bool) (self : LocalGpkgDataSource)
    : LocalGpkgDataSource :=
  mkLocalGpkg (id self) (name self) (type self) v (priority self)
    (output_layer_name self) (config self) (temp_files self) (gpkg_path self)
    (layer_name self) (snrc_column_name self).

(** [self.add_temp_file(filepath)] (base.py, lines 81-88). *)
Definition add_temp_file (filepath : string) (self : LocalGpkgDataSource)
    : LocalGpkgDataSource :=
  mkLocalGpkg (id self) (name self) (type self) (enabled self) (priority self)
    (output_layer_name self) (config self) (temp_files self ++ [filepath])
    (gpkg_path self) (layer_name self) (snrc_column_name self).

(** [validate_config], lines 33-53. *)
Definition validate_config (c : Config) (fs : FS.t) : list string :=
  (if negb (AoiResolver.opt_truthy (cfg_path c))
   then ["Local GPKG data source requires 'path'"] else [])
  ++ (if negb (AoiResolver.opt_truthy (cfg_layer_name c))
      then ["Local GPKG data source requires 'layer_name'"] else [])
  ++ (if AoiResolver.opt_truthy (cfg_path c) then
        if negb (FS.exists_ fs (default "" (cfg_path c)))
        then ["Local GPKG file not found: " +:+ default "" (cfg_path c)]
        else []
      else []).

(** [DataSource.__init__] (base.py, lines 14-35), then
    [VectorDataSource.__init__] (lines 105-107), then
    [LocalGpkgDataSource.__init__] (local_gpkg.py, lines 16-30). *)
Definition init (c : Config) (fs : FS.t) : LocalGpkgDataSource :=
  let id := default "unknown" (cfg_id c) in
  let enabled := default true (cfg_enabled c) in
  let enabled :=
    match validate_config c fs with [] => enabled | _ => false end in
  let self :=
    mkLocalGpkg id (default "Unknown Data Source" (cfg_name c))
      (default "unknown" (cfg_type c)) enabled
      (default 99%Z (cfg_priority_level c))
      (default id (cfg_output_layer_name c)) c []
      (cfg_path c) (cfg_layer_name c) (cfg_snrc_column_name c) in
  if negb (AoiResolver.opt_truthy (gpkg_path self))
     || negb (AoiResolver.opt_truthy (layer_name self))
  then set_enabled false self
  else self.

(** [DataSource.is_enabled] (base.py, lines 63-72). *)
Definition is_enabled (self : LocalGpkgDataSource) (fs : FS.t) : bool :=
  if negb (enabled self) then false
  else (List.length (validate_config (config self) fs) =? 0)%nat.

(** [gdf.to_file(path, driver="GeoJSON")]: the bytes written, or an
    exception that leaves no file behind. *)
Definition GeoJsonWriter : Type := GeoDataFrame -> string -> result N.

(** [filter_local_gpkg] (vector_processor.py, lines 209-251).  The bounds
    are an argument that the function does not read. *)
Definition filter_local_gpkg (E : Engine.t) (G : GeoJsonWriter) (c : Config)
    (aoi_bounds_epsg4326 : Zone.bounds) (temp_dir : string) (fs : FS.t)
    : option string * FS.t :=
  if negb (AoiResolver.opt_truthy (cfg_path c))
     || negb (AoiResolver.opt_truthy (cfg_layer_name c))
  then (None, fs)
  else
    match Engine.read_file E (default "" (cfg_path c)) (cfg_layer_name c) with
    | Raise _ => (None, fs)
    | Return gdf =>
        if gdf_empty gdf then (None, fs)
        else
          let temp_filename :=
            "temp_filtered_" +:+ default "unknown" (cfg_id c) +:+ ".geojson" in
          let temp_filepath := FS.join temp_dir temp_filename in
          match G gdf temp_filepath with
          | Raise _ => (None, fs)
          | Return n => (Some temp_filepath, FS.write fs temp_filepath n)
          end
    end.

(** The body of [LocalGpkgDataSource.fetch_data], lines 56-100. *)
Definition fetch_data_body (E : Engine.t) (G : GeoJsonWriter)
    (self : LocalGpkgDataSource) (aoi_bounds_epsg4326 : Zone.bounds)
    (temp_dir : string) (fs : FS.t)
    : result (option string) * (LocalGpkgDataSource * FS.t) :=
  if negb (is_enabled self fs) then (Return None, (self, fs))
  else if negb (AoiResolver.opt_truthy (gpkg_path self))
          || negb (AoiResolver.opt_truthy (layer_name self))
  then (Return None, (self, fs))
  else if String.eqb (id self) "snrc_index_local_50k"
  then (Return (Some "IS_AOI_INDEX_LAYER"), (self, fs))
  else
    let '(temp_filepath, fs) :=
      filter_local_gpkg E G (config self) aoi_bounds_epsg4326 temp_dir fs in
    match temp_filepath with
    | Some p =>
        if truthy p then (Return (Some p), (add_temp_file p self, fs))
        else (Return (Some p), (self, fs))
    | None => (Return None, (self, fs))
    end.

(** [LocalGpkgDataSource.fetch_data], decorated (line 55). *)
Definition fetch_data (E : Engine.t) (G : GeoJsonWriter)
    (self : LocalGpkgDataSource) (aoi_bounds_epsg4326 : Zone.bounds)
    (temp_dir : string) (fs : FS.t)
    : result (option string) * (LocalGpkgDataSource * FS.t) :=
  let '(r, st) := fetch_data_body E G self aoi_bounds_epsg4326 temp_dir fs in
  (handle_errors DataSourceError None r, st).

End LocalGpkg.

(** ** The factory of the data sources (core/datasources/factory.py) *)

Module Factory.
Import Py PyStr Pipeline.

(** The classes of [_registry]. *)
Inductive registered_class : Type :=
| LocalGpkgDataSource
| WfsDataSource
| IndexedLocalGpkgDataSource
| MNTLiDARSource
| LocalRasterDataSource
| CourbesNiveauSource.

Definition _registry : gmap string registered_class :=
  list_to_map
    [ ("local_gpkg", LocalGpkgDataSource);
      ("wfs", WfsDataSource);
      ("indexed_local_gpkg", IndexedLocalGpkgDataSource);
      ("mnt_lidar_quebec", MNTLiDARSource);
      ("local_raster", LocalRasterDataSource);
      ("courbes_niveau_quebec", CourbesNiveauSource) ].

(** A configuration dictionary with string values. *)
Definition config : Type := gmap string string.

(** What the factory asks of the classes: the constructor and
    [validate_config], either of which may raise. *)
Record Classes : Type := mkClasses {
  construct : registered_class -> config -> result DataSource;
  validate_config : DataSource -> result (list string) }.

(** [DataSource.is_enabled] (base.py, lines 63-72). *)
Definition is_enabled (C : Classes) (ds : DataSource) : result bool :=
  if negb (ds_enabled ds) then Return false
  else errors ← validate_config C ds;
       Return (List.length errors =? 0)%nat.

(** [create_datasource], lines 47-84. *)
Definition create_datasource (C : Classes) (cfg : config) : option DataSource :=
  match cfg !! "type" with
  | None => None
  | Some ds_type =>
      if negb (truthy ds_type) then None
      else
        match _registry !! ds_type with
        | None => None
        | Some datasource_class =>
            match (datasource ← construct C datasource_class cfg;
                   ok ← is_enabled C datasource;
                   Return (datasource, ok)) with
            | Return (datasource, true) => Some datasource
            | Return (_, false) => None
            | Raise _ => None
            end
        end
  end.

(** [DataSource.__lt__] (base.py, lines 90-94). *)
Definition ds_lt (self other : DataSource) : bool :=
  (ds_priority self <? ds_priority other)%Z.

(** [create_datasources_from_list], lines 86-104; [list.sort()] is the
    stable sort by [__lt__]. *)
Definition create_datasources_from_list (C : Classes) (configs : list config)
    : list DataSource :=
  let datasources := omap (create_datasource C) configs in
  sort_by Z.ltb ds_priority datasources.

(** What [load_datasources_from_config] leaves in [list_of_datasources]
    (pipeline_manager.py, lines 160-189), given the configurations of the
    configuration manager. *)
Definition load_datasources_from_config (C : Classes) (raw_source_configs : list config)
    (pm : PipelineManager) : result bool * PipelineManager :=
  let loaded :=
    match raw_source_configs with
    | [] => []
    | _ => sort_by Z.ltb ds_priority (omap (create_datasource C) raw_source_configs)
    end in
  (Return true,
   mkPM (project_id pm) (aoi pm) loaded (output_vector_gpkg_filepath pm)
     (imagery_output_subdir pm) (temp_files_dir pm) (project_output_dir pm)
     (processing_summary pm)).

End Factory.

(** ** Setting a run up (core/pipeline/pipeline_manager.py, core/aoi/aoi.py) *)

Module Setup.
Import Py PyStr Geo ErrorHandler AoiResolver Pipeline.

(** [s.replace(a, b)] for one-character strings. *)
Fixpoint replace_char (a b : ascii) (s : string) : string :=
  match s with
  | EmptyString => EmptyString
  | String c s' =>
      String (if Ascii.eqb c a then b else c) (replace_char a b s')
  end.

(** [s.rfind(c)], counted from [i]; [None] stands for -1. *)
Fixpoint rfind_from (c : ascii) (i : nat) (s : string) (acc : option nat)
    : option nat :=
  match s with
  | EmptyString => acc
  | String d s' => rfind_from c (S i) s' (if Ascii.eqb d c then Some i else acc)
  end.

Definition rfind (c : ascii) (s : string) : option nat := rfind_from c 0 s None.

(** [os.path.splitext(p)[0]]: the extension starts at the last dot, unless
    only dots stand between the last separator and it. *)
Definition splitext_root (p : string) : string :=
  match rfind "." p with
  | None => p
  | Some dotIndex =>
      let filenameIndex :=
        match rfind "/" p with None => 0%nat | Some sepIndex => S sepIndex end in
      if (filenameIndex <=? dotIndex)%nat then
        if existsb (fun c => negb (Ascii.eqb c "."))
             (list_ascii_of_string
                (substring filenameIndex (dotIndex - filenameIndex) p))
        then substring 0 dotIndex p
        else p
      else p
  end.

(** [Aoi.get_display_name] (aoi.py, lines 383-392). *)
Definition get_display_name (self : Aoi) : string :=
  if bool_decide (definition_type self = Some "SNRC") then
    match input_references self with
    | [r] => replace_char "/" "_" r
    | r :: rest =>
        replace_char "/" "_" r +:+ "_and_" +:+ pretty (List.length rest)
        +:+ "_others"
    | [] => "unknown_aoi"
    end
  else if bool_decide (definition_type self = Some "KML") then
    match input_references self with
    | r :: _ => replace_char " " "_" (splitext_root (FS.basename r))
    | [] => "unknown_aoi"
    end
  else "unknown_aoi".

(** [Aoi.get_type_prefix] (aoi.py, lines 394-396). *)
Definition get_type_prefix (self : Aoi) : string :=
  if opt_truthy (definition_type self) then default "" (definition_type self)
  else "GEN".

(** The second argument of [setup_aoi]: a list, a string, or anything
    else. *)
Inductive aoi_input : Type :=
| InputList (l : list pyval)
| InputStr (s : string)
| InputOther.

Definition set_aoi (v : option Aoi) (pm : PipelineManager) : PipelineManager :=
  mkPM (project_id pm) v (list_of_datasources pm)
    (output_vector_gpkg_filepath pm) (imagery_output_subdir pm)
    (temp_files_dir pm) (project_output_dir pm) (processing_summary pm).

(** The body of [PipelineManager.setup_aoi], lines 74-120; [custom_crs] is
    the attribute of that name. *)
Definition setup_aoi_body (E : Engine.t) (fs : FS.t) (custom_crs : option string)
    (aoi_definition_type : string) (input : aoi_input) (pm : PipelineManager)
    : result bool * PipelineManager :=
  match init E custom_crs with
  | Raise _ => (Return false, set_aoi None pm)
  | Return a =>
      let '(r, a) :=
        if String.eqb aoi_definition_type "SNRC" then
          match input with
          | InputList (c :: cs) => define_from_snrc_codes E (c :: cs) a
          | _ => (Return false, a)
          end
        else if String.eqb aoi_definition_type "KML" then
          match input with
          | InputStr s => define_from_kml_file E fs s a
          | _ => (Return false, a)
          end
        else (Return false, a) in
      match r with
      | Raise _ => (Return false, set_aoi None pm)
      | Return aoi_success =>
          if negb aoi_success then (Return false, set_aoi None pm)
          else
            let _ := get_display_name a in
            (Return true, set_aoi (Some a) pm)
      end
  end.

(** [PipelineManager.setup_aoi], decorated (line 73). *)
Definition setup_aoi (E : Engine.t) (fs : FS.t) (custom_crs : option string)
    (aoi_definition_type : string) (input : aoi_input) (pm : PipelineManager)
    : result bool * PipelineManager :=
  handle_errors_method SpatiaEngineError false
    (setup_aoi_body E fs custom_crs aoi_definition_type input) pm.

(** [os.path.join(a, b)]: an absolute [b] stands alone. *)
Definition path_join (a b : string) : string :=
  if startswith b "/" then b else FS.join a b.

(** The body of [PipelineManager.prepare_project_structure], lines
    123-157; [output_base_dir] is the attribute of that name.  The three
    calls of [ensure_directory] return a flag that is not read and catch
    their own exceptions (file_utils.py, lines 32-48). *)
Definition prepare_project_structure_body (H : Hooks) (output_base_dir : string)
    (pm : PipelineManager) : result bool * PipelineManager :=
  match aoi pm with
  | None => (Return false, pm)
  | Some a =>
      if negb (opt_truthy (target_mtm_crs a)) || negb (truthy (project_id pm))
      then (Return false, pm)
      else
        let mtm_zone_number := get_mtm_short_name (target_mtm_crs a) in
        let date_str_yymmdd := date_yymmdd H in
        let project_main_folder_name :=
          project_id pm +:+ "_GIS_extract_MTM" +:+ mtm_zone_number +:+ "_"
          +:+ date_str_yymmdd in
        let project_output_dir := path_join output_base_dir project_main_folder_name in
        let imagery_subdir_name :=
          project_id pm +:+ "_extract_imagery_MTM" +:+ mtm_zone_number +:+ "_"
          +:+ date_str_yymmdd in
        let imagery_output_subdir := path_join project_output_dir imagery_subdir_name in
        let temp_files_dir := path_join project_output_dir "temp_files" in
        let output_vector_gpkg_filepath :=
          path_join project_output_dir (project_main_folder_name +:+ ".gpkg") in
        (Return true,
         mkPM (project_id pm) (aoi pm) (list_of_datasources pm)
           (Some output_vector_gpkg_filepath) (Some imagery_output_subdir)
           (Some temp_files_dir) (Some project_output_dir)
           (processing_summary pm))
  end.

(** [PipelineManager.prepare_project_structure], decorated (line 122). *)
Definition prepare_project_structure (H : Hooks) (output_base_dir : string)
    (pm : PipelineManager) : result bool * PipelineManager :=
  handle_errors_method SpatiaEngineError false
    (prepare_project_structure_body H output_base_dir) pm.

(** A manager as [PipelineManager.__init__] leaves it (lines 48-71). *)
Definition new_manager (project_id : string) : PipelineManager :=
  mkPM project_id None [] None None None None [].

End Setup.

(** ** What a summary record says of its source *)

Module Accounting.
Import Py Pipeline.

(** The identity of a record and of a source: id, name, type, enabled
    flag and priority. *)
Definition outcome_head (x : SourceOutcome) : string * string * string * bool * Z :=
  (so_id x, so_name x, so_type x, so_enabled x, priority_level x).

Definition source_head (ds : DataSource) : string * string * string * bool * Z :=
  (ds_id ds, ds_name ds, ds_type ds, ds_enabled ds, ds_priority ds).

(** The statuses a record of the loop of [run] can carry. *)
Definition loop_statuses : list string :=
  [ "Ignored (not enabled)"; "Failed (MTM AOI missing)";
    "Failed (AOI bounds fetch)"; "Success"; "Processing Failed";
    "Index (handled)"; "Success (no data in AOI)" ].

(** The sources the loop of [run] records: all but the enabled sources
    with the id of the AOI index. *)
Definition recorded_sources (l : list DataSource) : list DataSource :=
  List.filter (fun ds => negb (is_enabled_index_source ds)) l.

End Accounting.

(** ** More of the small world *)

Module Fixtures.
Import Py PyStr Geo.

(** The tile archive with a cache directory that already holds the tile
    of the manifest, and a network that is down. *)
Definition cached_source : MntLidar.MNTLiDARSource :=
  MntLidar.mkSource "MNT LiDAR" true "./INDEX.gpkg" "QC_index_url_snrc_mnt"
    "feuillet" "lidar_url" "cache" [].

Definition cache_fs : FS.t :=
  FS.mk (list_to_map [("./INDEX.gpkg", 1048576%N);
                      ("cache/MNT_31H05NE.tif", 1000%N)]) ∅.

Definition offline : MntLidar.Net :=
  fun _ => Raise (Exn RequestException "connection refused").

(** Two configurations of registered types, one of an unknown type, and
    classes that build a source from the id and the priority found in the
    configuration and find no fault with it. *)
Definition cfg_roads : Factory.config :=
  list_to_map [("type", "wfs"); ("id", "roads_wfs"); ("priority_level", "2")].

Definition cfg_index : Factory.config :=
  list_to_map [("type", "indexed_local_gpkg"); ("id", "snrc_index_local_50k");
               ("priority_level", "1")].

Definition cfg_unknown : Factory.config :=
  list_to_map [("type", "shapefile"); ("id", "old_roads")].

Definition classes : Factory.Classes :=
  Factory.mkClasses
    (fun _ cfg =>
       Return (Pipeline.mkDataSource Pipeline.IsOtherSource
                 (default "unknown" (cfg !! "id")) "" (default "" (cfg !! "type"))
                 true
                 (if String.eqb (default "" (cfg !! "priority_level")) "1"
                  then 1%Z else 2%Z)
                 (default "unknown" (cfg !! "id")) "" "" "" ""))
    (fun _ => Return []).

(** A local raster configured on a file that exists, by a path relative
    to the working directory. *)
Definition resolve_path : LocalRaster.Resolver := fun p => "/srv/gis/" +:+ p.

Definition ortho_fs : FS.t :=
  FS.mk (list_to_map [("/srv/gis/data/ortho.tif", 734003200%N)]) ∅.

Definition cfg_ortho : LocalRaster.Config :=
  LocalRaster.mkConfig (Some "ortho") (Some "Orthophoto") (Some "local_raster")
    None (Some 5%Z) None None (Some "data/ortho.tif") None.

(** A local GeoPackage source on the index file, and a writer of GeoJSON
    files. *)
Definition cfg_sheets : LocalGpkg.Config :=
  LocalGpkg.mkConfig (Some "sheets") (Some "Map sheets") (Some "local_gpkg") None
    (Some 3%Z) None (Some "./INDEX.gpkg") (Some "QC_index_url_snrc_mnt") None.

Definition geojson : LocalGpkg.GeoJsonWriter :=
  fun gdf _ => Return (N.of_nat (128 * gdf_len gdf)).

End Fixtures.

(* ================================================================== *)
(** * Part II: properties                                              *)
(* ================================================================== *)

(** ** Facts on binary64 comparisons *)

Section FloatOrder.

Lemma SFcompare_antisym (x y : spec_float) :
  SFcompare y x = option_map CompOpp (SFcompare x y).
Proof.
  destruct x as [sx|sx| |sx mx ex], y as [sy|sy| |sy my ey]; simpl;
    try reflexivity;
    try (destruct sx; reflexivity); try (destruct sy; reflexivity);
    try (destruct sx, sy; reflexivity).
  destruct sx, sy; simpl; try reflexivity;
    rewrite (Z.compare_antisym ex ey); destruct (ex ?= ey)%Z; simpl;
    try reflexivity;
    rewrite (Pos.compare_cont_antisym mx my Eq); simpl; reflexivity.
Qed.

Lemma SFcompare_None (x y : spec_float) :
  SFcompare x y = None <-> x = S754_nan \/ y = S754_nan.
Proof.
  destruct x, y; simpl; split; intros H;
    try discriminate; try (destruct H; discriminate); auto.
Qed.

(** [x < y] excludes [y <= x]. *)
Lemma ltb_true_leb_false (x y : float) :
  (x <? y)%float = true -> (y <=? x)%float = false.
Proof.
  rewrite FloatAxioms.ltb_spec, FloatAxioms.leb_spec. unfold SFltb, SFleb.
  rewrite (SFcompare_antisym (Prim2SF x) (Prim2SF y)).
  destruct (SFcompare (Prim2SF x) (Prim2SF y)) as [[]|]; simpl; congruence.
Qed.

(** [y <= x] excludes [x < y]. *)
Lemma leb_true_ltb_false (x y : float) :
  (y <=? x)%float = true -> (x <? y)%float = false.
Proof.
  intros H. destruct (x <? y)%float eqn:E; [|reflexivity].
  apply ltb_true_leb_false in E. congruence.
Qed.

(** On ordered (non-NaN) operands, "not below [y]" is "at least [y]".
    [x] is known to be ordered because it compares with [z]; [y] because
    it equals itself. *)
Lemma ltb_false_leb_true (x y z : float) :
  (y =? y)%float = true -> (z <=? x)%float = true ->
  (x <? y)%float = false -> (y <=? x)%float = true.
Proof.
  rewrite FloatAxioms.eqb_spec, !FloatAxioms.leb_spec, FloatAxioms.ltb_spec.
  unfold SFeqb, SFltb, SFleb.
  intros Hy Hz Hlt.
  assert (Hx : Prim2SF x <> S754_nan).
  { intros E. rewrite E in Hz. destruct (Prim2SF z); discriminate. }
  assert (Hy' : Prim2SF y <> S754_nan).
  { intros E. rewrite E in Hy. discriminate. }
  rewrite (SFcompare_antisym (Prim2SF x) (Prim2SF y)).
  destruct (SFcompare (Prim2SF x) (Prim2SF y)) as [[]|] eqn:E; simpl;
    try reflexivity; try discriminate.
  apply SFcompare_None in E. tauto.
Qed.

Lemma SFcompare_lt_le_trans (x y z : spec_float) :
  SFcompare x y = Some Lt ->
  (SFcompare y z = Some Lt \/ SFcompare y z = Some Eq) ->
  SFcompare x z = Some Lt.
Proof.
  destruct x as [sx|sx| |sx mx ex], y as [sy|sy| |sy my ey],
           z as [sz|sz| |sz mz ez];
    simpl; intros H1 [H2|H2];
    try discriminate; try reflexivity;
    try (destruct sx; discriminate);
    try (destruct sx, sy; simpl in *; try discriminate; try reflexivity; fail);
    try (destruct sy, sz; simpl in *; try discriminate; try reflexivity; fail);
    try (destruct sx, sz; simpl in *; try discriminate; try reflexivity; fail);
    try (destruct sx, sy, sz; simpl in *;
         try discriminate; try reflexivity; fail).
  all: destruct sx, sy, sz; simpl in *; try discriminate; try reflexivity.
  all: change (Pos.compare_cont Eq) with Pos.compare in *.
  all: f_equal.
  all: destruct (Z.compare_spec ex ey), (Z.compare_spec ey ez),
         (Z.compare_spec ex ez);
    try discriminate; try reflexivity; try lia.
  all: subst.
  all: destruct (Pos.compare_spec mx my), (Pos.compare_spec my mz),
         (Pos.compare_spec mx mz);
    simpl in *; try discriminate; try reflexivity; try lia.
Qed.

(** [x < a <= b] excludes [b <= x]. *)
Lemma ltb_leb_chain_false (x a b : float) :
  (x <? a)%float = true -> (a <=? b)%float = true -> (b <=? x)%float = false.
Proof.
  rewrite FloatAxioms.ltb_spec, !FloatAxioms.leb_spec. unfold SFltb, SFleb. intros Hxa Hab.
  assert (H : SFcompare (Prim2SF x) (Prim2SF b) = Some Lt).
  { apply SFcompare_lt_le_trans with (y := Prim2SF a).
    - destruct (SFcompare (Prim2SF x) (Prim2SF a)) as [[]|];
        congruence.
    - destruct (SFcompare (Prim2SF a) (Prim2SF b)) as [[]|];
        auto; discriminate. }
  rewrite (SFcompare_antisym (Prim2SF x) (Prim2SF b)), H. reflexivity.
Qed.

End FloatOrder.

(** ** Zone selection *)

Section ZoneFacts.
Import Zone.

Example zone_montreal :
  get_mtm_zone_from_bounds (-74, 45.25, -73.5, 45.75)%float = "32188".
Proof. reflexivity. Qed.

Example zone_quebec_city :
  get_mtm_zone_from_bounds (-71.5, 46.5, -71, 47)%float = "32187".
Proof. reflexivity. Qed.

Example zone_paris_default :
  get_mtm_zone_from_bounds (2.25, 48.75, 2.5, 49)%float = "32188".
Proof. reflexivity. Qed.

Example zone_nan_default :
  get_mtm_zone_from_bounds (infinity, 0, neg_infinity, 0)%float = "32188".
Proof. reflexivity. Qed.

Example strict_paris_unresolved :
  get_mtm_nad83_crs_from_bounds (Some (2.25, 48.75, 2.5, 49)%float) = None.
Proof. reflexivity. Qed.

Lemma in_band_iff (bd : band) (c : float) :
  in_band bd c <->
  (band_lo bd <=? c)%float = true /\ (c <? band_hi bd)%float = true.
Proof. unfold in_band, chain_le_lt. apply andb_true_iff. Qed.

Lemma chain_below_false (lo c hi : float) :
  (c <? lo)%float = true -> chain_le_lt lo c hi = false.
Proof.
  intros H. unfold chain_le_lt.
  rewrite (ltb_true_leb_false _ _ H). reflexivity.
Qed.

Lemma get_mtm_zone_from_bounds_center (b : bounds) :
  get_mtm_zone_from_bounds b =
  let c := center_lon b in
  if chain_le_lt (-72) c (-69) then "32187"
  else if chain_le_lt (-75) c (-72) then "32188"
  else if chain_le_lt (-78) c (-75) then "32189"
  else if chain_le_lt (-81) c (-78) then "32190"
  else "32188".
Proof. reflexivity. Qed.

Lemma chain_above_false (lo c hi a : float) :
  (c <? a)%float = true -> (a <=? lo)%float = true ->
  chain_le_lt lo c hi = false.
Proof.
  intros H1 H2. unfold chain_le_lt.
  rewrite (ltb_leb_chain_false _ _ _ H1 H2). reflexivity.
Qed.

Lemma zone_in_band (b : bounds) (bd : band) :
  In bd zone_bands -> in_band bd (center_lon b) ->
  get_mtm_zone_from_bounds b = band_zone bd.
Proof.
  rewrite get_mtm_zone_from_bounds_center. cbv zeta.
  generalize (center_lon b). intros c Hin Hc.
  simpl in Hin.
  destruct Hin as [<-|[<-|[<-|[<-|[]]]]];
    pose proof Hc as Hc'; apply in_band_iff in Hc';
    simpl in Hc'; destruct Hc' as [Hlo Hhi];
    unfold in_band in Hc; simpl in Hc; simpl band_zone.
  - rewrite Hc. reflexivity.
  - rewrite (chain_above_false (-72) c (-69) _ Hhi eq_refl), Hc.
    reflexivity.
  - rewrite (chain_above_false (-72) c (-69) _ Hhi eq_refl),
      (chain_above_false (-75) c (-72) _ Hhi eq_refl), Hc.
    reflexivity.
  - rewrite (chain_above_false (-72) c (-69) _ Hhi eq_refl),
      (chain_above_false (-75) c (-72) _ Hhi eq_refl),
      (chain_above_false (-78) c (-75) _ Hhi eq_refl), Hc.
    reflexivity.
Qed.

Lemma zone_bands_cover (c : float) :
  chain_le_lt (-81) c (-69) = true ->
  exists bd, In bd zone_bands /\ in_band bd c.
Proof.
  intros H. apply andb_true_iff in H. destruct H as [Hlo Hhi].
  assert (step : forall k : float, (k =? k)%float = true ->
            (c <? k)%float = false -> (k <=? c)%float = true).
  { intros k Hk Hf. exact (ltb_false_leb_true c k _ Hk Hlo Hf). }
  destruct (c <? -78)%float eqn:E78.
  { exists (Band (-81) (-78) "32190"). split; [simpl; tauto|].
    apply in_band_iff. simpl. auto. }
  destruct (c <? -75)%float eqn:E75.
  { exists (Band (-78) (-75) "32189"). split; [simpl; tauto|].
    apply in_band_iff. simpl. split; [apply step; auto|auto]. }
  destruct (c <? -72)%float eqn:E72.
  { exists (Band (-75) (-72) "32188"). split; [simpl; tauto|].
    apply in_band_iff. simpl. split; [apply step; auto|auto]. }
  exists (Band (-72) (-69) "32187"). split; [simpl; tauto|].
  apply in_band_iff. simpl. split; [apply step; auto|auto].
Qed.

Lemma zone_outside_bands (b : bounds) :
  (forall bd, In bd zone_bands -> ~ in_band bd (center_lon b)) ->
  get_mtm_zone_from_bounds b = default_zone.
Proof.
  rewrite get_mtm_zone_from_bounds_center. cbv zeta.
  generalize (center_lon b). intros c H.
  assert (H1 := H (Band (-72) (-69) "32187")).
  assert (H2 := H (Band (-75) (-72) "32188")).
  assert (H3 := H (Band (-78) (-75) "32189")).
  assert (H4 := H (Band (-81) (-78) "32190")).
  unfold in_band in *. simpl in *.
  destruct (chain_le_lt (-72) c (-69)); [exfalso; apply H1; auto|].
  destruct (chain_le_lt (-75) c (-72)); [reflexivity|].
  destruct (chain_le_lt (-78) c (-75)); [exfalso; apply H3; auto 6|].
  destruct (chain_le_lt (-81) c (-78)); [exfalso; apply H4; auto 6|].
  reflexivity.
Qed.

Lemma zone_is_valid_mtm (b : bounds) :
  is_Some (VALID_MTM_CRS !! get_mtm_zone_from_bounds b).
Proof.
  rewrite get_mtm_zone_from_bounds_center. cbv zeta.
  generalize (center_lon b). intros c.
  destruct (chain_le_lt (-72) c (-69)); [eexists; reflexivity|].
  destruct (chain_le_lt (-75) c (-72)); [eexists; reflexivity|].
  destruct (chain_le_lt (-78) c (-75)); [eexists; reflexivity|].
  destruct (chain_le_lt (-81) c (-78)); eexists; reflexivity.
Qed.

(** C1.  Zone selection is total and deterministic: every 4-tuple of
    bounds is mapped to a zone identifier of the jurisdiction; equal
    bounds give equal zones; a center longitude inside a band of the
    table gives that band's zone; the bands are 3 degrees wide, meet end
    to start and leave no gap between -81 and -69; and a center
    longitude outside every band gives the default zone. *)
Theorem zone_selection_total_deterministic :
  (forall b : bounds,
      exists z, get_mtm_zone_from_bounds b = z /\
                is_Some (VALID_MTM_CRS !! z)) /\
  (forall b1 b2 : bounds,
      b1 = b2 -> get_mtm_zone_from_bounds b1 = get_mtm_zone_from_bounds b2) /\
  (forall (b : bounds) (bd : band),
      In bd zone_bands -> in_band bd (center_lon b) ->
      get_mtm_zone_from_bounds b = band_zone bd) /\
  (contiguous zone_bands /\
   Forall (fun bd => (band_hi bd - band_lo bd)%float = 3%float) zone_bands /\
   forall c : float,
     chain_le_lt (-81) c (-69) = true ->
     exists bd, In bd zone_bands /\ in_band bd c) /\
  (forall b : bounds,
      (forall bd, In bd zone_bands -> ~ in_band bd (center_lon b)) ->
      get_mtm_zone_from_bounds b = default_zone).
Proof.
  split; [|split; [|split; [|split]]].
  - intros b. eexists. split; [reflexivity|]. apply zone_is_valid_mtm.
  - intros b1 b2 ->. reflexivity.
  - exact zone_in_band.
  - split; [|split].
    + simpl. repeat split.
    + repeat constructor.
    + exact zone_bands_cover.
  - exact zone_outside_bands.
Qed.

Lemma zone_selection_total_deterministic_witness :
  in_band (Band (-78) (-75) "32189") (center_lon (-76.25, 45.25, -75.75, 45.5)%float) /\
  get_mtm_zone_from_bounds (-76.25, 45.25, -75.75, 45.5)%float = "32189".
Proof.
  split; [reflexivity|].
  apply (proj1 (proj2 (proj2 zone_selection_total_deterministic))
           (-76.25, 45.25, -75.75, 45.5)%float (Band (-78) (-75) "32189")).
  - simpl. tauto.
  - reflexivity.
Defined.

End ZoneFacts.

(** ** Python strings *)

Section PyStrFacts.
Import PyStr.

Lemma length_upper (s : string) : String.length (upper s) = String.length s.
Proof. induction s as [|c s IH]; simpl; congruence. Qed.

Lemma app_str_nil (t : string) : "" +:+ t = t.
Proof. reflexivity. Qed.

Lemma app_str_cons (c : ascii) (s t : string) :
  String c s +:+ t = String c (s +:+ t).
Proof. reflexivity. Qed.

Lemma upper_app (s t : string) : upper (s +:+ t) = upper s +:+ upper t.
Proof.
  induction s as [|c s IH]; simpl; rewrite ?app_str_nil, ?app_str_cons;
    simpl; congruence.
Qed.

Lemma length_app_str (s t : string) :
  String.length (s +:+ t) = String.length s + String.length t.
Proof.
  induction s as [|c s IH]; rewrite ?app_str_nil, ?app_str_cons; simpl;
    congruence.
Qed.

Lemma str_in_In (s : string) (l : list string) : str_in s l = true <-> In s l.
Proof.
  unfold str_in. rewrite existsb_exists. split.
  - intros (x & Hx & E). apply String.eqb_eq in E. congruence.
  - intros H. exists s. split; [exact H|apply String.eqb_refl].
Qed.

Lemma take_drop_str (k : nat) (s : string) : substring 0 k s +:+ drop k s = s.
Proof.
  revert s. induction k as [|k IH]; intros [|c s]; simpl; try reflexivity.
  rewrite app_str_cons, IH. reflexivity.
Qed.

Lemma length_take_str (k : nat) (s : string) :
  k <= String.length s -> String.length (substring 0 k s) = k.
Proof.
  revert s. induction k as [|k IH]; intros [|c s]; simpl; intros H;
    try reflexivity; try lia.
  rewrite IH; [reflexivity|lia].
Qed.

Lemma drop_app_length (p s : string) : drop (String.length p) (p +:+ s) = s.
Proof.
  induction p as [|c p IH]; rewrite ?app_str_nil, ?app_str_cons; simpl;
    [destruct s; reflexivity|exact IH].
Qed.

Lemma take_app_length (p s : string) :
  substring 0 (String.length p) (p +:+ s) = p.
Proof.
  induction p as [|c p IH]; rewrite ?app_str_nil, ?app_str_cons; simpl;
    [destruct s; reflexivity|].
  rewrite IH. reflexivity.
Qed.

(** [startswith] is "has this prefix". *)
Lemma startswith_app (s p : string) :
  startswith s p = true <-> exists t, s = p +:+ t.
Proof.
  unfold startswith. revert s. induction p as [|c p IH]; intros s.
  - split; [intros _; exists s; reflexivity|intros _; destruct s; reflexivity].
  - destruct s as [|d s]; simpl;
      [split; [discriminate|intros [t Ht]; rewrite app_str_cons in Ht;
                            discriminate]|].
    destruct (ascii_dec c d) as [->|Hne].
    + rewrite IH. split; intros [t Ht]; exists t; rewrite app_str_cons in *;
        [congruence|].
      injection Ht as Ht. exact Ht.
    + split; [discriminate|]. intros [t Ht]. rewrite app_str_cons in Ht.
      injection Ht as E _. congruence.
Qed.

End PyStrFacts.

(** ** Tile-code grammar *)

Section TileCodeFacts.
Import PyStr TileCode.

Example is_code_20k_child : _is_code_20k "31H05NE" = true.
Proof. reflexivity. Qed.

Example is_code_20k_child_padded : _is_code_20k "031h05so" = true.
Proof. reflexivity. Qed.

Example is_code_20k_parent : _is_code_20k "31H05" = false.
Proof. reflexivity. Qed.

Example is_code_20k_bad_suffix : _is_code_20k "31H05NN" = false.
Proof. reflexivity. Qed.

Example normalize_padded : _normalize_50k_code_for_20k_index "031h05" = "31H05".
Proof. reflexivity. Qed.

Example normalize_plain : _normalize_50k_code_for_20k_index "31h05" = "31H05".
Proof. reflexivity. Qed.

Local Arguments isdigit_char : simpl never.
Local Arguments isalpha_char : simpl never.
Local Arguments upper_char : simpl never.

Lemma prefix5_shape (p : string) :
  String.length p = 5 ->
  (isdigit (slice p 0 2) && isalpha_at p 2 && isdigit (slice p 3 5) = true
   <-> has_shape [Digit; Digit; Letter; Digit; Digit] p).
Proof.
  intros Hlen.
  destruct p as [|c1 [|c2 [|c3 [|c4 [|c5 [|c6 p]]]]]]; try discriminate Hlen.
  unfold isalpha_at, slice. simpl.
  rewrite !andb_true_r, !andb_true_iff. tauto.
Qed.

Lemma prefix6_shape (p : string) :
  String.length p = 6 ->
  (isdigit (slice p 0 3) && isalpha_at p 3 && isdigit (slice p 4 6) = true
   <-> has_shape [Digit; Digit; Digit; Letter; Digit; Digit] p).
Proof.
  intros Hlen.
  destruct p as [|c1 [|c2 [|c3 [|c4 [|c5 [|c6 [|c7 p]]]]]]];
    try discriminate Hlen.
  unfold isalpha_at, slice. simpl.
  rewrite !andb_true_r, !andb_true_iff. tauto.
Qed.

Lemma has_shape_length (pat : list char_class) (p : string) :
  has_shape pat p -> String.length p = List.length pat.
Proof.
  revert p. induction pat as [|k pat IH]; intros [|c p]; simpl;
    try tauto. intros [_ H]. f_equal. apply IH, H.
Qed.

Lemma suffix_20k_length (s : string) : In s suffixes_20k -> String.length s = 2.
Proof.
  simpl. intros [<-|[<-|[<-|[<-|[<-|[<-|[]]]]]]]; reflexivity.
Qed.

Lemma is_code_20k_unfold (code : string) :
  _is_code_20k code = is_code_20k_upper (upper code).
Proof.
  unfold _is_code_20k, is_code_20k_upper. cbv zeta.
  destruct (_ && str_in _ _); [|reflexivity].
  destruct (_ || _); reflexivity.
Qed.

Lemma is_code_20k_upper_shape (cu : string) :
  is_code_20k_upper cu = true <->
  (String.length cu = 7 \/ String.length cu = 8) /\
  exists p s, cu = p +:+ s /\ In s suffixes_20k /\ valid_parent_prefix p.
Proof.
  unfold is_code_20k_upper. cbv zeta.
  set (n := String.length cu).
  assert (Hsplit : slice cu 0 (n - 2) +:+ last2 cu = cu).
  { unfold slice, last2. fold n. rewrite Nat.sub_0_r. apply take_drop_str. }
  split.
  - intros H. apply andb_true_iff in H. destruct H as [H Hp].
    apply andb_true_iff in H. destruct H as [Hn Hs].
    apply str_in_In in Hs.
    assert (Hn' : n = 7 \/ n = 8).
    { apply orb_true_iff in Hn. destruct Hn as [Hn|Hn];
        apply Nat.eqb_eq in Hn; auto. }
    split; [exact Hn'|].
    exists (slice cu 0 (n - 2)), (last2 cu). split; [auto|]. split; [exact Hs|].
    assert (Hlen : String.length (slice cu 0 (n - 2)) = n - 2).
    { unfold slice. rewrite Nat.sub_0_r. apply length_take_str. fold n. lia. }
    apply orb_true_iff in Hp. destruct Hp as [Hp|Hp].
    + left. rewrite <- !andb_assoc in Hp. apply andb_true_iff in Hp.
      destruct Hp as [H5 Hp]. apply Nat.eqb_eq in H5.
      apply prefix5_shape; [congruence|]. rewrite <- !andb_assoc. exact Hp.
    + right. rewrite <- !andb_assoc in Hp. apply andb_true_iff in Hp.
      destruct Hp as [H6 Hp]. apply Nat.eqb_eq in H6.
      apply prefix6_shape; [congruence|]. rewrite <- !andb_assoc. exact Hp.
  - intros (Hn & p & s & Hcu & Hs & Hp).
    assert (Hls := suffix_20k_length s Hs).
    assert (Hn' : n = String.length p + 2).
    { unfold n. rewrite Hcu, length_app_str. lia. }
    assert (Ep : slice cu 0 (n - 2) = p).
    { unfold slice. rewrite Nat.sub_0_r, Hn', Hcu.
      replace (String.length p + 2 - 2) with (String.length p) by lia.
      apply take_app_length. }
    assert (Es : last2 cu = s).
    { unfold last2. fold n. rewrite Hn', Hcu.
      replace (String.length p + 2 - 2) with (String.length p) by lia.
      apply drop_app_length. }
    rewrite Ep, Es.
    apply andb_true_iff. split.
    + apply andb_true_iff. split; [|apply str_in_In; exact Hs].
      apply orb_true_iff. fold n in Hn.
      destruct Hn as [->| ->]; [left|right]; reflexivity.
    + apply orb_true_iff. destruct Hp as [Hp|Hp].
      * left. assert (Hl := has_shape_length _ _ Hp). simpl in Hl.
        replace (n - 2) with 5 by lia. simpl (5 =? 5)%nat. cbv iota.
        rewrite andb_true_l. apply prefix5_shape; assumption.
      * right. assert (Hl := has_shape_length _ _ Hp). simpl in Hl.
        replace (n - 2) with 6 by lia. simpl (6 =? 6)%nat.
        rewrite andb_true_l. apply prefix6_shape; assumption.
Qed.

Lemma is_code_20k_shape (code : string) :
  _is_code_20k code = true <-> child_shape suffixes_20k code.
Proof.
  rewrite is_code_20k_unfold, is_code_20k_upper_shape. unfold child_shape.
  rewrite length_upper. reflexivity.
Qed.

End TileCodeFacts.

Section TileCodeClaims.
Import PyStr TileCode.

Lemma upper_char_idem (c : ascii) : upper_char (upper_char c) = upper_char c.
Proof. destruct c as [[] [] [] [] [] [] [] []]; reflexivity. Qed.

Lemma upper_idem (s : string) : upper (upper s) = upper s.
Proof.
  induction s as [|c s IH]; simpl; [reflexivity|].
  rewrite upper_char_idem, IH. reflexivity.
Qed.

Lemma suffixes_20k_directional : Forall directional suffixes_20k.
Proof. repeat constructor. Qed.







End TileCodeClaims.

(** ** Parent codes: the prefix-containment scan *)

Section ParentScan.
Import Py PyStr Geo TileCode AoiResolver.

Example scan_31H05 :
  map (fun gdf => map (cell "feuillet") (gdf_rows gdf))
      (collect_code Sample.engine "EPSG:32198" "031h05")
  = [["31H05NE"]; ["31H05NO"]; ["31H05SE"]; ["31h05so"]].
Proof. vm_compute. reflexivity. Qed.

Example scan_unknown_parent :
  collect_code Sample.engine "EPSG:32198" "99Z99" = [].
Proof. vm_compute. reflexivity. Qed.

Example child_lookup_31H05NE :
  map (fun gdf => map (cell "feuillet") (gdf_rows gdf))
      (collect_code Sample.engine "EPSG:32198" "31h05ne")
  = [["31H05NE"]].
Proof. vm_compute. reflexivity. Qed.


Lemma normalize_50k_upper (code : string) :
  _normalize_50k_code_for_20k_index (upper code)
  = _normalize_50k_code_for_20k_index code.
Proof.
  unfold _normalize_50k_code_for_20k_index. rewrite upper_idem. reflexivity.
Qed.






End ParentScan.

(** ** The error-handling decorator *)

Section ErrorHandlerFacts.
Import Py ErrorHandler.

Lemma isinstance_Exception (e : exn) : isinstance e Exception = true.
Proof. unfold isinstance, issubclass. apply orb_true_r. Qed.

Lemma handle_errors_returns {A : Type} (error_type : exn_class) (d : A)
    (func : result A) :
  handle_errors error_type d func
  = Return (match func with Return v => v | Raise _ => d end).
Proof.
  unfold handle_errors. destruct func as [v|e]; [reflexivity|].
  rewrite isinstance_Exception. destruct (isinstance e error_type); reflexivity.
Qed.

Lemma handle_errors_method_returns {S A : Type} (error_type : exn_class)
    (d : A) (func : S -> result A * S) (self : S) :
  handle_errors_method error_type d func self
  = (Return (match fst (func self) with Return v => v | Raise _ => d end),
     snd (func self)).
Proof.
  unfold handle_errors_method. destruct (func self) as [r self']. simpl.
  rewrite handle_errors_returns. reflexivity.
Qed.

End ErrorHandlerFacts.

(** ** AOI definition and finalization *)

Section AoiFacts.
Import Py PyStr Geo Zone TileCode ErrorHandler AoiResolver.

Example snrc_parent_defines :
  fst (define_from_snrc_codes Sample.engine [PStr "031h05"] Sample.fresh_aoi)
  = Return true.
Proof. vm_compute. reflexivity. Qed.

Example snrc_parent_zone :
  target_mtm_crs
    (snd (define_from_snrc_codes Sample.engine [PStr "031h05"] Sample.fresh_aoi))
  = Some "EPSG:32188".
Proof. vm_compute. reflexivity. Qed.

Example snrc_no_match_fails :
  fst (define_from_snrc_codes Sample.engine [PStr "99Z99"] Sample.fresh_aoi)
  = Return false.
Proof. vm_compute. reflexivity. Qed.

Example snrc_non_string_code_raises :
  fst (define_from_snrc_codes_body Sample.engine [PStr "31H05"; PInt 21]
         Sample.fresh_aoi)
  = Raise (Exn AttributeError "'int' object has no attribute 'upper'").
Proof. vm_compute. reflexivity. Qed.

Example kml_missing_file_fails :
  fst (define_from_kml_file Sample.engine Sample.fs "nowhere.kml" Sample.fresh_aoi)
  = Return false.
Proof. vm_compute. reflexivity. Qed.

(** C2, as stated, fails: a boundary file around Paris, whose center
    longitude is outside every band (the strict selector of aoi_handler.py
    would not resolve it), is defined and finalized with success, in the
    default zone. *)
Lemma kml_outside_bands_finalizes :
  (forall bd, In bd zone_bands ->
              ~ in_band bd (center_lon (Sample.bounds_of Sample.paris_frame))) /\
  get_mtm_nad83_crs_from_bounds (Some (Sample.bounds_of Sample.paris_frame)) = None /\
  fst (_finalize_definition Sample.engine Sample.paris_aoi) = true /\
  target_mtm_crs (snd (_finalize_definition Sample.engine Sample.paris_aoi))
  = Some "EPSG:32188" /\
  fst (define_from_kml_file Sample.engine Sample.fs "paris.kml" Sample.fresh_aoi)
  = Return true /\
  bounds_epsg4326
    (snd (define_from_kml_file Sample.engine Sample.fs "paris.kml" Sample.fresh_aoi))
  = Some (Sample.bounds_of Sample.paris_frame).
Proof.
  split.
  { intros bd Hin. simpl in Hin.
    destruct Hin as [<-|[<-|[<-|[<-|[]]]]]; vm_compute; discriminate. }
  repeat split; vm_compute; reflexivity.
Qed.

Lemma validate_custom_crs_no_target (E : Engine.t) (self : Aoi) :
  target_mtm_crs self = None -> validate_custom_crs E self = self.
Proof.
  intros H. unfold validate_custom_crs. rewrite H. simpl.
  rewrite andb_false_r. reflexivity.
Qed.

Lemma determine_outside_bands (bnds : bounds) (self : Aoi) :
  target_mtm_crs self = None ->
  (forall bd, In bd zone_bands -> ~ in_band bd (center_lon bnds)) ->
  target_mtm_crs (determine_mtm_projection bnds self) = Some "32188".
Proof.
  intros H Hout. unfold determine_mtm_projection. rewrite H. simpl.
  rewrite (zone_outside_bands bnds Hout). reflexivity.
Qed.

Lemma format_default_zone (E : Engine.t) (bnds : bounds) (self : Aoi) :
  target_mtm_crs self = Some "32188" ->
  (forall bd, In bd zone_bands -> ~ in_band bd (center_lon bnds)) ->
  (forall code, Engine.crs_to_epsg E "EPSG:32188" = Return (Some code) ->
                code = "32188") ->
  target_mtm_crs (format_target_crs E bnds self) = Some "EPSG:32188".
Proof.
  intros H Hout Hreg. unfold format_target_crs. rewrite H. simpl.
  rewrite (zone_outside_bands bnds Hout).
  change ("EPSG:" +:+ "32188") with "EPSG:32188".
  destruct (Engine.crs_to_epsg E "EPSG:32188") as [[code|]|e] eqn:Ecrs;
    simpl; try reflexivity.
  rewrite (Hreg code eq_refl). reflexivity.
Qed.

Lemma reproject_keeps_target (E : Engine.t) (gdf : GeoDataFrame) (self : Aoi) :
  target_mtm_crs (snd (reproject_to_target E gdf self)) = target_mtm_crs self.
Proof.
  unfold reproject_to_target.
  destruct (gdf_crs gdf) as [crs|]; [|reflexivity].
  destruct (String.eqb _ _).
  - destruct (geometry_iloc0 gdf); reflexivity.
  - destruct (Engine.to_crs E gdf _) as [gdf_mtm|]; [|reflexivity].
    destruct (negb (gdf_empty gdf_mtm)); [|reflexivity].
    destruct (geometry_iloc0 gdf_mtm) as [[g|]|]; try reflexivity.
    destruct (is_empty g); reflexivity.
Qed.

Lemma reproject_succeeds_iff (E : Engine.t) (gdf : GeoDataFrame) (self : Aoi)
    (target : string) :
  target_mtm_crs self = Some target ->
  fst (reproject_to_target E gdf self) = true <-> reprojects_to E gdf target.
Proof.
  intros Ht. unfold reproject_to_target, reprojects_to. rewrite Ht. simpl.
  destruct (gdf_crs gdf) as [crs|]; [|simpl; split; [discriminate|tauto]].
  destruct (String.eqb (upper crs) (upper target)).
  - unfold geometry_iloc0. destruct (gdf_rows gdf) as [|r rest]; simpl.
    + split; [discriminate|congruence].
    + split; [discriminate|reflexivity].
  - destruct (Engine.to_crs E gdf target) as [gdf_mtm|e]; simpl.
    + unfold gdf_empty, geometry_iloc0.
      destruct (gdf_rows gdf_mtm) as [|r rest] eqn:Erows; simpl.
      * split; [discriminate|].
        intros (g0 & r0 & rest0 & g1 & Hto & Hr & _).
        injection Hto as <-. congruence.
      * destruct (row_geometry r) as [g|] eqn:Eg; simpl.
        -- destruct (is_empty g) eqn:Ee; simpl.
           ++ split; [discriminate|].
              intros (g0 & r0 & rest0 & g1 & Hto & Hr & Hg & He).
              injection Hto as <-. rewrite Erows in Hr.
              injection Hr as <- <-. congruence.
           ++ split; [|reflexivity]. intros _.
              exists gdf_mtm, r, rest, g. auto.
        -- split; [discriminate|].
           intros (g0 & r0 & rest0 & g1 & Hto & Hr & Hg & He).
           injection Hto as <-. rewrite Erows in Hr.
           injection Hr as <- <-. congruence.
    + split; [discriminate|].
      intros (g0 & r0 & rest0 & g1 & Hto & _). discriminate.
Qed.

(** C2 (amended).  For an AOI without custom zone whose bounds have their
    center longitude outside every band, finalization does not fail on
    zone resolution: the selector yields the default zone, the target
    becomes EPSG:32188, and finalization reports success exactly when the
    base geometry reprojects into that zone (is already there, or
    reprojects to a non-empty geometry). *)
Theorem finalize_outside_bands_uses_default (E : Engine.t) (self : Aoi)
    (gdf : GeoDataFrame) (bnds : bounds) :
  combined_gdf_epsg4326 self = Some gdf ->
  bounds_epsg4326 self = Some bnds ->
  target_mtm_crs self = None ->
  (forall bd, In bd zone_bands -> ~ in_band bd (center_lon bnds)) ->
  (forall code, Engine.crs_to_epsg E "EPSG:32188" = Return (Some code) ->
                code = "32188") ->
  target_mtm_crs (snd (_finalize_definition E self)) = Some "EPSG:32188" /\
  (fst (_finalize_definition E self) = true <-> reprojects_to E gdf "EPSG:32188").
Proof.
  intros Hgdf Hb Ht Hout Hreg.
  unfold _finalize_definition. rewrite Hgdf, Hb. cbv zeta.
  rewrite (validate_custom_crs_no_target E self Ht).
  assert (H1 := determine_outside_bands bnds self Ht Hout).
  rewrite H1. simpl negb. cbv iota.
  assert (H2 := format_default_zone E bnds _ H1 Hout Hreg).
  split.
  - rewrite reproject_keeps_target. exact H2.
  - apply reproject_succeeds_iff. exact H2.
Qed.

Lemma finalize_outside_bands_uses_default_witness :
  target_mtm_crs (snd (_finalize_definition Sample.engine Sample.paris_aoi))
  = Some "EPSG:32188" /\
  (fst (_finalize_definition Sample.engine Sample.paris_aoi) = true <->
   reprojects_to Sample.engine Sample.paris_frame "EPSG:32188").
Proof.
  apply (finalize_outside_bands_uses_default Sample.engine Sample.paris_aoi
           Sample.paris_frame (Sample.bounds_of Sample.paris_frame)).
  - reflexivity.
  - reflexivity.
  - reflexivity.
  - intros bd Hin. simpl in Hin.
    destruct Hin as [<-|[<-|[<-|[<-|[]]]]]; vm_compute; discriminate.
  - intros code H. vm_compute in H. congruence.
Defined.

(** C9.  Whatever the list of tile codes or the file path, the two AOI
    definition entry points return a boolean and raise nothing: an
    exception raised inside the body is caught by the [handle_errors]
    wrapper and becomes the failure value [False]. *)
Theorem aoi_definitions_never_raise (E : Engine.t) (fs : FS.t) :
  (forall (snrc_codes_input : list pyval) (self : Aoi),
      exists b : bool,
        fst (define_from_snrc_codes E snrc_codes_input self) = Return b) /\
  (forall (kml_filepath : string) (self : Aoi),
      exists b : bool,
        fst (define_from_kml_file E fs kml_filepath self) = Return b) /\
  (forall (snrc_codes_input : list pyval) (self : Aoi) (e : exn),
      fst (define_from_snrc_codes_body E snrc_codes_input self) = Raise e ->
      fst (define_from_snrc_codes E snrc_codes_input self) = Return false) /\
  (forall (kml_filepath : string) (self : Aoi) (e : exn),
      fst (define_from_kml_file_body E fs kml_filepath self) = Raise e ->
      fst (define_from_kml_file E fs kml_filepath self) = Return false) /\
  (forall (error_type : exn_class) (func : result bool) (e : exn),
      func = Raise e -> handle_errors error_type false func = Return false).
Proof.
  unfold define_from_snrc_codes, define_from_kml_file.
  repeat split.
  - intros codes self. rewrite handle_errors_method_returns. simpl. eauto.
  - intros path self. rewrite handle_errors_method_returns. simpl. eauto.
  - intros codes self e H. rewrite handle_errors_method_returns. simpl.
    rewrite H. reflexivity.
  - intros path self e H. rewrite handle_errors_method_returns. simpl.
    rewrite H. reflexivity.
  - intros error_type func e ->. rewrite handle_errors_returns. reflexivity.
Qed.

Lemma aoi_definitions_never_raise_witness :
  fst (define_from_snrc_codes_body Sample.engine [PStr "31H05"; PInt 21]
         Sample.fresh_aoi)
  = Raise (Exn AttributeError "'int' object has no attribute 'upper'") /\
  fst (define_from_snrc_codes Sample.engine [PStr "31H05"; PInt 21]
         Sample.fresh_aoi)
  = Return false.
Proof.
  split; [vm_compute; reflexivity|].
  apply (proj1 (proj2 (proj2 (aoi_definitions_never_raise Sample.engine Sample.fs)))
           [PStr "31H05"; PInt 21] Sample.fresh_aoi
           (Exn AttributeError "'int' object has no attribute 'upper'")).
  vm_compute. reflexivity.
Defined.

End AoiFacts.

(** ** Vector normalization *)

Section VectorFacts.
Import Py PyStr Geo ErrorHandler VectorProcessor.

Example vector_roads_clipped :
  fst (process_vector_data Sample.engine "tmp/temp_wfs_roads.geojson"
         Sample.aoi_polygon "EPSG:32188" "out/project.gpkg" "roads" true
         (Some "tmp") Sample.world)
  = Return (true, 3%Z, 2%Z).
Proof. vm_compute. reflexivity. Qed.

Example vector_roads_layer_written :
  (fun gdf => (gdf_columns gdf, gdf_len gdf))
    <$> (World.layers
           (snd (process_vector_data Sample.engine "tmp/temp_wfs_roads.geojson"
                   Sample.aoi_polygon "EPSG:32188" "out/project.gpkg" "roads" true
                   (Some "tmp") Sample.world))
           "out/project.gpkg" !! "roads")
  = Some (["road_name"; "geometry"], 2).
Proof. vm_compute. reflexivity. Qed.

Example vector_temp_input_removed :
  FS.exists_
    (World.fs (snd (process_vector_data Sample.engine "tmp/temp_wfs_roads.geojson"
                      Sample.aoi_polygon "EPSG:32188" "out/project.gpkg" "roads"
                      true (Some "tmp") Sample.world)))
    "tmp/temp_wfs_roads.geojson"
  = false.
Proof. vm_compute. reflexivity. Qed.

Example vector_missing_input :
  fst (process_vector_data Sample.engine "tmp/absent.geojson"
         Sample.aoi_polygon "EPSG:32188" "out/project.gpkg" "roads" true
         (Some "tmp") Sample.world)
  = Return (false, (-1)%Z, (-1)%Z).
Proof. vm_compute. reflexivity. Qed.

Lemma reproject_count (E : Engine.t) (gdf gdf_mtm : GeoDataFrame)
    (target : string) (n : Z) :
  reproject E gdf target = inl (gdf_mtm, n) -> n = len gdf_mtm.
Proof.
  unfold reproject. cbv zeta.
  destruct (gdf_crs gdf) as [crs|] eqn:Ecrs; simpl.
  - rewrite Ecrs.
    destruct (negb (String.eqb (upper crs) (upper target))).
    + destruct (Engine.to_crs E gdf target); intros H; inversion H; reflexivity.
    + intros H. inversion H. reflexivity.
  - destruct (negb _).
    + destruct (Engine.to_crs E _ target); intros H; inversion H; reflexivity.
    + intros H. inversion H. reflexivity.
Qed.

Lemma process_vector_data_reaches_save (E : Engine.t) (input_filepath : string)
    (aoi aoi' : geometry) (target out layer : string) (w : World.t)
    (gdf gdf_mtm gdf_clipped : GeoDataFrame) (n : Z) :
  FS.exists_ (World.fs w) input_filepath = true ->
  Engine.read_file E input_filepath None = Return gdf ->
  gdf_empty gdf = false ->
  reproject E gdf target = inl (gdf_mtm, n) ->
  validate_aoi E aoi = Some aoi' ->
  clip_with_retry E gdf_mtm aoi' target = Some gdf_clipped ->
  process_vector_data_try E input_filepath aoi target out layer w
  = save_output E gdf_clipped out layer n (len gdf_clipped) w.
Proof.
  intros Hex Hread Hne Hrep Hval Hclip. unfold process_vector_data_try.
  rewrite Hex, Hread, Hne, Hrep, Hval, Hclip. reflexivity.
Qed.

Lemma reproject_early (E : Engine.t) (gdf : GeoDataFrame) (target : string)
    (early : report) :
  reproject E gdf target = inr early -> early = (false, len gdf, (-1)%Z).
Proof.
  unfold reproject. cbv zeta.
  destruct (gdf_crs gdf) as [crs|] eqn:Ecrs; simpl.
  - rewrite Ecrs.
    destruct (negb (String.eqb (upper crs) (upper target))).
    + destruct (Engine.to_crs E gdf target); intros H; inversion H; reflexivity.
    + discriminate.
  - destruct (negb _).
    + destruct (Engine.to_crs E _ target); intros H; inversion H; reflexivity.
    + discriminate.
Qed.

(** C8, as stated, fails: for an input file that does not exist the
    triple carries no count at all, [-1] standing for "not counted" in
    both places; no frame has that many features. *)
Lemma vector_counts_not_always_reported :
  FS.exists_ (World.fs Sample.world) "tmp/absent.geojson" = false
  /\ fst (process_vector_data Sample.engine "tmp/absent.geojson"
            Sample.aoi_polygon "EPSG:32188" "out/project.gpkg" "roads" true
            (Some "tmp") Sample.world)
     = Return (false, (-1)%Z, (-1)%Z)
  /\ (forall gdf : GeoDataFrame, len gdf <> (-1)%Z).
Proof.
  split; [vm_compute; reflexivity|]. split; [vm_compute; reflexivity|].
  intros gdf. unfold len. lia.
Qed.

(** C8 (amended).  Vector normalization always returns a triple, and what
    the triple carries depends on how far the run went.  Once clipping has
    produced a frame, the triple carries the number of features before
    clipping and the number after it, whether the layer is then written
    (flag [True]) or the write fails (flag [False]).  An input without
    features gives [(True, 0, 0)].  A run that stops before clipping gives
    the failure flag with [-1] as the second count, and as the first count
    [-1] (no input file), [0] (an unreadable file), the number of features
    read (a failed reprojection) or the number of features after
    reprojection (an invalid AOI, or a failed clipping). *)
Theorem vector_counts_reported (E : Engine.t) (input_filepath : string)
    (aoi : geometry) (target out layer : string) (del : bool)
    (tmp : option string) (w : World.t) :
  let r :=
    fst (process_vector_data E input_filepath aoi target out layer del tmp w) in
  (exists gdf gdf_mtm n aoi' gdf_clipped,
      FS.exists_ (World.fs w) input_filepath = true /\
      Engine.read_file E input_filepath None = Return gdf /\
      gdf_empty gdf = false /\
      reproject E gdf target = inl (gdf_mtm, n) /\
      validate_aoi E aoi = Some aoi' /\
      clip_with_retry E gdf_mtm aoi' target = Some gdf_clipped /\
      r = Return (match Engine.to_file_error E (clean_columns gdf_clipped)
                          out layer with
                  | None => true
                  | Some _ => false
                  end, len gdf_mtm, len gdf_clipped)) \/
  (exists gdf,
      FS.exists_ (World.fs w) input_filepath = true /\
      Engine.read_file E input_filepath None = Return gdf /\
      gdf_empty gdf = true /\
      r = Return (true, 0%Z, 0%Z)) \/
  (exists count_before,
      r = Return (false, count_before, (-1)%Z) /\
      ((FS.exists_ (World.fs w) input_filepath = false /\
        count_before = (-1)%Z) \/
       (exists e,
           FS.exists_ (World.fs w) input_filepath = true /\
           Engine.read_file E input_filepath None = Raise e /\
           count_before
           = if isinstance e FileNotFoundError then (-1)%Z else 0%Z) \/
       (exists gdf,
           FS.exists_ (World.fs w) input_filepath = true /\
           Engine.read_file E input_filepath None = Return gdf /\
           gdf_empty gdf = false /\
           ((exists early, reproject E gdf target = inr early /\
                           count_before = len gdf) \/
            (exists gdf_mtm n,
                reproject E gdf target = inl (gdf_mtm, n) /\
                count_before = len gdf_mtm /\
                (validate_aoi E aoi = None \/
                 exists aoi',
                   validate_aoi E aoi = Some aoi' /\
                   clip_with_retry E gdf_mtm aoi' target = None)))))).
Proof.
  cbv zeta. unfold process_vector_data, process_vector_data_try.
  destruct (FS.exists_ (World.fs w) input_filepath) eqn:Hex; simpl negb; cbv iota.
  2:{ right. right. exists (-1)%Z. split; [reflexivity|]. left. auto. }
  destruct (Engine.read_file E input_filepath None) as [gdf|e] eqn:Hread.
  2:{ right. right.
      exists (if isinstance e FileNotFoundError then (-1)%Z else 0%Z).
      split; [destruct (isinstance e FileNotFoundError); reflexivity|].
      right. left. exists e. auto. }
  destruct (gdf_empty gdf) eqn:Hempty.
  { right. left. exists gdf. auto. }
  destruct (reproject E gdf target) as [[gdf_mtm n]|early] eqn:Hrep.
  2:{ right. right. exists (len gdf).
      rewrite (reproject_early _ _ _ _ Hrep).
      split; [reflexivity|]. right. right. exists gdf.
      do 3 (split; [first [reflexivity|assumption]|]). left. exists early.
      split; [exact Hrep|reflexivity]. }
  assert (Hn := reproject_count _ _ _ _ _ Hrep). subst n.
  destruct (validate_aoi E aoi) as [aoi'|] eqn:Hval.
  2:{ right. right. exists (len gdf_mtm). split; [reflexivity|].
      right. right. exists gdf. do 3 (split; [first [reflexivity|assumption]|]). right.
      exists gdf_mtm, (len gdf_mtm). split; [first [reflexivity|assumption]|]. auto. }
  destruct (clip_with_retry E gdf_mtm aoi' target) as [gdf_clipped|] eqn:Hclip.
  2:{ right. right. exists (len gdf_mtm). split; [reflexivity|].
      right. right. exists gdf. do 3 (split; [first [reflexivity|assumption]|]). right.
      exists gdf_mtm, (len gdf_mtm). split; [first [reflexivity|assumption]|].
      split; [reflexivity|]. right. exists aoi'. auto. }
  left. exists gdf, gdf_mtm, (len gdf_mtm), aoi', gdf_clipped.
  do 6 (split; [first [reflexivity|assumption]|]).
  unfold save_output, World.to_file.
  destruct (Engine.to_file_error E (clean_columns gdf_clipped) out layer);
    reflexivity.
Qed.

(** On a store that refuses writes, the sample roads are still counted
    before and after clipping. *)
Lemma vector_counts_reported_witness :
  fst (process_vector_data Sample.engine_readonly "tmp/temp_wfs_roads.geojson"
         Sample.aoi_polygon "EPSG:32188" "out/project.gpkg" "roads" true
         (Some "tmp") Sample.world)
  = Return (false, 3%Z, 2%Z).
Proof.
  destruct (vector_counts_reported Sample.engine_readonly
              "tmp/temp_wfs_roads.geojson" Sample.aoi_polygon "EPSG:32188"
              "out/project.gpkg" "roads" true (Some "tmp") Sample.world)
    as [(gdf & gdf_mtm & n & aoi' & gdf_clipped & _ & Hread & _ & Hrep & Hval
         & Hclip & Hr)
       |[(gdf & _ & Hread & Hempty & _)
        |(count_before & Hr & _)]].
  - rewrite Hr. vm_compute in Hread. injection Hread as <-.
    vm_compute in Hrep. injection Hrep as <- <-.
    vm_compute in Hval. injection Hval as <-.
    vm_compute in Hclip. injection Hclip as <-.
    vm_compute. reflexivity.
  - vm_compute in Hread. injection Hread as <-. vm_compute in Hempty.
    discriminate Hempty.
  - vm_compute in Hr. discriminate Hr.
Defined.

(** C10.  For an existing input file that holds no feature,
    [process_vector_data] returns [(True, 0, 0)] and leaves the world as it
    was: no layer is written to the output store (and the input file is
    kept). *)
Theorem vector_empty_input (E : Engine.t) (input_filepath : string)
    (aoi : geometry) (target out layer : string) (del : bool)
    (tmp : option string) (w : World.t) (gdf : GeoDataFrame) :
  FS.exists_ (World.fs w) input_filepath = true ->
  Engine.read_file E input_filepath None = Return gdf ->
  gdf_rows gdf = [] ->
  process_vector_data E input_filepath aoi target out layer del tmp w
  = (Return (true, 0%Z, 0%Z), w).
Proof.
  intros Hex Hread Hrows.
  unfold process_vector_data, process_vector_data_try.
  rewrite Hex, Hread. unfold gdf_empty. rewrite Hrows. simpl.
  unfold process_vector_data_finally.
  destruct (del && _ && _); reflexivity.
Qed.

Lemma vector_empty_input_witness :
  process_vector_data Sample.engine "tmp/temp_wfs_none.geojson"
    Sample.aoi_polygon "EPSG:32188" "out/project.gpkg" "parcels" true
    (Some "tmp") Sample.world
  = (Return (true, 0%Z, 0%Z), Sample.world)
  /\ World.layers Sample.world "out/project.gpkg" !! "parcels" = None.
Proof.
  split; [|reflexivity].
  apply (vector_empty_input Sample.engine "tmp/temp_wfs_none.geojson"
           Sample.aoi_polygon "EPSG:32188" "out/project.gpkg" "parcels" true
           (Some "tmp") Sample.world Sample.no_features);
    reflexivity.
Defined.

End VectorFacts.

(** ** Tiled raster archive *)

Section MntLidarFacts.
Import Py PyStr Geo ErrorHandler MntLidar.

(** Scenario E: 1000 bytes declared, 500 received. *)
Example truncated_download_rejected :
  fst (fetch_data Sample.mnt_source (Sample.serving Sample.truncated)
         Sample.one_tile "tmp" Sample.index_fs)
  = Return None.
Proof. vm_compute. reflexivity. Qed.

Example truncated_download_file_deleted :
  FS.exists_
    (snd (snd (fetch_data Sample.mnt_source (Sample.serving Sample.truncated)
                 Sample.one_tile "tmp" Sample.index_fs)))
    "tmp/MNT_31H05NE.tif"
  = false.
Proof. vm_compute. reflexivity. Qed.

Example complete_download_kept :
  fst (fetch_data Sample.mnt_source (Sample.serving Sample.complete)
         Sample.one_tile "tmp" Sample.index_fs)
  = Return (Some ["tmp/MNT_31H05NE.tif"]).
Proof. vm_compute. reflexivity. Qed.

(** C7, as stated, fails on three inputs: a declared length of zero
    switches the verification off, so that a body of 500 bytes is kept as
    a fetched tile; a partial file that cannot be removed stays on disk;
    and so does the partial file of a stream that breaks before the
    lengths are compared. *)
Lemma content_length_mismatch_not_always_rejected :
  (Z.of_N (body_bytes Sample.zero_declared) <> 0%Z /\
   content_length Sample.zero_declared = HeaderInt 0 /\
   fst (fetch_data Sample.mnt_source (Sample.serving Sample.zero_declared)
          Sample.one_tile "tmp" Sample.index_fs)
   = Return (Some ["tmp/MNT_31H05NE.tif"])) /\
  (fst (fetch_data Sample.mnt_source (Sample.serving Sample.truncated)
          Sample.one_tile "tmp" Sample.index_fs_locked)
   = Return None /\
   FS.getsize
     (snd (snd (fetch_data Sample.mnt_source (Sample.serving Sample.truncated)
                  Sample.one_tile "tmp" Sample.index_fs_locked)))
     "tmp/MNT_31H05NE.tif"
   = Return 500%N) /\
  (fst (fetch_data Sample.mnt_source (Sample.serving Sample.broken)
          Sample.one_tile "tmp" Sample.index_fs)
   = Return None /\
   FS.getsize
     (snd (snd (fetch_data Sample.mnt_source (Sample.serving Sample.broken)
                  Sample.one_tile "tmp" Sample.index_fs)))
     "tmp/MNT_31H05NE.tif"
   = Return 500%N).
Proof.
  split; [split; [discriminate|split; [reflexivity|vm_compute; reflexivity]]|].
  split; split; vm_compute; reflexivity.
Qed.

Lemma exists_write (fs : FS.t) (path : string) (n : N) :
  FS.exists_ (FS.write fs path n) path = true.
Proof.
  unfold FS.exists_, FS.write. simpl. rewrite lookup_insert_eq.
  apply bool_decide_eq_true. eauto.
Qed.

Lemma remove_written (fs : FS.t) (path : string) (n : N) :
  path ∉ FS.locked fs ->
  FS.exists_ (snd (FS.remove (FS.write fs path n) path)) path = false.
Proof.
  intros Hl. unfold FS.remove, FS.write. simpl. rewrite lookup_insert_eq.
  rewrite bool_decide_eq_false_2 by exact Hl. simpl.
  unfold FS.exists_. simpl. rewrite lookup_delete_eq.
  apply bool_decide_eq_false. intros [x Hx]. discriminate.
Qed.

Lemma fetch_data_returns (self : MNTLiDARSource) (net : Net)
    (tiles : list GeoDataFrame) (temp_dir : string) (fs : FS.t) :
  exists r, fst (fetch_data self net tiles temp_dir fs) = Return r.
Proof.
  unfold fetch_data.
  destruct (fetch_data_body self net tiles temp_dir fs) as [r st]. simpl.
  rewrite handle_errors_returns. eauto.
Qed.

(** C7 (amended).  For every tile download whose declared content length
    is not zero and differs from the number of bytes received, the tile is
    not added to the list of fetched tiles (nor to the temporary files of
    the source) and [fetch_data] raises nothing; when the stream has ended
    without error, the partial file is removed, unless the removal itself
    fails. *)
Theorem content_length_mismatch_rejected (self : MNTLiDARSource) (net : Net)
    (tif_filename download_url temp_tif_path : string) (st : fetch_state)
    (response : Response) (total_size : Z) :
  (truthy (local_cache_dir self)
   && FS.exists_ (st_fs st) (FS.join (local_cache_dir self) tif_filename)) = false ->
  net download_url = Return response ->
  status_ok response = true ->
  content_length response = HeaderInt total_size ->
  total_size <> 0%Z ->
  Z.of_N (body_bytes response) <> total_size ->
  let st' := download_tile self net tif_filename download_url temp_tif_path st in
  local_tif_paths st' = local_tif_paths st /\
  st_temp_files st' = st_temp_files st /\
  (stream_fails response = false ->
   temp_tif_path ∉ FS.locked (st_fs st) ->
   FS.exists_ (st_fs st') temp_tif_path = false) /\
  (forall tiles temp_dir fs,
      exists r, fst (fetch_data self net tiles temp_dir fs) = Return r).
Proof.
  intros Hcache Hnet Hok Hlen Hnz Hne. cbv zeta.
  unfold download_tile. cbv zeta.
  rewrite Hcache, Hnet, Hok, Hlen. simpl.
  apply Z.eqb_neq in Hnz. apply Z.eqb_neq in Hne. rewrite Hnz, Hne. simpl.
  rewrite exists_write.
  destruct (stream_fails response).
  - split; [reflexivity|]. split; [reflexivity|]. split; [discriminate|].
    intros tiles temp_dir fs. apply fetch_data_returns.
  - split; [reflexivity|]. split; [reflexivity|]. split.
    + intros _ Hl. apply remove_written. exact Hl.
    + intros tiles temp_dir fs. apply fetch_data_returns.
Qed.

Lemma content_length_mismatch_rejected_witness :
  let st := mkState [] [] Sample.index_fs in
  let st' :=
    download_tile Sample.mnt_source (Sample.serving Sample.truncated)
      "MNT_31H05NE.tif" "https://tiles.example/31H05NE/MNT_31H05NE.tif"
      "tmp/MNT_31H05NE.tif" st in
  local_tif_paths st' = [] /\
  FS.exists_ (st_fs st') "tmp/MNT_31H05NE.tif" = false.
Proof.
  cbv zeta.
  destruct (content_length_mismatch_rejected Sample.mnt_source
              (Sample.serving Sample.truncated) "MNT_31H05NE.tif"
              "https://tiles.example/31H05NE/MNT_31H05NE.tif"
              "tmp/MNT_31H05NE.tif" (mkState [] [] Sample.index_fs)
              Sample.truncated 1000%Z)
    as (H1 & _ & H3 & _); try reflexivity; try discriminate.
  split; [exact H1|]. apply H3; [reflexivity|]. simpl. set_solver.
Defined.

End MntLidarFacts.

(** ** Python's order on the sort key *)

Section KeyOrder.
Import Pipeline.

Lemma ascii_compare_eq (a b : ascii) : Ascii.compare a b = Eq -> a = b.
Proof. apply Ascii.compare_eq_iff. Qed.

Lemma string_compare_cons (a b : ascii) (s t : string) :
  String.compare (String a s) (String b t)
  = match Ascii.compare a b with
    | Eq => String.compare s t
    | Lt => Lt
    | Gt => Gt
    end.
Proof. reflexivity. Qed.

(** "Not greater" on strings is transitive. *)
Lemma string_le_trans (a b c : string) :
  String.compare a b <> Gt -> String.compare b c <> Gt ->
  String.compare a c <> Gt.
Proof.
  revert b c. induction a as [|x a IH]; intros [|y b] [|z c]; simpl;
    try congruence.
  unfold Ascii.compare.
  destruct (N.compare_spec (N_of_ascii x) (N_of_ascii y)) as [Exy|Lxy|Gxy];
    destruct (N.compare_spec (N_of_ascii y) (N_of_ascii z)) as [Eyz|Lyz|Gyz];
    destruct (N.compare_spec (N_of_ascii x) (N_of_ascii z)) as [Exz|Lxz|Gxz];
    try congruence; try lia.
  apply IH.
Qed.

Lemma string_compare_refl (a : string) : String.compare a a = Eq.
Proof.
  induction a as [|x a IH]; simpl; [reflexivity|].
  unfold Ascii.compare. rewrite N.compare_refl. exact IH.
Qed.

Lemma string_ltb_false (a b : string) :
  String.ltb a b = false <-> String.compare b a <> Gt.
Proof.
  unfold String.ltb. rewrite (String.compare_antisym a b).
  destruct (String.compare b a); simpl; split; congruence.
Qed.

Lemma key_lt_irrefl (k : bool * Z * string) : key_lt k k = false.
Proof.
  destruct k as [[a p] i]. unfold key_lt.
  rewrite Bool.eqb_reflx, Z.eqb_refl. simpl.
  apply string_ltb_false. rewrite string_compare_refl. discriminate.
Qed.

Lemma key_lt_asym (k1 k2 : bool * Z * string) :
  key_lt k1 k2 = true -> key_lt k2 k1 = false.
Proof.
  destruct k1 as [[a1 p1] i1], k2 as [[a2 p2] i2]. unfold key_lt, bool_lt.
  destruct a1, a2; simpl; try congruence.
  - rewrite (Z.eqb_sym p2 p1).
    destruct (p1 =? p2)%Z eqn:Ep; simpl.
    + intros H. apply string_ltb_false. unfold String.ltb in H.
      destruct (String.compare i1 i2); congruence.
    + intros H. apply Z.ltb_lt in H. apply Z.ltb_ge. lia.
  - rewrite (Z.eqb_sym p2 p1).
    destruct (p1 =? p2)%Z eqn:Ep; simpl.
    + intros H. apply string_ltb_false. unfold String.ltb in H.
      destruct (String.compare i1 i2); congruence.
    + intros H. apply Z.ltb_lt in H. apply Z.ltb_ge. lia.
Qed.

Lemma key_le_trans (k1 k2 k3 : bool * Z * string) :
  key_le k1 k2 -> key_le k2 k3 -> key_le k1 k3.
Proof.
  destruct k1 as [[a1 p1] i1], k2 as [[a2 p2] i2], k3 as [[a3 p3] i3].
  unfold key_le, key_lt, bool_lt.
  destruct a1, a2, a3; simpl; try congruence;
    destruct (p2 =? p1)%Z eqn:E21; destruct (p3 =? p2)%Z eqn:E32;
    destruct (p3 =? p1)%Z eqn:E31; simpl;
    rewrite ?Z.eqb_eq, ?Z.eqb_neq, ?Z.ltb_ge, ?string_ltb_false in *;
    intros H1 H2; try lia; try congruence;
    try (eapply string_le_trans; eassumption).
Qed.

End KeyOrder.

(** ** The stable sort *)

Section StableSort.
Context {A K : Type} (lt : K -> K -> bool) (key : A -> K).

Hypothesis lt_asym : forall k1 k2, lt k1 k2 = true -> lt k2 k1 = false.
Hypothesis le_trans :
  forall k1 k2 k3, lt k2 k1 = false -> lt k3 k2 = false -> lt k3 k1 = false.

Lemma insert_by_perm (x : A) (l : list A) :
  Permutation (x :: l) (Pipeline.insert_by lt key x l).
Proof.
  induction l as [|y l IH]; simpl; [reflexivity|].
  destruct (lt (key y) (key x)); [|reflexivity].
  rewrite perm_swap. apply perm_skip. exact IH.
Qed.

Lemma sort_by_perm (l : list A) : Permutation l (Pipeline.sort_by lt key l).
Proof.
  induction l as [|x l IH]; simpl; [reflexivity|].
  rewrite <- insert_by_perm. apply perm_skip. exact IH.
Qed.

Lemma insert_by_sorted (x : A) (l : list A) :
  StronglySorted (Pipeline.before lt key) l ->
  StronglySorted (Pipeline.before lt key) (Pipeline.insert_by lt key x l).
Proof.
  induction 1 as [|y l Hl IH Hy]; simpl.
  - constructor; constructor.
  - destruct (lt (key y) (key x)) eqn:E.
    + constructor; [exact IH|].
      rewrite <- insert_by_perm. constructor; [|exact Hy].
      unfold Pipeline.before. apply lt_asym. exact E.
    + constructor; [constructor; assumption|].
      constructor; [exact E|].
      rewrite List.Forall_forall in *. intros z Hz.
      unfold Pipeline.before in *. eapply le_trans; [exact E|]. apply Hy. exact Hz.
Qed.

Lemma sort_by_sorted (l : list A) :
  StronglySorted (Pipeline.before lt key) (Pipeline.sort_by lt key l).
Proof.
  induction l as [|x l IH]; simpl; [constructor|].
  apply insert_by_sorted. exact IH.
Qed.

(** Stability: among the entries that a predicate on keys selects and
    that no smaller key separates, the order of the input is kept.  It is
    stated for the classes of entries with one and the same key. *)
Lemma insert_by_stable (same : K -> bool) (x : A) (l : list A) :
  (forall y, same (key x) = true -> same (key y) = true ->
             lt (key y) (key x) = false) ->
  List.filter (fun y => same (key y)) (Pipeline.insert_by lt key x l)
  = List.filter (fun y => same (key y)) (x :: l).
Proof.
  intros Hsame. induction l as [|y l IH]; simpl; [reflexivity|].
  destruct (lt (key y) (key x)) eqn:E; [|reflexivity].
  simpl. rewrite IH. simpl.
  destruct (same (key x)) eqn:Ex; [|reflexivity].
  destruct (same (key y)) eqn:Ey; [|reflexivity].
  rewrite (Hsame y eq_refl Ey) in E. discriminate.
Qed.

Lemma sort_by_stable (same : K -> bool) (l : list A) :
  (forall k1 k2, same k1 = true -> same k2 = true -> lt k2 k1 = false) ->
  List.filter (fun y => same (key y)) (Pipeline.sort_by lt key l)
  = List.filter (fun y => same (key y)) l.
Proof.
  intros Hsame. induction l as [|x l IH]; simpl; [reflexivity|].
  rewrite insert_by_stable by (intros y Hx Hy; apply Hsame; assumption).
  simpl. rewrite IH. reflexivity.
Qed.

End StableSort.

(** ** The orchestrator *)

Section PipelineFacts.
Import Py PyStr Geo ErrorHandler AoiResolver Pipeline.

Example run_three_sources :
  match fst (run Sample.engine Sample.hooks
               (Sample.manager [Sample.aoi_index; Sample.roads_wfs;
                                Sample.lakes_disabled]) Sample.world) with
  | Return (Some l) => map (fun x => (so_id x, so_status x)) l
  | _ => []
  end
  = [ ("roads_wfs", "Success"); ("lakes", "Ignored (not enabled)");
      ("snrc_index_local_50k", "Success") ].
Proof. vm_compute. reflexivity. Qed.

Example run_three_sources_layers :
  map fst (map_to_list
             (World.layers
                (snd (snd (run Sample.engine Sample.hooks
                             (Sample.manager [Sample.aoi_index; Sample.roads_wfs;
                                              Sample.lakes_disabled])
                             Sample.world)))
                "out/project.gpkg"))
  = ["aoi_extent"; "roads"].
Proof. vm_compute. reflexivity. Qed.

Example run_not_initialized :
  fst (run Sample.engine Sample.hooks
         (mkPM "P42" None [Sample.roads_wfs] None None None None [])
         Sample.world)
  = Return None.
Proof. vm_compute. reflexivity. Qed.

Lemma display_summary_sorts (pm : PipelineManager) :
  processing_summary (display_summary pm)
  = sort_by key_lt sort_key (processing_summary pm).
Proof.
  unfold display_summary. destruct (processing_summary pm) eqn:E.
  - rewrite E. reflexivity.
  - reflexivity.
Qed.

Lemma index_entry_key (x : SourceOutcome) :
  sort_key x = (is_index_entry x, priority_level x, so_id x).
Proof. reflexivity. Qed.

Lemma filter_all {A : Type} (f : A -> bool) (l : list A) :
  List.Forall (fun x => f x = true) l ->
  List.filter f l = l /\ List.filter (fun x => negb (f x)) l = [].
Proof.
  induction 1 as [|x l Hx _ [IH1 IH2]]; simpl; [auto|].
  rewrite Hx. simpl. rewrite IH1, IH2. auto.
Qed.

(** In a summary sorted by the key, the index entries come after all the
    others. *)
Lemma sorted_index_last (l : list SourceOutcome) :
  StronglySorted (before key_lt sort_key) l ->
  l = List.filter (fun x => negb (is_index_entry x)) l
      ++ List.filter is_index_entry l.
Proof.
  induction 1 as [|x l Hl IH Hx]; [reflexivity|]. simpl.
  destruct (is_index_entry x) eqn:Ex; simpl.
  - assert (Hall : List.Forall (fun y => is_index_entry y = true) l).
    { rewrite List.Forall_forall in *. intros y Hy. specialize (Hx y Hy).
      unfold before in Hx. rewrite !index_entry_key, Ex in Hx.
      destruct (is_index_entry y); [reflexivity|]. discriminate Hx. }
    destruct (filter_all _ _ Hall) as [-> ->]. reflexivity.
  - f_equal. exact IH.
Qed.

Lemma before_by_priority (x y : SourceOutcome) :
  is_index_entry x = false -> is_index_entry y = false ->
  before key_lt sort_key x y -> by_priority_then_id x y.
Proof.
  intros Hx Hy. unfold before, by_priority_then_id.
  rewrite !index_entry_key, Hx, Hy. simpl.
  destruct (priority_level y =? priority_level x)%Z eqn:E; simpl.
  - apply Z.eqb_eq in E. intros H. right. split; [congruence|].
    apply string_ltb_false in H. exact H.
  - apply Z.eqb_neq in E. intros H. apply Z.ltb_ge in H. left. lia.
Qed.

Lemma sorted_others_by_priority (l : list SourceOutcome) :
  StronglySorted (before key_lt sort_key) l ->
  StronglySorted by_priority_then_id
    (List.filter (fun x => negb (is_index_entry x)) l).
Proof.
  induction 1 as [|x l Hl IH Hx]; simpl; [constructor|].
  destruct (is_index_entry x) eqn:Ex; simpl; [exact IH|].
  constructor; [exact IH|].
  rewrite List.Forall_forall in *. intros y Hy.
  apply filter_In in Hy. destruct Hy as [Hy Hny].
  apply negb_true_iff in Hny.
  apply before_by_priority; auto.
Qed.

Lemma key_eqb_eq (k1 k2 : bool * Z * string) : key_eqb k1 k2 = true -> k1 = k2.
Proof.
  destruct k1 as [[a1 p1] i1], k2 as [[a2 p2] i2]. unfold key_eqb.
  rewrite !andb_true_iff. intros [[Ha Hp] Hi].
  apply Bool.eqb_prop in Ha. apply Z.eqb_eq in Hp. apply String.eqb_eq in Hi.
  congruence.
Qed.

(** C6, as stated, fails: the entry of the AOI index, first in the summary
    and of the smallest priority, is displayed last. *)
Lemma display_puts_index_entry_last :
  processing_summary
    (display_summary
       (set_processing_summary [Sample.aoi_outcome; Sample.roads_outcome]
          (Sample.manager [])))
  = [Sample.roads_outcome; Sample.aoi_outcome]
  /\ is_index_entry Sample.aoi_outcome = true
  /\ (priority_level Sample.aoi_outcome < priority_level Sample.roads_outcome)%Z.
Proof. split; [vm_compute; reflexivity|]. split; [reflexivity|]. reflexivity. Qed.

(** C6 (amended).  The displayed summary is the stable sort of the run
    summary that places the entries of the AOI index last and orders the
    others by priority and then by id. *)
Theorem display_order_index_last (pm : PipelineManager) :
  let shown := processing_summary (display_summary pm) in
  Permutation (processing_summary pm) shown /\
  shown = List.filter (fun x => negb (is_index_entry x)) shown
          ++ List.filter is_index_entry shown /\
  StronglySorted by_priority_then_id
    (List.filter (fun x => negb (is_index_entry x)) shown) /\
  (forall k, List.filter (fun x => key_eqb (sort_key x) k) shown
             = List.filter (fun x => key_eqb (sort_key x) k)
                 (processing_summary pm)).
Proof.
  cbv zeta. rewrite display_summary_sorts.
  assert (Hs := sort_by_sorted key_lt sort_key key_lt_asym
                  (fun k1 k2 k3 H1 H2 => key_le_trans k1 k2 k3 H1 H2)
                  (processing_summary pm)).
  split; [apply sort_by_perm|].
  split; [apply sorted_index_last; exact Hs|].
  split; [apply sorted_others_by_priority; exact Hs|].
  intros k. apply (sort_by_stable key_lt sort_key (fun k' => key_eqb k' k)).
  intros k1 k2 H1 H2. apply key_eqb_eq in H1. apply key_eqb_eq in H2.
  subst. apply key_lt_irrefl.
Qed.

Lemma initialized_inv (pm : PipelineManager) (a : Aoi) :
  initialized pm = Some a ->
  aoi pm = Some a /\
  exists out, output_vector_gpkg_filepath pm = Some out /\ truthy out = true.
Proof.
  unfold initialized. destruct (aoi pm) as [a'|]; [|discriminate].
  destruct (output_vector_gpkg_filepath pm) as [out|]; simpl;
    [|discriminate].
  destruct (truthy out) eqn:Eo; simpl; [|discriminate].
  destruct (_ && _); [|discriminate]. intros H. injection H as ->.
  split; [reflexivity|]. exists out. auto.
Qed.

Lemma process_sources_appends (E : Engine.t) (H : Hooks) (pm : PipelineManager)
    (a : Aoi) (l : list DataSource) (summary : list SourceOutcome) (w : World.t) :
  exists rest,
    fst (snd (process_sources E H pm a l summary w)) = summary ++ rest.
Proof.
  revert summary w. induction l as [|ds l IH]; intros summary w; simpl.
  - exists []. rewrite app_nil_r. reflexivity.
  - destruct (process_source E H pm a ds w) as [[o|e] w'].
    + destruct (IH (summary ++ option_list o) w') as [rest Hrest].
      exists (option_list o ++ rest). rewrite Hrest, <- app_assoc. reflexivity.
    + exists []. rewrite app_nil_r. reflexivity.
Qed.

(** What saving the AOI extent does, branch by branch. *)
Lemma save_aoi_extent_cases (E : Engine.t) (a : Aoi) (out layer : string)
    (w : World.t) :
  let r := save_aoi_extent E a out layer w in
  (forall gdf target aoi_to_save,
      combined_gdf_epsg4326 a = Some gdf ->
      target_mtm_crs a = Some target ->
      Engine.to_crs E gdf target = Return aoi_to_save ->
      gdf_empty aoi_to_save = false ->
      Engine.to_file_error E aoi_to_save out layer = None ->
      fst (fst (fst r)) = "Success" /\
      snd (fst (fst r)) = (if negb (gdf_empty gdf) then 1 else 0)%Z /\
      snd (fst r) = Z.of_nat (gdf_len aoi_to_save) /\
      World.layers (snd r) out !! layer = Some aoi_to_save /\
      FS.exists_ (World.fs (snd r)) out = true) /\
  (fst (fst (fst r)) = "Success" ->
   exists gdf target aoi_to_save,
     combined_gdf_epsg4326 a = Some gdf /\
     target_mtm_crs a = Some target /\
     Engine.to_crs E gdf target = Return aoi_to_save /\
     gdf_empty aoi_to_save = false /\
     Engine.to_file_error E aoi_to_save out layer = None) /\
  (fst (fst (fst r)) <> "Success" ->
   snd r = w /\ snd (fst r) = 0%Z /\
   (fst (fst (fst r)) = "Success (empty)" \/
    fst (fst (fst r)) = "Failed (AOI Extent Save)")).
Proof.
  cbv zeta. unfold save_aoi_extent, World.to_file. split; [|split].
  - intros gdf target aoi_to_save H1 H2 H3 H4 H5.
    rewrite H1, H2, H3, H4, H5. simpl.
    split; [reflexivity|]. split; [reflexivity|]. split; [reflexivity|].
    split.
    + unfold World.layers at 1. simpl. rewrite lookup_insert_eq. simpl.
      apply lookup_insert_eq.
    + unfold FS.exists_. simpl. rewrite lookup_insert_eq.
      apply bool_decide_eq_true. eauto.
  - destruct (combined_gdf_epsg4326 a) as [gdf|]; [|discriminate].
    destruct (target_mtm_crs a) as [target|]; [|discriminate].
    destruct (Engine.to_crs E gdf target) as [aoi_to_save|e] eqn:Eto;
      [|discriminate].
    destruct (gdf_empty aoi_to_save) eqn:Eempty; [discriminate|]. simpl.
    destruct (Engine.to_file_error E aoi_to_save out layer) eqn:Ew;
      [discriminate|].
    intros _. exists gdf, target, aoi_to_save. auto.
  - destruct (combined_gdf_epsg4326 a) as [gdf|]; [|simpl; auto].
    destruct (target_mtm_crs a) as [target|]; [|simpl; auto].
    destruct (Engine.to_crs E gdf target) as [aoi_to_save|e]; [|simpl; auto].
    destruct (gdf_empty aoi_to_save); simpl; [auto|].
    destruct (Engine.to_file_error E aoi_to_save out layer); simpl; [auto|].
    intros Hn. exfalso. apply Hn. reflexivity.
Qed.

(** C5, as stated, fails: a run over a source list without the AOI index
    source records no outcome for the AOI and writes no AOI layer. *)
Lemma run_without_index_source_emits_no_aoi :
  let r := run Sample.engine Sample.hooks (Sample.manager [Sample.roads_wfs])
             Sample.world in
  match fst r with
  | Return (Some l) => map so_id l
  | _ => []
  end = ["roads_wfs"]
  /\ map fst (map_to_list (World.layers (snd (snd r)) "out/project.gpkg"))
     = ["roads"]
  /\ _process_aoi_layer Sample.engine (Sample.manager [Sample.roads_wfs])
       Sample.world
     = (Sample.manager [Sample.roads_wfs], Sample.world).
Proof. cbv zeta. repeat split; vm_compute; reflexivity. Qed.

(** C5 (amended).  In every run that passes the initial check, the AOI
    step comes first, on an empty summary, and what it does depends on the
    configured source list.

    When the list holds an enabled source with the id of the AOI index, the
    step appends exactly one record, with that source's id, name, type,
    enabled flag and priority.  If the AOI has a frame and a target zone,
    the reprojection returns a frame that is not empty and the write does
    not fail, then the record has status "Success" and the number of
    features written, the reprojected AOI is the layer of that source in
    the output store, and the output file exists.  Status "Success" is
    recorded in that case only; with any other status nothing was written,
    the final count is 0, and the status is "Success (empty)" or
    "Failed (AOI Extent Save)".

    When the list holds no such source, the step records nothing and
    writes nothing.

    The records of the sources follow those of the AOI step in the summary
    as it is collected; the summary that [run] returns is that list sorted
    for display, where the record of the AOI stands among the entries of
    the AOI index, after every other record. *)
Theorem aoi_layer_emission (E : Engine.t) (H : Hooks) (pm : PipelineManager)
    (a : Aoi) (w : World.t) :
  initialized pm = Some a ->
  let pm0 := set_processing_summary [] pm in
  let out := default "" (output_vector_gpkg_filepath pm) in
  let step := _process_aoi_layer E pm0 w in
  let collected := processing_summary (fst (snd (collect E H pm a w))) in
  (forall ds,
      find_index_source (list_of_datasources pm) = Some ds ->
      let layer := ds_output_layer_name ds in
      exists record,
        processing_summary (fst step) = [record] /\
        so_id record = AOI_INDEX_ID /\ so_id record = ds_id ds /\
        so_name record = ds_name ds /\ so_type record = ds_type ds /\
        so_enabled record = ds_enabled ds /\
        priority_level record = ds_priority ds /\
        (forall gdf target aoi_to_save,
            combined_gdf_epsg4326 a = Some gdf ->
            target_mtm_crs a = Some target ->
            Engine.to_crs E gdf target = Return aoi_to_save ->
            gdf_empty aoi_to_save = false ->
            Engine.to_file_error E aoi_to_save out layer = None ->
            so_status record = "Success" /\
            items_source_in_aoi_bbox record
            = PInt (if negb (gdf_empty gdf) then 1 else 0) /\
            items_processed_final record
            = PInt (Z.of_nat (gdf_len aoi_to_save)) /\
            World.layers (snd step) out !! layer = Some aoi_to_save /\
            FS.exists_ (World.fs (snd step)) out = true) /\
        (so_status record = "Success" ->
         exists gdf target aoi_to_save,
           combined_gdf_epsg4326 a = Some gdf /\
           target_mtm_crs a = Some target /\
           Engine.to_crs E gdf target = Return aoi_to_save /\
           gdf_empty aoi_to_save = false /\
           Engine.to_file_error E aoi_to_save out layer = None) /\
        (so_status record <> "Success" ->
         snd step = w /\ items_processed_final record = PInt 0 /\
         (so_status record = "Success (empty)" \/
          so_status record = "Failed (AOI Extent Save)"))) /\
  (find_index_source (list_of_datasources pm) = None ->
   step = (pm0, w)) /\
  (exists rest, collected = processing_summary (fst step) ++ rest) /\
  (forall summary st,
      run E H pm w = (Return (Some summary), st) ->
      Permutation collected summary /\
      summary = List.filter (fun x => negb (is_index_entry x)) summary
                ++ List.filter is_index_entry summary /\
      (forall record,
          processing_summary (fst step) = [record] ->
          In record (List.filter is_index_entry summary))).
Proof.
  intros Hinit. cbv zeta.
  destruct (initialized_inv pm a Hinit) as (Haoi & out & Hout & Htruthy).
  rewrite Hout. simpl default.
  assert (Hfollow :
            exists rest,
              processing_summary (fst (snd (collect E H pm a w)))
              = processing_summary
                  (fst (_process_aoi_layer E (set_processing_summary [] pm) w))
                ++ rest).
  { unfold collect.
    destruct (_process_aoi_layer E (set_processing_summary [] pm) w)
      as [pm1 w1] eqn:Eaoi.
    destruct (process_sources_appends E H pm1 a (list_of_datasources pm1)
                (processing_summary pm1) w1) as [rest Hrest].
    destruct (process_sources E H pm1 a (list_of_datasources pm1)
                (processing_summary pm1) w1) as [r [summary w2]].
    simpl in *. exists rest. exact Hrest. }
  assert (Hrecord :
            forall ds,
              find_index_source (list_of_datasources pm) = Some ds ->
              _process_aoi_layer E (set_processing_summary [] pm) w
              = (let '(status, items_bruts, items_final, w') :=
                   save_aoi_extent E a out (ds_output_layer_name ds) w in
                 (set_processing_summary
                    [mkOutcome (ds_id ds) (ds_name ds) (ds_type ds)
                       (ds_enabled ds) status (PInt items_bruts)
                       (PInt items_final) (ds_priority ds) None]
                    (set_processing_summary [] pm), w'))).
  { intros ds Hfind. unfold _process_aoi_layer. simpl.
    rewrite Haoi, Hout, Htruthy, Hfind. reflexivity. }
  split; [|split; [|split]].
  - intros ds Hfind. rewrite (Hrecord ds Hfind).
    destruct (save_aoi_extent_cases E a out (ds_output_layer_name ds) w)
      as (Hpos & Hsuccess & Hother).
    destruct (save_aoi_extent E a out (ds_output_layer_name ds) w)
      as [[[status bruts] final] w'].
    simpl in *. eexists. split; [reflexivity|]. simpl.
    split.
    { unfold find_index_source in Hfind. apply find_some in Hfind.
      destruct Hfind as [_ Hds]. unfold is_enabled_index_source in Hds.
      apply andb_true_iff in Hds. destruct Hds as [Hid _].
      apply String.eqb_eq in Hid. exact Hid. }
    do 5 (split; [reflexivity|]).
    split; [|split].
    + intros gdf target aoi_to_save H1 H2 H3 H4 H5.
      destruct (Hpos gdf target aoi_to_save H1 H2 H3 H4 H5)
        as (-> & -> & -> & Hlayer & Hfile).
      auto.
    + exact Hsuccess.
    + intros Hn. destruct (Hother Hn) as (-> & -> & Hst). auto.
  - intros Hfind. unfold _process_aoi_layer. simpl.
    rewrite Haoi, Hout, Htruthy, Hfind. reflexivity.
  - exact Hfollow.
  - intros summary st. unfold run, run_body. rewrite Hinit.
    destruct Hfollow as [rest Hrest]. revert Hrest.
    destruct (collect E H pm a w) as [[[]|e] [pm1 w1]]; simpl.
    2:{ intros _. destruct (isinstance e SpatiaEngineError); [discriminate|].
        rewrite isinstance_Exception. discriminate. }
    intros Hrest Heq. injection Heq as <- _.
    rewrite display_summary_sorts.
    assert (Hperm := sort_by_perm key_lt sort_key (processing_summary pm1)).
    assert (Hs := sort_by_sorted key_lt sort_key key_lt_asym
                    (fun k1 k2 k3 H1 H2 => key_le_trans k1 k2 k3 H1 H2)
                    (processing_summary pm1)).
    split; [exact Hperm|]. split; [apply sorted_index_last; exact Hs|].
    intros record Hstep. apply filter_In. split.
    + apply (Permutation_in _ Hperm). rewrite Hrest, Hstep. left. reflexivity.
    + revert Hstep. unfold _process_aoi_layer. simpl.
      rewrite Haoi, Hout, Htruthy. simpl.
      destruct (find_index_source (list_of_datasources pm)) as [ds|] eqn:Hfind;
        [|discriminate].
      destruct (save_aoi_extent E a out (ds_output_layer_name ds) w)
        as [[[status bruts] final] w'].
      simpl. intros Heq. injection Heq as <-.
      unfold is_index_entry. simpl.
      unfold find_index_source in Hfind. apply find_some in Hfind.
      destruct Hfind as [_ Hds]. unfold is_enabled_index_source in Hds.
      apply andb_true_iff in Hds. destruct Hds as [Hid _]. exact Hid.
Qed.

Lemma aoi_layer_emission_witness :
  exists record aoi_to_save,
    processing_summary
      (fst (_process_aoi_layer Sample.engine
              (set_processing_summary []
                 (Sample.manager [Sample.roads_wfs; Sample.aoi_index]))
              Sample.world))
    = [record] /\
    so_id record = AOI_INDEX_ID /\ so_status record = "Success" /\
    gdf_empty aoi_to_save = false /\
    World.layers
      (snd (_process_aoi_layer Sample.engine
              (set_processing_summary []
                 (Sample.manager [Sample.roads_wfs; Sample.aoi_index]))
              Sample.world))
      "out/project.gpkg" !! "aoi_extent"
    = Some aoi_to_save.
Proof.
  destruct (aoi_layer_emission Sample.engine Sample.hooks
              (Sample.manager [Sample.roads_wfs; Sample.aoi_index])
              Sample.aoi_31H05 Sample.world) as (H1 & _).
  - reflexivity.
  - destruct (H1 Sample.aoi_index) as (record & Hr & Hid & _ & _ & _ & _ & _ & Hpos & _).
    + reflexivity.
    + edestruct Hpos as (Hst & _ & _ & Hlayer & _);
        [reflexivity|reflexivity|reflexivity| |reflexivity|].
      * reflexivity.
      * exists record. eexists.
        split; [exact Hr|]. split; [exact Hid|]. split; [exact Hst|].
        split; [|exact Hlayer]. reflexivity.
Defined.

End PipelineFacts.

(* ================================================================== *)
(** * Part III: further properties of the code                         *)
(* ================================================================== *)

(** ** The strict zone selector *)

Section StrictZoneFacts.
Import Zone.

Lemma ltb_leb_trans_leb (a lo c : float) :
  (a <? lo)%float = true -> (lo <=? c)%float = true -> (a <=? c)%float = true.
Proof.
  rewrite FloatAxioms.ltb_spec, !FloatAxioms.leb_spec. unfold SFltb, SFleb.
  intros Ha Hlo.
  assert (H : SFcompare (Prim2SF a) (Prim2SF c) = Some Lt).
  { apply SFcompare_lt_le_trans with (y := Prim2SF lo).
    - destruct (SFcompare (Prim2SF a) (Prim2SF lo)) as [[]|]; congruence.
    - destruct (SFcompare (Prim2SF lo) (Prim2SF c)) as [[]|]; auto;
        discriminate. }
  rewrite H. reflexivity.
Qed.

Lemma ltb_leb_trans_ltb (c hi k : float) :
  (c <? hi)%float = true -> (hi <=? k)%float = true -> (c <? k)%float = true.
Proof.
  rewrite !FloatAxioms.ltb_spec, FloatAxioms.leb_spec. unfold SFltb, SFleb.
  intros Hc Hhi.
  assert (H : SFcompare (Prim2SF c) (Prim2SF k) = Some Lt).
  { apply SFcompare_lt_le_trans with (y := Prim2SF hi).
    - destruct (SFcompare (Prim2SF c) (Prim2SF hi)) as [[]|]; congruence.
    - destruct (SFcompare (Prim2SF hi) (Prim2SF k)) as [[]|]; auto;
        discriminate. }
  rewrite H. reflexivity.
Qed.

(** A band inside [[-79.5, -55.5)] that holds [c] puts [c] in that range. *)
Lemma strict_band_in_range (lo hi c : float) :
  ((-79.5 <? lo)%float = true \/ lo = (-79.5)%float) ->
  (hi <=? -55.5)%float = true ->
  chain_le_lt lo c hi = true -> chain_le_lt (-79.5) c (-55.5) = true.
Proof.
  intros Hlo Hhi H. apply andb_true_iff in H. destruct H as [H1 H2].
  apply andb_true_iff. split.
  - destruct Hlo as [Hlo| ->]; [|exact H1].
    exact (ltb_leb_trans_leb _ _ _ Hlo H1).
  - exact (ltb_leb_trans_ltb _ _ _ H2 Hhi).
Qed.

Lemma strict_selector_center (b : bounds) :
  get_mtm_nad83_crs_from_bounds (Some b) =
  let c := center_lon b in
  if chain_le_lt (-58.5) c (-55.5) then Some "EPSG:32183"
  else if chain_le_lt (-61.5) c (-58.5) then Some "EPSG:32184"
  else if chain_le_lt (-64.5) c (-61.5) then Some "EPSG:32185"
  else if chain_le_lt (-67.5) c (-64.5) then Some "EPSG:32186"
  else if chain_le_lt (-70.5) c (-67.5) then Some "EPSG:32187"
  else if chain_le_lt (-73.5) c (-70.5) then Some "EPSG:32188"
  else if chain_le_lt (-76.5) c (-73.5) then Some "EPSG:32189"
  else if chain_le_lt (-79.5) c (-76.5) then Some "EPSG:32190"
  else None.
Proof. reflexivity. Qed.

(** X1.  The strict selector of aoi_handler.py resolves a zone exactly
    when the center longitude lies in [[-79.5, -55.5)]: missing bounds, a
    center outside that range and an unordered center (NaN) give [None],
    and every zone it returns is [EPSG:] followed by a code of
    [VALID_MTM_CRS]. *)
Theorem strict_selector_range (b : bounds) :
  get_mtm_nad83_crs_from_bounds None = None /\
  (get_mtm_nad83_crs_from_bounds (Some b) = None <->
   chain_le_lt (-79.5) (center_lon b) (-55.5) = false) /\
  (forall z, get_mtm_nad83_crs_from_bounds (Some b) = Some z ->
             exists code, z = "EPSG:" +:+ code /\ is_Some (VALID_MTM_CRS !! code)).
Proof.
  split; [reflexivity|].
  rewrite strict_selector_center. cbv zeta. generalize (center_lon b).
  intros c. split.
  - split.
    + intros H.
      destruct (chain_le_lt (-79.5) c (-55.5)) eqn:Hr; [|reflexivity].
      exfalso. apply andb_true_iff in Hr. destruct Hr as [Hlo Hhi].
      assert (step : forall k : float, (k =? k)%float = true ->
                (c <? k)%float = false -> (k <=? c)%float = true).
      { intros k Hk Hf. exact (ltb_false_leb_true c k _ Hk Hlo Hf). }
      unfold chain_le_lt in H.
      destruct (c <? -76.5)%float eqn:E1;
        [rewrite Hlo, ?andb_true_r, ?andb_false_r in H|].
      { repeat match type of H with
               | (if ?g then _ else _) = None =>
                   destruct g; try discriminate H
               end. }
      rewrite (step (-76.5)%float eq_refl E1) in H.
      destruct (c <? -73.5)%float eqn:E2.
      { simpl in H.
        repeat match type of H with
               | (if ?g then _ else _) = None =>
                   destruct g; try discriminate H
               end. }
      rewrite (step (-73.5)%float eq_refl E2) in H.
      destruct (c <? -70.5)%float eqn:E3.
      { simpl in H.
        repeat match type of H with
               | (if ?g then _ else _) = None =>
                   destruct g; try discriminate H
               end. }
      rewrite (step (-70.5)%float eq_refl E3) in H.
      destruct (c <? -67.5)%float eqn:E4.
      { simpl in H.
        repeat match type of H with
               | (if ?g then _ else _) = None =>
                   destruct g; try discriminate H
               end. }
      rewrite (step (-67.5)%float eq_refl E4) in H.
      destruct (c <? -64.5)%float eqn:E5.
      { simpl in H.
        repeat match type of H with
               | (if ?g then _ else _) = None =>
                   destruct g; try discriminate H
               end. }
      rewrite (step (-64.5)%float eq_refl E5) in H.
      destruct (c <? -61.5)%float eqn:E6.
      { simpl in H.
        repeat match type of H with
               | (if ?g then _ else _) = None =>
                   destruct g; try discriminate H
               end. }
      rewrite (step (-61.5)%float eq_refl E6) in H.
      destruct (c <? -58.5)%float eqn:E7.
      { simpl in H.
        repeat match type of H with
               | (if ?g then _ else _) = None =>
                   destruct g; try discriminate H
               end. }
      rewrite (step (-58.5)%float eq_refl E7), Hhi in H. simpl in H.
      discriminate H.
    + intros Hr.
      assert (Hband : forall lo hi : float,
                 ((-79.5 <? lo)%float = true \/ lo = (-79.5)%float) ->
                 (hi <=? -55.5)%float = true -> chain_le_lt lo c hi = false).
      { intros lo hi Hlo Hhi. destruct (chain_le_lt lo c hi) eqn:E;
          [|reflexivity].
        rewrite (strict_band_in_range lo hi c Hlo Hhi E) in Hr. discriminate. }
      rewrite !Hband by (try (left; reflexivity); try (right; reflexivity);
                         reflexivity).
      reflexivity.
  - intros z H.
    repeat match type of H with
           | (if ?g then _ else _) = Some _ =>
               destruct g; [injection H as <-; eexists; split;
                            [reflexivity|eexists; reflexivity]|]
           end.
    discriminate H.
Qed.

End StrictZoneFacts.

(** ** The two code normalizers *)

Section NormalizerFacts.
Import PyStr TileCode.

Lemma upper_drop (k : nat) (s : string) : upper (drop k s) = drop k (upper s).
Proof.
  revert s. induction k as [|k IH]; intros [|c s]; simpl; try reflexivity.
  apply IH.
Qed.

Lemma length_drop (k : nat) (s : string) :
  String.length (drop k s) = String.length s - k.
Proof.
  revert s. induction k as [|k IH]; intros [|c s]; simpl; try reflexivity.
  apply IH.
Qed.

Lemma app_str_inj (p s p' s' : string) :
  p +:+ s = p' +:+ s' -> String.length s = String.length s' ->
  p = p' /\ s = s'.
Proof.
  intros H Hl.
  assert (Hp : String.length p = String.length p').
  { apply (f_equal String.length) in H. rewrite !length_app_str in H. lia. }
  revert p' H Hp. induction p as [|c p IH]; intros [|c' p'] H Hp;
    try discriminate Hp.
  - rewrite !app_str_nil in H. auto.
  - rewrite !app_str_cons in H. injection H as -> H. injection Hp as Hp.
    destruct (IH p' H Hp) as [-> ->]. auto.
Qed.

Lemma is_code_20k_upper_arg (code : string) :
  _is_code_20k (upper code) = _is_code_20k code.
Proof. rewrite !is_code_20k_unfold, upper_idem. reflexivity. Qed.

Local Arguments isdigit_char : simpl never.
Local Arguments isalpha_char : simpl never.
Local Arguments upper_char : simpl never.
Local Arguments ascii_dec : simpl never.

(** The normalizers as functions of the upper-cased code. *)
Lemma normalize_20k_shape5 (p s : string) :
  has_shape [Digit; Digit; Letter; Digit; Digit] p -> String.length s = 2 ->
  upper p = p -> upper s = s ->
  _normalize_code_for_20k_index (p +:+ s) = p +:+ s /\
  _normalize_50k_code_for_20k_index p = p.
Proof.
  intros Hp Hs Hup Hus.
  assert (Hl := has_shape_length _ _ Hp). simpl in Hl.
  unfold _normalize_code_for_20k_index, _normalize_50k_code_for_20k_index.
  cbv zeta. rewrite upper_app, Hup, Hus, length_app_str, Hl, Hs. simpl.
  destruct (isalpha_at (p +:+ s) 2); auto.
Qed.

Lemma normalize_20k_shape6 (p s : string) :
  has_shape [Digit; Digit; Digit; Letter; Digit; Digit] p ->
  String.length s = 2 -> upper p = p -> upper s = s ->
  _normalize_code_for_20k_index (p +:+ s)
  = _normalize_50k_code_for_20k_index p +:+ s /\
  (_normalize_50k_code_for_20k_index p = p \/
   has_shape [Digit; Digit; Letter; Digit; Digit]
     (_normalize_50k_code_for_20k_index p)).
Proof.
  intros Hp Hs Hup Hus.
  destruct p as [|c1 [|c2 [|c3 [|c4 [|c5 [|c6 [|c7 p]]]]]]];
    simpl in Hp; try tauto.
  destruct Hp as (H1 & H2 & H3 & H4 & H5 & H6 & _).
  destruct s as [|a [|b [|x s]]]; try discriminate Hs.
  unfold _normalize_code_for_20k_index, _normalize_50k_code_for_20k_index.
  cbv zeta. rewrite upper_app, Hup, Hus.
  rewrite !app_str_cons, app_str_nil.
  unfold startswith, isalpha_at, slice. simpl.
  destruct (ascii_dec "0" c1) as [<-|Hne]; simpl.
  - rewrite H4, H2, H3, H5, H6. simpl.
    split; [reflexivity|]. right. repeat split.
  - split; [reflexivity|]. left. reflexivity.
Qed.

(** X2.  The normalizer of the direct child lookup (aoi_handler.py) and
    the normalizer of the parent scan (aoi.py) agree: for every code that
    [_is_code_20k] accepts, split into parent part and two-character
    suffix, the normalized child code is the normalized parent code
    followed by the upper-cased suffix, and it is still a child code.  So
    a child looked up directly is among the rows the scan of its parent
    selects. *)
Theorem child_normalization_consistent (p s : string) :
  String.length s = 2 ->
  _is_code_20k (p +:+ s) = true ->
  _normalize_code_for_20k_index (p +:+ s)
  = _normalize_50k_code_for_20k_index p +:+ upper s /\
  _is_code_20k (_normalize_code_for_20k_index (p +:+ s)) = true /\
  one_level_deeper (_normalize_50k_code_for_20k_index p)
    (_normalize_code_for_20k_index (p +:+ s)).
Proof.
  intros Hs H. apply is_code_20k_shape in H.
  destruct H as (_ & p' & s' & Hcu & Hs' & Hp').
  rewrite upper_app in Hcu.
  assert (Hls' := suffix_20k_length s' Hs').
  destruct (app_str_inj (upper p) (upper s) p' s' Hcu) as [Ep Es].
  { rewrite length_upper. congruence. }
  assert (Hn20 : _normalize_code_for_20k_index (p +:+ s)
                 = _normalize_code_for_20k_index (upper p +:+ upper s)).
  { unfold _normalize_code_for_20k_index. rewrite !upper_app, !upper_idem.
    reflexivity. }
  assert (Hn50 : _normalize_50k_code_for_20k_index p
                 = _normalize_50k_code_for_20k_index (upper p)).
  { symmetry. apply normalize_50k_upper. }
  rewrite Hn20, Hn50.
  assert (Hlu : String.length (upper s) = 2) by (rewrite length_upper; exact Hs).
  assert (Hcore :
    _normalize_code_for_20k_index (upper p +:+ upper s)
    = _normalize_50k_code_for_20k_index (upper p) +:+ upper s /\
    valid_parent_prefix (_normalize_50k_code_for_20k_index (upper p))).
  { destruct Hp' as [Hp'|Hp']; rewrite <- Ep in Hp'.
    - destruct (normalize_20k_shape5 (upper p) (upper s) Hp' Hlu
                  (upper_idem p) (upper_idem s)) as [E1 E2].
      rewrite E1, E2. split; [reflexivity|]. left. exact Hp'.
    - destruct (normalize_20k_shape6 (upper p) (upper s) Hp' Hlu
                  (upper_idem p) (upper_idem s)) as [E1 [E2|E2]].
      + rewrite E1, E2. split; [reflexivity|]. right. exact Hp'.
      + rewrite E1. split; [reflexivity|]. left. exact E2. }
  destruct Hcore as [E Hvalid]. rewrite E.
  assert (Hupn : upper (_normalize_50k_code_for_20k_index (upper p))
                 = _normalize_50k_code_for_20k_index (upper p)).
  { unfold _normalize_50k_code_for_20k_index. cbv zeta. rewrite upper_idem.
    destruct (_ && _); [rewrite upper_drop|]; rewrite upper_idem; reflexivity. }
  split; [reflexivity|]. split.
  - apply is_code_20k_shape. split.
    + rewrite length_app_str, Hlu.
      destruct Hvalid as [Hv|Hv]; apply has_shape_length in Hv; simpl in Hv;
        rewrite Hv; auto.
    + exists (_normalize_50k_code_for_20k_index (upper p)), (upper s).
      rewrite upper_app, Hupn, upper_idem. split; [reflexivity|].
      split; [rewrite Es; exact Hs'|exact Hvalid].
  - exists (upper s). rewrite upper_app, Hupn, upper_idem. auto.
Qed.

Lemma child_normalization_consistent_witness :
  _normalize_code_for_20k_index ("031h05" +:+ "ne") = "31H05NE" /\
  _is_code_20k "31H05NE" = true.
Proof.
  destruct (child_normalization_consistent "031h05" "ne") as (H1 & H2 & _).
  - reflexivity.
  - reflexivity.
  - split; [exact H1|exact H2].
Defined.

(** X3.  Both normalizers are idempotent and yield upper-case codes: a
    normalized code is its own normal form. *)
Theorem normalizers_idempotent (code : string) :
  _normalize_50k_code_for_20k_index (_normalize_50k_code_for_20k_index code)
  = _normalize_50k_code_for_20k_index code /\
  _normalize_code_for_20k_index (_normalize_code_for_20k_index code)
  = _normalize_code_for_20k_index code /\
  upper (_normalize_50k_code_for_20k_index code)
  = _normalize_50k_code_for_20k_index code /\
  upper (_normalize_code_for_20k_index code)
  = _normalize_code_for_20k_index code.
Proof.
  assert (H50 : forall cu, upper cu = cu ->
            _normalize_50k_code_for_20k_index cu
            = if (String.length cu =? 6)%nat && startswith cu "0"
              then drop 1 cu else cu).
  { intros cu Hcu. unfold _normalize_50k_code_for_20k_index. cbv zeta.
    rewrite Hcu. reflexivity. }
  assert (U50 : upper (_normalize_50k_code_for_20k_index code)
                = _normalize_50k_code_for_20k_index code).
  { unfold _normalize_50k_code_for_20k_index. cbv zeta.
    destruct (_ && _); [rewrite upper_drop|]; rewrite upper_idem; reflexivity. }
  assert (U20 : upper (_normalize_code_for_20k_index code)
                = _normalize_code_for_20k_index code).
  { unfold _normalize_code_for_20k_index. cbv zeta.
    destruct (_ && _ && _).
    - destruct (_ && _ && _ && _); [rewrite upper_drop|]; rewrite upper_idem;
        reflexivity.
    - destruct (_ && _); rewrite upper_idem; reflexivity. }
  split; [|split; [|split; [exact U50|exact U20]]].
  - rewrite (H50 _ U50).
    unfold _normalize_50k_code_for_20k_index. cbv zeta.
    destruct ((String.length (upper code) =? 6)%nat
              && startswith (upper code) "0") eqn:E.
    + apply andb_true_iff in E. destruct E as [E _]. apply Nat.eqb_eq in E.
      rewrite length_drop, E. reflexivity.
    + rewrite E. reflexivity.
  - unfold _normalize_code_for_20k_index at 1. cbv zeta. rewrite U20.
    unfold _normalize_code_for_20k_index. cbv zeta.
    set (cu := upper code).
    destruct ((String.length cu =? 8)%nat && startswith cu "0"
              && isalpha_at cu 3) eqn:E8.
    + destruct ((String.length (slice cu 1 6) =? 5)%nat
                && isdigit (slice (slice cu 1 6) 0 2)
                && isalpha_at (slice cu 1 6) 2
                && isdigit (slice (slice cu 1 6) 3 5)) eqn:E5.
      * apply andb_true_iff in E8. destruct E8 as [E8 _].
        apply andb_true_iff in E8. destruct E8 as [E8 _].
        apply Nat.eqb_eq in E8. rewrite length_drop, E8. simpl.
        match goal with |- (if ?g then _ else _) = _ => destruct g end;
          reflexivity.
      * cbv iota. rewrite E8, E5. reflexivity.
    + destruct ((String.length cu =? 7)%nat && isalpha_at cu 2) eqn:E7;
        cbv iota; rewrite E8, E7; reflexivity.
Qed.

End NormalizerFacts.

(** ** AOI construction and finalization *)

Section AoiInvariants.
Import Py PyStr Geo Zone TileCode ErrorHandler AoiResolver.

Example init_valid_override :
  (fun a => (use_custom_crs a, target_mtm_crs a))
    <$> match init Sample.engine (Some "EPSG:32187") with
        | Return a => Some a
        | Raise _ => None
        end
  = Some (true, Some "32187").
Proof. vm_compute. reflexivity. Qed.

Example init_foreign_override_ignored :
  (fun a => (use_custom_crs a, target_mtm_crs a))
    <$> match init Sample.engine (Some "EPSG:4326") with
        | Return a => Some a
        | Raise _ => None
        end
  = Some (false, None).
Proof. vm_compute. reflexivity. Qed.

(** X4.  Constructing an [Aoi] never raises, whatever the override.  A
    custom zone is kept exactly when it is given and is a valid MTM
    projection; the target is then one of the codes of [VALID_MTM_CRS].
    Any other override is ignored: no target, no custom flag.  The new
    object holds no definition yet. *)
Theorem init_custom_crs (E : Engine.t) (custom_crs : option string) :
  exists a,
    init E custom_crs = Return a /\
    (use_custom_crs a = true <->
     opt_truthy custom_crs = true /\
     is_valid_mtm_crs E (default "" custom_crs) = true) /\
    (use_custom_crs a = true <-> is_Some (target_mtm_crs a)) /\
    (forall t, target_mtm_crs a = Some t -> is_Some (VALID_MTM_CRS !! t)) /\
    definition_type a = None /\ combined_gdf_epsg4326 a = None /\
    bounds_epsg4326 a = None /\ combined_geometry_mtm a = None /\
    subfeuillet_20k_data_gdfs a = [].
Proof.
  unfold init. destruct (opt_truthy custom_crs) eqn:Ht.
  - destruct (is_valid_mtm_crs E (default "" custom_crs)) eqn:Hv.
    + unfold is_valid_mtm_crs in Hv.
      destruct (Engine.crs_to_epsg E (default "" custom_crs)) as [epsg|e];
        [|discriminate].
      simpl. eexists. split; [reflexivity|]. simpl.
      apply bool_decide_eq_true in Hv.
      repeat split; eauto; intros t Ht'; injection Ht' as <-; exact Hv.
    + eexists. split; [reflexivity|]. simpl.
      repeat split; try discriminate; try (intros [? ?]; discriminate).
  - eexists. split; [reflexivity|]. simpl.
    repeat split; try discriminate; try (intros [? ?]; discriminate).
Qed.

Lemma reproject_same_definition (E : Engine.t) (gdf : GeoDataFrame) (self : Aoi) :
  let self' := snd (reproject_to_target E gdf self) in
  definition_type self' = definition_type self /\
  input_references self' = input_references self /\
  combined_gdf_epsg4326 self' = combined_gdf_epsg4326 self /\
  combined_geometry_epsg4326 self' = combined_geometry_epsg4326 self /\
  bounds_epsg4326 self' = bounds_epsg4326 self /\
  subfeuillet_20k_data_gdfs self' = subfeuillet_20k_data_gdfs self.
Proof.
  cbv zeta. unfold reproject_to_target.
  destruct (gdf_crs gdf) as [crs|]; [|simpl; tauto].
  destruct (String.eqb _ _).
  - destruct (geometry_iloc0 gdf); simpl; tauto.
  - destruct (Engine.to_crs E gdf _) as [gdf_mtm|]; [|simpl; tauto].
    destruct (negb (gdf_empty gdf_mtm)); [|simpl; tauto].
    destruct (geometry_iloc0 gdf_mtm) as [[g|]|]; try (simpl; tauto).
    destruct (is_empty g); simpl; tauto.
Qed.

Lemma prepare_same_definition (E : Engine.t) (bnds : bounds) (self : Aoi) :
  let self' :=
    format_target_crs E bnds
      (determine_mtm_projection bnds (validate_custom_crs E self)) in
  definition_type self' = definition_type self /\
  input_references self' = input_references self /\
  combined_gdf_epsg4326 self' = combined_gdf_epsg4326 self /\
  combined_geometry_epsg4326 self' = combined_geometry_epsg4326 self /\
  bounds_epsg4326 self' = bounds_epsg4326 self /\
  subfeuillet_20k_data_gdfs self' = subfeuillet_20k_data_gdfs self /\
  combined_geometry_mtm self' = combined_geometry_mtm self /\
  exists code, target_mtm_crs self' = Some ("EPSG:" +:+ code).
Proof.
  cbv zeta. unfold format_target_crs, determine_mtm_projection,
    validate_custom_crs.
  destruct (use_custom_crs self && opt_truthy (target_mtm_crs self));
    [destruct (negb (is_valid_mtm_crs E _))|];
    match goal with
    | |- context [negb (opt_truthy (target_mtm_crs ?s))] =>
        destruct (negb (opt_truthy (target_mtm_crs s)))
    end;
    match goal with
    | |- context [isdigit ?s] => destruct (isdigit s)
    end;
    match goal with
    | |- context [Engine.crs_to_epsg E ?s] =>
        destruct (Engine.crs_to_epsg E s) as [[code|]|e]
    end; simpl; repeat split; eauto.
Qed.

Lemma finalize_same_definition (E : Engine.t) (self : Aoi) :
  let self' := snd (_finalize_definition E self) in
  definition_type self' = definition_type self /\
  input_references self' = input_references self /\
  combined_gdf_epsg4326 self' = combined_gdf_epsg4326 self /\
  combined_geometry_epsg4326 self' = combined_geometry_epsg4326 self /\
  bounds_epsg4326 self' = bounds_epsg4326 self /\
  subfeuillet_20k_data_gdfs self' = subfeuillet_20k_data_gdfs self.
Proof.
  cbv zeta. unfold _finalize_definition.
  destruct (combined_gdf_epsg4326 self) as [gdf|] eqn:Egdf; [|simpl; tauto].
  destruct (bounds_epsg4326 self) as [bnds|] eqn:Eb;
    [|simpl; rewrite Egdf; tauto].
  cbv zeta.
  destruct (negb (opt_truthy
                    (target_mtm_crs
                       (determine_mtm_projection bnds
                          (validate_custom_crs E self))))) eqn:Et.
  - simpl. unfold determine_mtm_projection, validate_custom_crs.
    destruct (use_custom_crs self && opt_truthy (target_mtm_crs self));
      [destruct (negb (is_valid_mtm_crs E _))|];
      match goal with
      | |- context [negb (opt_truthy (target_mtm_crs ?s))] =>
          destruct (negb (opt_truthy (target_mtm_crs s)))
      end; simpl; rewrite ?Egdf, ?Eb; tauto.
  - destruct (prepare_same_definition E bnds self)
      as (H1 & H2 & H3 & H4 & H5 & H6 & _).
    destruct (reproject_same_definition E gdf
                (format_target_crs E bnds
                   (determine_mtm_projection bnds (validate_custom_crs E self))))
      as (R1 & R2 & R3 & R4 & R5 & R6).
    rewrite <- Egdf, <- Eb. repeat split; congruence.
Qed.

Lemma finalize_true_target (E : Engine.t) (self : Aoi) :
  fst (_finalize_definition E self) = true ->
  exists code,
    target_mtm_crs (snd (_finalize_definition E self)) = Some ("EPSG:" +:+ code).
Proof.
  unfold _finalize_definition.
  destruct (combined_gdf_epsg4326 self) as [gdf|]; [|discriminate].
  destruct (bounds_epsg4326 self) as [bnds|]; [|discriminate].
  cbv zeta. destruct (negb (opt_truthy _)); [discriminate|].
  intros _.
  destruct (prepare_same_definition E bnds self)
    as (_ & _ & _ & _ & _ & _ & _ & code & Hcode).
  exists code. rewrite reproject_keeps_target. exact Hcode.
Qed.

(** X5.  Finalization changes nothing but the zone and the projected
    geometry: the definition type, the input references, the base frame
    and geometry, the bounds and the sub-tile manifest come out as they
    went in.  Without base frame or without bounds it fails and changes
    nothing at all; when it succeeds the target zone is in canonical form,
    [EPSG:] followed by a code. *)
Theorem finalize_invariants (E : Engine.t) (self : Aoi) :
  let self' := snd (_finalize_definition E self) in
  (definition_type self' = definition_type self /\
   input_references self' = input_references self /\
   combined_gdf_epsg4326 self' = combined_gdf_epsg4326 self /\
   combined_geometry_epsg4326 self' = combined_geometry_epsg4326 self /\
   bounds_epsg4326 self' = bounds_epsg4326 self /\
   subfeuillet_20k_data_gdfs self' = subfeuillet_20k_data_gdfs self) /\
  (combined_gdf_epsg4326 self = None \/ bounds_epsg4326 self = None ->
   _finalize_definition E self = (false, self)) /\
  (fst (_finalize_definition E self) = true ->
   exists code, target_mtm_crs self' = Some ("EPSG:" +:+ code)).
Proof.
  cbv zeta. split; [apply finalize_same_definition|].
  split; [|apply finalize_true_target].
  unfold _finalize_definition. intros [H|H]; rewrite H; [reflexivity|].
  destruct (combined_gdf_epsg4326 self); reflexivity.
Qed.

Lemma finalize_invariants_witness :
  _finalize_definition Sample.engine Sample.fresh_aoi = (false, Sample.fresh_aoi)
  /\ exists code,
      target_mtm_crs (snd (_finalize_definition Sample.engine Sample.paris_aoi))
      = Some ("EPSG:" +:+ code).
Proof.
  split.
  - apply (proj1 (proj2 (finalize_invariants Sample.engine Sample.fresh_aoi))).
    left. reflexivity.
  - apply (proj2 (proj2 (finalize_invariants Sample.engine Sample.paris_aoi))).
    vm_compute. reflexivity.
Defined.

Lemma reproject_true_geometry (E : Engine.t) (gdf : GeoDataFrame) (self : Aoi) :
  fst (reproject_to_target E gdf self) = true ->
  geometry_iloc0 gdf
  = Return (combined_geometry_mtm (snd (reproject_to_target E gdf self))) \/
  exists g, combined_geometry_mtm (snd (reproject_to_target E gdf self)) = Some g /\
            is_empty g = false.
Proof.
  unfold reproject_to_target.
  destruct (gdf_crs gdf) as [crs|]; [|discriminate].
  destruct (String.eqb _ _).
  - destruct (geometry_iloc0 gdf) as [og|e]; [|discriminate].
    intros _. left. reflexivity.
  - destruct (Engine.to_crs E gdf _) as [gdf_mtm|]; [|discriminate].
    destruct (negb (gdf_empty gdf_mtm)); [|discriminate].
    destruct (geometry_iloc0 gdf_mtm) as [[g|]|]; try discriminate.
    destruct (is_empty g) eqn:Eg; [discriminate|].
    intros _. right. exists g. split; [reflexivity|exact Eg].
Qed.

Lemma finalize_true_geometry (E : Engine.t) (self : Aoi) (gdf : GeoDataFrame) :
  combined_gdf_epsg4326 self = Some gdf ->
  fst (_finalize_definition E self) = true ->
  geometry_iloc0 gdf
  = Return (combined_geometry_mtm (snd (_finalize_definition E self))) \/
  exists g, combined_geometry_mtm (snd (_finalize_definition E self)) = Some g /\
            is_empty g = false.
Proof.
  intros Hg. unfold _finalize_definition. rewrite Hg.
  destruct (bounds_epsg4326 self) as [bnds|]; [|discriminate].
  cbv zeta.
  destruct (negb (opt_truthy _)); [discriminate|].
  apply reproject_true_geometry.
Qed.

Lemma collect_code_frames (E : Engine.t) (crs code : string) :
  Forall (fun gdf => gdf_empty gdf = false) (collect_code E crs code).
Proof.
  unfold collect_code.
  destruct (_is_code_20k (upper code)).
  - destruct (Engine.get_mnt_20k_subfeuillet_data_gdal E _ _) as [gdf|];
      [|constructor].
    destruct (gdf_empty gdf) eqn:Ee; simpl; [constructor|].
    constructor; [exact Ee|constructor].
  - match goal with |- Forall _ (match ?m with _ => _ end) => destruct m as [tiles|e] end;
      [|constructor].
    apply Forall_forall. intros gdf Hin.
    apply list_elem_of_In, in_map_iff in Hin. destruct Hin as (r & <- & _).
    reflexivity.
Qed.

Lemma flat_map_Forall {A B : Type} (P : B -> Prop) (f : A -> list B) (l : list A) :
  (forall a, Forall P (f a)) -> Forall P (flat_map f l).
Proof.
  intros Hf. induction l as [|a l IH]; simpl; [constructor|].
  apply Forall_app. split; [apply Hf|exact IH].
Qed.

(** X6.  What a successful SNRC definition leaves in the object: the type
    tag, the requested codes in upper case, a non-empty manifest whose
    frames all hold a feature, a one-feature base frame, the bounds, a
    canonical target zone and a non-empty projected geometry.  The base
    frame is in the CRS of the index, EPSG:32198, although the field is
    named after EPSG:4326, and the 4326 geometry field is left as it was:
    an SNRC definition never assigns it. *)
Theorem snrc_definition_postconditions (E : Engine.t) (codes : list pyval)
    (self self' : Aoi) :
  define_from_snrc_codes E codes self = (Return true, self') ->
  definition_type self' = Some "SNRC" /\
  list_comp py_upper codes = Return (input_references self') /\
  subfeuillet_20k_data_gdfs self' <> [] /\
  Forall (fun gdf => gdf_empty gdf = false) (subfeuillet_20k_data_gdfs self') /\
  (exists gdf, combined_gdf_epsg4326 self' = Some gdf /\
               gdf_crs gdf = Some "EPSG:32198" /\ gdf_len gdf = 1%nat) /\
  is_Some (bounds_epsg4326 self') /\
  (exists code, target_mtm_crs self' = Some ("EPSG:" +:+ code)) /\
  (exists g, combined_geometry_mtm self' = Some g /\ is_empty g = false) /\
  combined_geometry_epsg4326 self' = combined_geometry_epsg4326 self.
Proof.
  unfold define_from_snrc_codes, handle_errors_method, define_from_snrc_codes_body.
  destruct codes as [|c0 cs]; [discriminate|].
  destruct (list_comp py_upper (c0 :: cs)) as [refs|e] eqn:Erefs;
    [|simpl; destruct (isinstance e AOIError); [discriminate|];
      rewrite isinstance_Exception; discriminate].
  cbv zeta.
  pose proof (flat_map_Forall _ _ refs (collect_code_frames E "EPSG:32198"))
    as Hframes.
  destruct (flat_map (collect_code E "EPSG:32198") refs) as [|f0 fs] eqn:Ecoll;
    [discriminate|].
  destruct (geoms_for_union (f0 :: fs)) as [|g0 gs]; [discriminate|].
  destruct (Engine.unary_union E (g0 :: gs)) as [[u|]|e]; try discriminate.
  destruct (is_empty u) eqn:Eu; [discriminate|].
  destruct (Engine.to_crs E _ "EPSG:4326") as [gdf4326|e]; [|discriminate].
  match goal with
  | |- context [_finalize_definition E ?a] =>
      pose proof (conj (finalize_same_definition E a) (finalize_true_target E a))
        as Hinv;
      pose proof (finalize_true_geometry E a _ eq_refl) as Hgeo;
      destruct (_finalize_definition E a) as [ok s]
  end.
  cbv zeta in Hinv. simpl in Hinv, Hgeo.
  simpl. intros Heq. injection Heq as -> ->.
  destruct Hinv as ((H1 & H2 & H3 & H4 & H5 & H6) & Ht).
  split; [exact H1|]. split; [rewrite H2; reflexivity|].
  split; [rewrite H6; discriminate|]. split; [rewrite H6; exact Hframes|].
  split; [eexists; split; [exact H3|split; reflexivity]|].
  split; [rewrite H5; eauto|]. split; [apply Ht; reflexivity|].
  split; [|exact H4].
  destruct (Hgeo eq_refl) as [Hsame|Hne]; [|exact Hne].
  exists u. injection Hsame as <-. split; [reflexivity|exact Eu].
Qed.

Lemma snrc_definition_postconditions_witness :
  exists self',
    define_from_snrc_codes Sample.engine [PStr "31h05"] Sample.fresh_aoi
    = (Return true, self') /\
    input_references self' = ["31H05"] /\
    exists g, combined_geometry_mtm self' = Some g /\ is_empty g = false.
Proof.
  assert (Hrun : exists s,
             define_from_snrc_codes Sample.engine [PStr "31h05"] Sample.fresh_aoi
             = (Return true, s))
    by (eexists; vm_compute; reflexivity).
  destruct Hrun as [s Hs]. exists s. split; [exact Hs|].
  pose proof (snrc_definition_postconditions _ _ _ _ Hs)
    as (_ & H2 & _ & _ & _ & _ & _ & H8 & _).
  split; [|exact H8].
  vm_compute in H2. injection H2 as H2. symmetry. exact H2.
Defined.

(** X7.  What a successful KML definition leaves in the object: the type
    tag, the path as only reference (an existing file), a base frame with
    a non-empty first geometry that is also the 4326 geometry, the bounds
    of that frame, a canonical target zone and a non-empty projected
    geometry.  The manifest of sub-sheets is best effort: it is either
    the one the object already had (index unreadable, or no sheet
    intersects) or a non-empty list of one-feature frames. *)
Theorem kml_definition_postconditions (E : Engine.t) (fs : FS.t)
    (kml_filepath : string) (self self' : Aoi) :
  define_from_kml_file E fs kml_filepath self = (Return true, self') ->
  definition_type self' = Some "KML" /\
  input_references self' = [kml_filepath] /\
  FS.exists_ fs kml_filepath = true /\
  (exists gdf geom,
      combined_gdf_epsg4326 self' = Some gdf /\
      geometry_iloc0 gdf = Return (Some geom) /\
      combined_geometry_epsg4326 self' = Some geom /\
      is_empty geom = false /\
      bounds_epsg4326 self' = Some (Engine.total_bounds E gdf)) /\
  (exists code, target_mtm_crs self' = Some ("EPSG:" +:+ code)) /\
  (exists g, combined_geometry_mtm self' = Some g /\ is_empty g = false) /\
  (subfeuillet_20k_data_gdfs self' = subfeuillet_20k_data_gdfs self \/
   subfeuillet_20k_data_gdfs self' <> [] /\
   Forall (fun gdf => gdf_len gdf = 1%nat) (subfeuillet_20k_data_gdfs self')).
Proof.
  unfold define_from_kml_file, handle_errors_method, define_from_kml_file_body.
  destruct (truthy kml_filepath); [|discriminate].
  destruct (FS.exists_ fs kml_filepath) eqn:Eex; [|discriminate].
  simpl negb. cbv iota. simpl orb. cbv iota.
  destruct (get_kml_bounds E fs kml_filepath "EPSG:4326") as [gdf|];
    [|discriminate].
  destruct (gdf_empty gdf); [discriminate|].
  destruct (geometry_iloc0 gdf) as [[geom|]|e] eqn:Egeom; try discriminate.
  destruct (is_empty geom) eqn:Ee; [discriminate|].
  cbv zeta.
  match goal with
  | |- context [_finalize_definition E (kml_subfeuillets E geom ?a)] =>
      set (base := a)
  end.
  assert (Hk : definition_type (kml_subfeuillets E geom base) = Some "KML" /\
               input_references (kml_subfeuillets E geom base) = [kml_filepath] /\
               combined_gdf_epsg4326 (kml_subfeuillets E geom base) = Some gdf /\
               combined_geometry_epsg4326 (kml_subfeuillets E geom base) = Some geom /\
               bounds_epsg4326 (kml_subfeuillets E geom base)
               = Some (Engine.total_bounds E gdf) /\
               (subfeuillet_20k_data_gdfs (kml_subfeuillets E geom base)
                = subfeuillet_20k_data_gdfs self \/
                subfeuillet_20k_data_gdfs (kml_subfeuillets E geom base) <> [] /\
                Forall (fun gdf => gdf_len gdf = 1%nat)
                  (subfeuillet_20k_data_gdfs (kml_subfeuillets E geom base)))).
  { unfold kml_subfeuillets.
    match goal with
    | |- context [match ?m with Return _ => _ | Raise _ => _ end] =>
        destruct m as [tiles|e]
    end; [|subst base; simpl; tauto].
    destruct (gdf_empty tiles) eqn:Et; simpl negb; cbv iota;
      [subst base; simpl; tauto|].
    subst base; simpl. repeat split; try reflexivity.
    right. split.
    - unfold gdf_empty in Et. destruct (gdf_rows tiles); [discriminate|].
      discriminate.
    - apply Forall_forall. intros x Hin.
      apply list_elem_of_In, in_map_iff in Hin. destruct Hin as (r & <- & _).
      reflexivity. }
  destruct Hk as (K1 & K2 & K3 & K4 & K5 & K6).
  pose proof (conj (finalize_same_definition E (kml_subfeuillets E geom base))
                (finalize_true_target E (kml_subfeuillets E geom base))) as Hinv.
  pose proof (finalize_true_geometry E (kml_subfeuillets E geom base) _ K3) as Hgeo.
  destruct (_finalize_definition E (kml_subfeuillets E geom base)) as [ok s].
  cbv zeta in Hinv. simpl in Hinv, Hgeo.
  simpl. intros Heq. injection Heq as -> ->.
  destruct Hinv as ((H1 & H2 & H3 & H4 & H5 & H6) & Ht).
  split; [congruence|]. split; [congruence|]. split; [reflexivity|].
  split.
  { exists gdf, geom. repeat split; congruence. }
  split; [apply Ht; reflexivity|].
  split.
  { destruct (Hgeo eq_refl) as [Hsame|Hne]; [|exact Hne].
    exists geom. rewrite Egeom in Hsame. injection Hsame as <-.
    split; [reflexivity|exact Ee]. }
  rewrite H6. exact K6.
Qed.

Lemma kml_definition_postconditions_witness :
  exists self',
    define_from_kml_file Sample.engine Sample.fs "paris.kml" Sample.fresh_aoi
    = (Return true, self') /\
    definition_type self' = Some "KML" /\
    exists g, combined_geometry_mtm self' = Some g /\ is_empty g = false.
Proof.
  assert (Hrun : exists s,
             define_from_kml_file Sample.engine Sample.fs "paris.kml" Sample.fresh_aoi
             = (Return true, s))
    by (eexists; vm_compute; reflexivity).
  destruct Hrun as [s Hs]. exists s. split; [exact Hs|].
  pose proof (kml_definition_postconditions _ _ _ _ _ Hs)
    as (H1 & _ & _ & _ & _ & H6 & _).
  split; [exact H1|exact H6].
Defined.

End AoiInvariants.

(** ** Effects of vector normalization on the stores *)

Section VectorEffects.
Import Py PyStr Geo ErrorHandler VectorProcessor.

Lemma len_nonneg (gdf : GeoDataFrame) : (0 <= len gdf)%Z.
Proof. unfold len. lia. Qed.

Lemma len_clean_columns (gdf : GeoDataFrame) : len (clean_columns gdf) = len gdf.
Proof. unfold len, gdf_len, clean_columns. simpl. rewrite length_map. reflexivity. Qed.

(** The two ways the [try] block ends: nothing written (the flag
    [processed_successfully] is down and the world is untouched), or the
    clipped layer written under the output name. *)
Lemma process_vector_data_try_cases (E : Engine.t) (input_filepath : string)
    (aoi : geometry) (target out layer : string) (w : World.t) :
  let '(r, processed, w') :=
    process_vector_data_try E input_filepath aoi target out layer w in
  (processed = false /\ w' = w /\
   (fst (fst r) = true ->
    r = (true, 0%Z, 0%Z) /\
    exists gdf, Engine.read_file E input_filepath None = Return gdf /\
                gdf_empty gdf = true) /\
   (-1 <= snd (fst r))%Z /\ (-1 <= snd r)%Z) \/
  (processed = true /\ FS.exists_ (World.fs w) input_filepath = true /\
   exists gdf gdf_mtm gdf_clipped,
     Engine.read_file E input_filepath None = Return gdf /\
     gdf_empty gdf = false /\
     r = (true, len gdf_mtm, len gdf_clipped) /\
     w' = World.mk
            (FS.write (World.fs w) out
               (Engine.gpkg_file_size E
                  (<[layer := clean_columns gdf_clipped]> (World.layers w out))))
            (<[out := <[layer := clean_columns gdf_clipped]> (World.layers w out)]>
               (World.gpkg w))).
Proof.
  unfold process_vector_data_try.
  destruct (FS.exists_ (World.fs w) input_filepath) eqn:Eex; simpl negb; cbv iota;
    [|left; simpl; repeat split; try discriminate; lia].
  destruct (Engine.read_file E input_filepath None) as [gdf|e] eqn:Eread.
  2:{ destruct (isinstance e FileNotFoundError); left; simpl;
      repeat split; try discriminate; lia. }
  destruct (gdf_empty gdf) eqn:Eempty.
  { left. simpl. repeat split; try discriminate; try lia.
    exists gdf. split; [reflexivity|exact Eempty]. }
  destruct (reproject E gdf target) as [[gdf_mtm n]|early] eqn:Erep.
  2:{ left. unfold reproject in Erep. cbv zeta in Erep.
      destruct (match gdf_crs _ with Some crs => _ | None => true end);
        [|discriminate].
      destruct (Engine.to_crs E _ target); [discriminate|].
      injection Erep as <-. pose proof (len_nonneg gdf).
      simpl. repeat split; try discriminate; lia. }
  pose proof (reproject_count _ _ _ _ _ Erep) as ->.
  pose proof (len_nonneg gdf_mtm).
  destruct (validate_aoi E aoi) as [aoi'|].
  2:{ left. simpl. repeat split; try discriminate; lia. }
  destruct (clip_with_retry E gdf_mtm aoi' target) as [gdf_clipped|].
  2:{ left. simpl. repeat split; try discriminate; lia. }
  pose proof (len_nonneg gdf_clipped).
  unfold save_output, World.to_file.
  destruct (Engine.to_file_error E (clean_columns gdf_clipped) out layer).
  - left. simpl. repeat split; try discriminate; lia.
  - right. split; [reflexivity|]. split; [reflexivity|].
    exists gdf, gdf_mtm, gdf_clipped.
    split; [reflexivity|]. split; [exact Eempty|]. split; reflexivity.
Qed.

Lemma finally_effects (input_filepath : string) (del : bool) (tmp : option string)
    (processed : bool) (w : World.t) :
  let w' := process_vector_data_finally input_filepath del tmp processed w in
  World.gpkg w' = World.gpkg w /\
  FS.locked (World.fs w') = FS.locked (World.fs w) /\
  (forall path, path <> input_filepath ->
                FS.files (World.fs w') !! path = FS.files (World.fs w) !! path) /\
  (processed = false -> w' = w).
Proof.
  cbv zeta. unfold process_vector_data_finally.
  destruct (del && _ && FS.exists_ (World.fs w) input_filepath);
    [|repeat split; reflexivity].
  destruct processed; [|repeat split; reflexivity].
  unfold World.set_fs, FS.remove. simpl.
  destruct (FS.files (World.fs w) !! input_filepath);
    [|repeat split; try reflexivity; discriminate].
  destruct (bool_decide _); simpl;
    [repeat split; try reflexivity; discriminate|].
  repeat split; try discriminate.
  intros path Hne. apply lookup_delete_ne. congruence.
Qed.

Lemma exists_after_write (fs : FS.t) (out path : string) (n : N) :
  FS.exists_ (FS.write fs out n) path = true ->
  FS.exists_ fs path = true \/ path = out.
Proof.
  unfold FS.exists_, FS.write. simpl.
  destruct (decide (path = out)) as [->|Hne]; [tauto|].
  rewrite lookup_insert_ne by congruence. tauto.
Qed.

Lemma exists_write_keeps (fs : FS.t) (out path : string) (n : N) :
  FS.exists_ fs path = true -> FS.exists_ (FS.write fs out n) path = true.
Proof.
  unfold FS.exists_, FS.write. simpl. intros H.
  apply bool_decide_eq_true in H. apply bool_decide_eq_true.
  destruct (decide (path = out)) as [->|Hne].
  - rewrite lookup_insert_eq. eauto.
  - rewrite lookup_insert_ne by congruence. exact H.
Qed.

(** X8.  [process_vector_data] never raises, and its footprint is
    bounded.  A failure report leaves the whole world as it was, and a
    second count of -1 only comes with a failure.  Either nothing is
    written, and then only the input file can change; or the one named
    layer is written, with as many features as the second count, and the
    output GeoPackage file is created or rewritten.  In both cases no file
    other than the input file and the output file changes, no file other
    than the output file is created, and no file is locked or unlocked. *)
Theorem vector_footprint (E : Engine.t) (input_filepath : string)
    (aoi : geometry) (target out layer : string) (del : bool)
    (tmp : option string) (w : World.t) :
  exists ok before after w',
    process_vector_data E input_filepath aoi target out layer del tmp w
    = (Return (ok, before, after), w') /\
    (ok = false -> w' = w) /\
    (ok = true -> (0 <= before)%Z /\ (0 <= after)%Z) /\
    (-1 <= before)%Z /\ (-1 <= after)%Z /\
    ((World.gpkg w' = World.gpkg w /\
      forall path, path <> input_filepath ->
                   FS.files (World.fs w') !! path = FS.files (World.fs w) !! path) \/
     (exists gdf,
         len gdf = after /\
         World.gpkg w'
         = <[out := <[layer := gdf]> (World.layers w out)]> (World.gpkg w) /\
         (out <> input_filepath ->
          FS.files (World.fs w') !! out
          = Some (Engine.gpkg_file_size E
                    (<[layer := gdf]> (World.layers w out)))))) /\
    FS.locked (World.fs w') = FS.locked (World.fs w) /\
    (forall path, path <> input_filepath -> path <> out ->
                  FS.files (World.fs w') !! path = FS.files (World.fs w) !! path) /\
    (forall path, FS.exists_ (World.fs w') path = true ->
                  FS.exists_ (World.fs w) path = true \/ path = out).
Proof.
  unfold process_vector_data.
  pose proof (process_vector_data_try_cases E input_filepath aoi target out layer w)
    as Htry.
  destruct (process_vector_data_try E input_filepath aoi target out layer w)
    as [[[[ok before] after] processed] w1].
  pose proof (finally_effects input_filepath del tmp processed w1)
    as (Hg & Hl & Hf & Hp).
  cbv zeta in Hg, Hl, Hf, Hp.
  exists ok, before, after,
    (process_vector_data_finally input_filepath del tmp processed w1).
  split; [reflexivity|].
  assert (Hexists : forall path,
             FS.exists_ (World.fs (process_vector_data_finally input_filepath del
                                     tmp processed w1)) path = true ->
             FS.exists_ (World.fs w1) path = true).
  { intros path. unfold FS.exists_.
    destruct (decide (path = input_filepath)) as [->|Hne].
    - unfold process_vector_data_finally.
      destruct (del && _ && FS.exists_ (World.fs w1) input_filepath) eqn:Eg.
      + apply andb_true_iff in Eg. destruct Eg as [_ Eg]. intros _. exact Eg.
      + tauto.
    - rewrite (Hf path Hne). tauto. }
  destruct Htry as [(-> & -> & Hok & Hb & Ha)|(-> & Hex & gdf & gdf_mtm & gdf_clipped
                                               & Hread & Hne & Hr & ->)].
  - rewrite (Hp eq_refl). simpl in Hok, Hb, Ha.
    split; [reflexivity|].
    split.
    { intros ->. destruct (Hok eq_refl) as [Hr _]. injection Hr as -> ->. lia. }
    split; [exact Hb|]. split; [exact Ha|].
    split; [left; split; reflexivity|]. split; [reflexivity|].
    split; [reflexivity|]. tauto.
  - injection Hr as -> -> ->. simpl in Hg, Hl, Hf.
    split; [discriminate|].
    pose proof (len_nonneg gdf_mtm). pose proof (len_nonneg gdf_clipped).
    split; [intros _; lia|]. split; [lia|]. split; [lia|].
    split.
    { right. exists (clean_columns gdf_clipped).
      split; [apply len_clean_columns|]. split; [rewrite Hg; reflexivity|].
      intros Hout. rewrite (Hf out Hout). apply lookup_insert_eq. }
    split; [exact Hl|].
    split.
    { intros path Hin Hout. rewrite (Hf path Hin).
      apply lookup_insert_ne. congruence. }
    intros path Hpath. apply Hexists in Hpath. simpl in Hpath.
    apply exists_after_write in Hpath. exact Hpath.
Qed.

(** X9.  When the input file is deleted.  For an input that exists and
    can be read, the file is gone after the call exactly when all of this
    holds: it held features, the call reports success, deletion was asked
    for, the path lies under the given temporary directory with [temp_]
    in its base name, and the file can be removed.  So an input without
    features is kept although the call reports success, and so is the
    input of any failed call. *)
Theorem vector_input_deletion (E : Engine.t) (input_filepath : string)
    (aoi : geometry) (target out layer : string) (del : bool)
    (tmp : option string) (w : World.t) (gdf : GeoDataFrame) :
  FS.exists_ (World.fs w) input_filepath = true ->
  Engine.read_file E input_filepath None = Return gdf ->
  let run := process_vector_data E input_filepath aoi target out layer del tmp w in
  FS.exists_ (World.fs (snd run)) input_filepath = false <->
  gdf_empty gdf = false /\
  (exists before after, fst run = Return (true, before, after)) /\
  del = true /\
  (exists d, tmp = Some d /\ truthy d = true /\ truthy input_filepath = true /\
             startswith input_filepath d = true /\
             contains "temp_" (FS.basename input_filepath) = true) /\
  input_filepath ∉ FS.locked (World.fs w).
Proof.
  intros Hex Hread. cbv zeta. unfold process_vector_data.
  pose proof (process_vector_data_try_cases E input_filepath aoi target out layer w)
    as Htry.
  destruct (process_vector_data_try E input_filepath aoi target out layer w)
    as [[[[ok before] after] processed] w1].
  simpl fst. simpl snd.
  destruct Htry as [(-> & -> & Hok & _)|(-> & _ & gdf' & gdf_mtm & gdf_clipped
                                         & Hread' & Hne & Hr & ->)].
  - rewrite (proj2 (proj2 (proj2 (finally_effects input_filepath del tmp false w)))
               eq_refl).
    rewrite Hex. split; [discriminate|].
    intros (Hne & (b & a & Hrun) & _). injection Hrun as -> -> ->.
    destruct (Hok eq_refl) as (_ & gdf' & Hread' & He).
    rewrite Hread in Hread'. injection Hread' as <-. congruence.
  - rewrite Hread in Hread'. injection Hread' as <-. injection Hr as -> -> ->.
    match goal with
    | |- context [process_vector_data_finally _ _ _ _ ?w0] => set (w1 := w0)
    end.
    assert (Hlock : FS.locked (World.fs w1) = FS.locked (World.fs w))
      by reflexivity.
    assert (Hex1 : FS.exists_ (World.fs w1) input_filepath = true)
      by (apply exists_write_keeps, Hex).
    rewrite <- Hlock. clearbody w1. clear Hex Hlock. rename Hex1 into Hex.
    revert Hex. generalize w1. clear w1 w. intros w Hex.
    unfold process_vector_data_finally. rewrite Hex.
    rewrite andb_true_r.
    destruct del; simpl andb.
    2:{ cbn [World.fs]. rewrite Hex. split; [discriminate|].
        intros (_ & _ & ? & _). discriminate. }
    destruct tmp as [d|].
    2:{ cbn [World.fs]. rewrite Hex. split; [discriminate|].
        intros (_ & _ & _ & (d & ? & _) & _). discriminate. }
    destruct (truthy d && truthy input_filepath && startswith input_filepath d
              && contains "temp_" (FS.basename input_filepath)) eqn:Etemp.
    2:{ cbn [World.fs]. rewrite Hex. split; [discriminate|].
        intros (_ & _ & _ & (d' & Hd & H1 & H2 & H3 & H4) & _).
        injection Hd as <-. rewrite H1, H2, H3, H4 in Etemp. discriminate. }
    apply andb_true_iff in Etemp. destruct Etemp as [Etemp H4].
    apply andb_true_iff in Etemp. destruct Etemp as [Etemp H3].
    apply andb_true_iff in Etemp. destruct Etemp as [H1 H2].
    unfold World.set_fs, FS.remove. simpl.
    unfold FS.exists_ in Hex. apply bool_decide_eq_true in Hex.
    destruct Hex as [n Hn]. rewrite Hn.
    destruct (bool_decide (input_filepath ∈ FS.locked (World.fs w))) eqn:Elock.
    + apply bool_decide_eq_true in Elock. simpl. unfold FS.exists_.
      rewrite Hn. split; [intros Hc; apply bool_decide_eq_false in Hc;
                          exfalso; apply Hc; eauto|].
      intros (_ & _ & _ & _ & Hnl). contradiction.
    + apply bool_decide_eq_false in Elock. simpl. unfold FS.exists_. simpl.
      rewrite lookup_delete_eq. split.
      * intros _. split; [exact Hne|]. split; [eauto|]. split; [reflexivity|].
        split; [|exact Elock]. exists d. auto.
      * intros _. apply bool_decide_eq_false. intros [x Hx]. discriminate.
Qed.

Lemma vector_input_deletion_witness :
  FS.exists_
    (World.fs (snd (process_vector_data Sample.engine "tmp/temp_wfs_roads.geojson"
                      Sample.aoi_polygon "EPSG:32188" "out/project.gpkg" "roads"
                      true (Some "tmp") Sample.world)))
    "tmp/temp_wfs_roads.geojson" = false.
Proof.
  apply (proj2 (vector_input_deletion Sample.engine "tmp/temp_wfs_roads.geojson"
                  Sample.aoi_polygon "EPSG:32188" "out/project.gpkg" "roads"
                  true (Some "tmp") Sample.world Sample.roads
                  ltac:(vm_compute; reflexivity) ltac:(vm_compute; reflexivity))).
  split; [vm_compute; reflexivity|].
  split; [eexists; eexists; vm_compute; reflexivity|].
  split; [reflexivity|].
  split; [exists "tmp"; repeat split; vm_compute; reflexivity|].
  vm_compute. discriminate.
Defined.

End VectorEffects.

(** ** Column names of a written layer *)

Section ColumnNames.
Import PyStr Geo VectorProcessor.

Example clean_column_example : clean_column_name "no. de lot:a" = "no_de_lota".
Proof. reflexivity. Qed.

Lemma clean_column_name_chars (s : string) (c : ascii) :
  In c (list_ascii_of_string (clean_column_name s)) ->
  c <> " "%char /\ c <> "."%char /\ c <> ":"%char /\
  (c = "_"%char \/ In c (list_ascii_of_string s)).
Proof.
  induction s as [|d s IH]; simpl; [tauto|].
  destruct (Ascii.eqb d " ") eqn:E1.
  - simpl. intros [<-|Hin].
    + repeat split; try discriminate. left. reflexivity.
    + destruct (IH Hin) as (H1 & H2 & H3 & H4). tauto.
  - destruct (Ascii.eqb d ".") eqn:E2; simpl.
    + intros Hin. destruct (IH Hin) as (H1 & H2 & H3 & H4). tauto.
    + destruct (Ascii.eqb d ":") eqn:E3; simpl.
      * intros Hin. destruct (IH Hin) as (H1 & H2 & H3 & H4). tauto.
      * intros [<-|Hin].
        -- apply Ascii.eqb_neq in E1, E2, E3. tauto.
        -- destruct (IH Hin) as (H1 & H2 & H3 & H4). tauto.
Qed.

Lemma clean_column_name_idem (s : string) :
  clean_column_name (clean_column_name s) = clean_column_name s.
Proof.
  induction s as [|d s IH]; simpl; [reflexivity|].
  destruct (Ascii.eqb d " ") eqn:E1.
  - simpl. rewrite IH. reflexivity.
  - destruct (Ascii.eqb d ".") eqn:E2; simpl; [exact IH|].
    destruct (Ascii.eqb d ":") eqn:E3; simpl; [exact IH|].
    rewrite E1, E2, E3. simpl. rewrite IH. reflexivity.
Qed.

Lemma clean_column_name_length (s : string) :
  (String.length (clean_column_name s) <= String.length s)%nat.
Proof.
  induction s as [|d s IH]; simpl; [lia|].
  destruct (Ascii.eqb d " "); simpl; [lia|].
  destruct (Ascii.eqb d "." || Ascii.eqb d ":"); simpl; lia.
Qed.

(** X10.  The column names of a layer that is written hold no blank, no
    full stop and no colon: every character of a cleaned name is an
    underscore or a character of the original name.  Cleaning a clean
    name changes nothing, and the frame keeps its columns in number and
    order, its features with their geometries, and its CRS. *)
Theorem clean_columns_safe (gdf : GeoDataFrame) :
  gdf_columns (clean_columns gdf) = map clean_column_name (gdf_columns gdf) /\
  (forall col c,
      In col (gdf_columns (clean_columns gdf)) ->
      In c (list_ascii_of_string col) ->
      c <> " "%char /\ c <> "."%char /\ c <> ":"%char) /\
  gdf_columns (clean_columns (clean_columns gdf)) = gdf_columns (clean_columns gdf) /\
  map row_geometry (gdf_rows (clean_columns gdf)) = map row_geometry (gdf_rows gdf) /\
  gdf_crs (clean_columns gdf) = gdf_crs gdf.
Proof.
  split; [reflexivity|]. split; [|split; [|split; [|reflexivity]]].
  - intros col c Hcol Hc. simpl in Hcol. apply in_map_iff in Hcol.
    destruct Hcol as (col0 & <- & _).
    destruct (clean_column_name_chars col0 c Hc) as (H1 & H2 & H3 & _). tauto.
  - simpl. rewrite map_map. apply map_ext. intros col.
    apply clean_column_name_idem.
  - simpl. rewrite map_map. reflexivity.
Qed.

End ColumnNames.

(** ** The footprint of a tile archive fetch *)

Section MntFootprint.
Import Py PyStr Geo ErrorHandler MntLidar DataSourceBase.

Lemma grows_by_refl (st : fetch_state) (t c : string) : grows_by st st t c.
Proof.
  exists [], []. rewrite !app_nil_r.
  repeat split; simpl in *; intros; try reflexivity; try tauto; lia.
Qed.

Lemma download_tile_grows (self : MNTLiDARSource) (net : Net)
    (tif_filename download_url temp_dir : string) (st : fetch_state) :
  grows_by st
    (download_tile self net tif_filename download_url
       (FS.join temp_dir tif_filename) st)
    (FS.join temp_dir tif_filename)
    (FS.join (local_cache_dir self) tif_filename).
Proof.
  unfold download_tile. cbv zeta.
  set (t := FS.join temp_dir tif_filename).
  set (c := FS.join (local_cache_dir self) tif_filename).
  destruct (truthy (local_cache_dir self) && FS.exists_ (st_fs st) c).
  { exists [c], []. rewrite app_nil_r. simpl.
    repeat split; try tauto; try lia. intros p [<-|[]]. tauto. }
  destruct (net download_url) as [response|e]; [|apply grows_by_refl].
  destruct (negb (status_ok response)); [apply grows_by_refl|].
  destruct (total_size_of (content_length response)) as [total_size|e];
    [|apply grows_by_refl].
  assert (Hw : forall p, p <> t ->
             FS.files (FS.write (st_fs st) t (body_bytes response)) !! p
             = FS.files (st_fs st) !! p).
  { intros p Hp. simpl. apply lookup_insert_ne. congruence. }
  destruct (stream_fails response).
  { exists [], []. rewrite !app_nil_r. simpl.
    repeat split; try tauto; try lia. intros p Hp _. apply Hw, Hp. }
  destruct (negb (total_size =? 0)%Z
            && negb (Z.of_N (body_bytes response) =? total_size)%Z).
  { exists [], []. rewrite !app_nil_r. simpl.
    split; [reflexivity|]. split; [reflexivity|]. split; [lia|].
    split; [tauto|]. split; [tauto|].
    destruct (FS.exists_ (FS.write (st_fs st) t (body_bytes response)) t).
    - unfold FS.remove.
      destruct (FS.files (FS.write (st_fs st) t (body_bytes response)) !! t);
        [|simpl; split; [reflexivity|intros p Hp _; apply lookup_insert_ne; congruence]].
      destruct (bool_decide _); simpl;
        [split; [reflexivity|intros p Hp _; apply lookup_insert_ne; congruence]|].
      split; [reflexivity|]. intros p Hp _.
      rewrite lookup_delete_ne by congruence. apply lookup_insert_ne. congruence.
    - split; [reflexivity|]. intros p Hp _. apply Hw, Hp. }
  exists [t], [t]. simpl.
  split; [reflexivity|]. split; [reflexivity|]. split; [lia|].
  split; [intros p [<-|[]]; tauto|].
  split; [intros p [<-|[]]; tauto|].
  destruct (truthy (local_cache_dir self)); [|split; [reflexivity|intros p Hp _; apply Hw, Hp]].
  destruct (negb (FS.exists_ (FS.write (st_fs st) t (body_bytes response)) c));
    [|split; [reflexivity|intros p Hp _; apply Hw, Hp]].
  simpl. split; [reflexivity|]. intros p Hp Hc.
  rewrite lookup_insert_ne by congruence. apply lookup_insert_ne. congruence.
Qed.

Lemma fetch_tile_grows (self : MNTLiDARSource) (net : Net) (temp_dir : string)
    (st : fetch_state) (tile_gdf : GeoDataFrame) :
  fetch_tile self net temp_dir st tile_gdf = st \/
  exists tif_filename,
    tif_filename_of self tile_gdf = Some tif_filename /\
    grows_by st (fetch_tile self net temp_dir st tile_gdf)
      (FS.join temp_dir tif_filename)
      (FS.join (local_cache_dir self) tif_filename).
Proof.
  unfold fetch_tile, tif_filename_of.
  destruct (column_iloc0 tile_gdf (index_feuillet_column self)) as [n|e];
    simpl; [|left; reflexivity].
  destruct (column_iloc0 tile_gdf (index_url_column self)) as [u|e];
    simpl; [|left; reflexivity].
  destruct (negb (truthy n) || negb (truthy u)); [left; reflexivity|].
  right. eexists. split; [reflexivity|]. apply download_tile_grows.
Qed.

(** The invariant of the loop over a manifest, from any state. *)
Lemma fetch_fold_footprint (self : MNTLiDARSource) (net : Net) (temp_dir : string)
    (gdfs : list GeoDataFrame) (st : fetch_state) :
  let st' := fold_left (fetch_tile self net temp_dir) gdfs st in
  exists new newt,
    local_tif_paths st' = local_tif_paths st ++ new /\
    st_temp_files st' = st_temp_files st ++ newt /\
    (List.length new <= List.length gdfs)%nat /\
    (forall p, In p new -> In p (tile_paths self temp_dir gdfs)) /\
    (forall p, In p newt -> In p new) /\
    FS.locked (st_fs st') = FS.locked (st_fs st) /\
    (forall p, ~ In p (tile_paths self temp_dir gdfs) ->
               FS.files (st_fs st') !! p = FS.files (st_fs st) !! p).
Proof.
  cbv zeta. revert st. induction gdfs as [|gdf gdfs IH]; intros st; simpl.
  - exists [], []. rewrite !app_nil_r. repeat split; simpl; try tauto; lia.
  - destruct (IH (fetch_tile self net temp_dir st gdf))
      as (new2 & newt2 & P2 & T2 & L2 & In2 & Int2 & K2 & F2).
    destruct (fetch_tile_grows self net temp_dir st gdf)
      as [Hsame|(n & Hn & new1 & newt1 & P1 & T1 & L1 & In1 & Int1 & K1 & F1)].
    + rewrite Hsame in *. exists new2, newt2.
      split; [exact P2|]. split; [exact T2|]. split; [lia|].
      split; [intros p Hp; unfold tile_paths; simpl; apply in_or_app; right;
              apply In2, Hp|].
      split; [exact Int2|]. split; [exact K2|].
      intros p Hp. apply F2. intros Hin. apply Hp.
      unfold tile_paths. simpl. apply in_or_app. right. exact Hin.
    + exists (new1 ++ new2), (newt1 ++ newt2).
      split; [rewrite P2, P1, <- app_assoc; reflexivity|].
      split; [rewrite T2, T1, <- app_assoc; reflexivity|].
      split; [rewrite length_app; lia|].
      split.
      { intros p Hp. unfold tile_paths. simpl. rewrite Hn.
        apply in_app_or in Hp. destruct Hp as [Hp|Hp].
        - apply in_or_app. left. destruct (In1 p Hp) as [->| ->]; simpl; tauto.
        - apply in_or_app. right. apply In2, Hp. }
      split.
      { intros p Hp. apply in_app_or in Hp. apply in_or_app.
        destruct Hp as [Hp|Hp]; [left; apply Int1, Hp|right; apply Int2, Hp]. }
      split; [congruence|].
      intros p Hp. rewrite F2.
      * apply F1; intros ->; apply Hp; unfold tile_paths; simpl; rewrite Hn;
          simpl; tauto.
      * intros Hin. apply Hp. unfold tile_paths. simpl. rewrite Hn.
        simpl. right. right. exact Hin.
Qed.

(** X11.  The footprint of [fetch_data] on a tile archive.  It never
    raises and never returns an empty list.  The paths it returns are at
    most as many as the manifest has entries, and each is the tile of a
    manifest entry, in the temporary directory or in the cache.  The list
    of temporary files only grows, by paths that are also returned; the
    other attributes stay.  No file outside those tile paths is created,
    changed or removed, and no file is locked or unlocked. *)
Theorem fetch_data_footprint (self : MNTLiDARSource) (net : Net)
    (gdfs : list GeoDataFrame) (temp_dir : string) (fs : FS.t) :
  exists r self' fs',
    fetch_data self net gdfs temp_dir fs = (Return r, (self', fs')) /\
    r <> Some [] /\
    (forall paths, r = Some paths ->
                   (List.length paths <= List.length gdfs)%nat /\
                   forall p, In p paths -> In p (tile_paths self temp_dir gdfs)) /\
    (exists newt, temp_files self' = temp_files self ++ newt /\
                  forall p, In p newt -> exists paths, r = Some paths /\ In p paths) /\
    (name self', enabled self', required_fields self', local_cache_dir self')
    = (name self, enabled self, required_fields self, local_cache_dir self) /\
    FS.locked fs' = FS.locked fs /\
    (forall p, ~ In p (tile_paths self temp_dir gdfs) ->
               FS.files fs' !! p = FS.files fs !! p).
Proof.
  unfold fetch_data, fetch_data_body.
  assert (Hquiet : exists r self' fs',
             (Return (@None (list string)), (self, fs)) = (Return r, (self', fs')) /\
             r <> Some [] /\
             (forall paths, r = Some paths ->
                            (List.length paths <= List.length gdfs)%nat /\
                            forall p, In p paths -> In p (tile_paths self temp_dir gdfs)) /\
             (exists newt, temp_files self' = temp_files self ++ newt /\
                           forall p, In p newt ->
                                     exists paths, r = Some paths /\ In p paths) /\
             (name self', enabled self', required_fields self', local_cache_dir self')
             = (name self, enabled self, required_fields self, local_cache_dir self) /\
             FS.locked fs' = FS.locked fs /\
             (forall p, ~ In p (tile_paths self temp_dir gdfs) ->
                        FS.files fs' !! p = FS.files fs !! p)).
  { exists None, self, fs. split; [reflexivity|]. split; [discriminate|].
    split; [discriminate|]. split; [exists []; rewrite app_nil_r; simpl; tauto|].
    repeat split; reflexivity. }
  destruct (negb (is_enabled self fs)); [exact Hquiet|].
  destruct (negb (forallb truthy (required_fields self))); [exact Hquiet|].
  destruct gdfs as [|g0 gs] eqn:Eg; [exact Hquiet|]. rewrite <- Eg. clear Hquiet.
  destruct (fetch_fold_footprint self net temp_dir gdfs
              (mkState [] (temp_files self) fs))
    as (new & newt & P & T & L & Hin & Hint & K & F).
  cbv zeta in P, T, L, Hin, Hint, K, F. simpl in P, T, K, F.
  set (st := fold_left (fetch_tile self net temp_dir) gdfs
               (mkState [] (temp_files self) fs)) in *.
  destruct (local_tif_paths st) as [|p0 ps] eqn:Ep.
  - simpl. eexists _, _, _. split; [reflexivity|]. split; [discriminate|].
    split; [discriminate|]. subst new.
    split.
    { exists newt. split; [exact T|]. intros p Hp. destruct (Hint p Hp). }
    split; [reflexivity|]. split; [exact K|exact F].
  - simpl. eexists _, _, _. split; [reflexivity|]. split; [discriminate|].
    subst new.
    split.
    { intros paths Hpaths. injection Hpaths as <-. split; [exact L|exact Hin]. }
    split.
    { exists newt. split; [exact T|]. intros p Hp.
      exists (p0 :: ps). split; [reflexivity|apply Hint, Hp]. }
    split; [reflexivity|]. split; [exact K|exact F].
Qed.

Lemma fetch_fold_cached (self : MNTLiDARSource) (net : Net) (temp_dir : string)
    (fs : FS.t) (gdfs : list GeoDataFrame) (paths temps : list string) :
  truthy (local_cache_dir self) = true ->
  Forall (fun gdf =>
            exists n u,
              column_iloc0 gdf (index_feuillet_column self) = Return n /\
              column_iloc0 gdf (index_url_column self) = Return u /\
              truthy n = true /\ truthy u = true /\
              FS.exists_ fs (FS.join (local_cache_dir self)
                               ("MNT_" +:+ n +:+ ".tif")) = true) gdfs ->
  fold_left (fetch_tile self net temp_dir) gdfs (mkState paths temps fs)
  = mkState
      (paths ++ omap (fun gdf => FS.join (local_cache_dir self)
                                   <$> tif_filename_of self gdf) gdfs)
      temps fs.
Proof.
  intros Hc Hall. revert paths.
  induction Hall as [|gdf gdfs (n & u & Hn & Hu & Tn & Tu & Hex) _ IH];
    intros paths; simpl.
  - rewrite app_nil_r. reflexivity.
  - unfold fetch_tile at 2, tif_filename_of at 1. rewrite Hn, Hu. simpl.
    rewrite Tn, Tu. simpl. unfold download_tile. cbv zeta. simpl.
    rewrite Hc, Hex. simpl. rewrite IH, <- app_assoc. reflexivity.
Qed.

(** X12.  A fully cached manifest needs no network.  When the source is
    enabled, has a cache directory, and every entry of a non-empty
    manifest names a sheet and a URL and has its tile in the cache, then
    [fetch_data] returns the cached paths, one per entry and in manifest
    order, whatever the network would answer; the file system and the
    source are left as they were. *)
Theorem fetch_data_fully_cached (self : MNTLiDARSource) (net : Net)
    (gdfs : list GeoDataFrame) (temp_dir : string) (fs : FS.t) :
  is_enabled self fs = true ->
  truthy (local_cache_dir self) = true ->
  gdfs <> [] ->
  Forall (fun gdf =>
            exists n u,
              column_iloc0 gdf (index_feuillet_column self) = Return n /\
              column_iloc0 gdf (index_url_column self) = Return u /\
              truthy n = true /\ truthy u = true /\
              FS.exists_ fs (FS.join (local_cache_dir self)
                               ("MNT_" +:+ n +:+ ".tif")) = true) gdfs ->
  exists paths,
    fetch_data self net gdfs temp_dir fs = (Return (Some paths), (self, fs)) /\
    paths = omap (fun gdf => FS.join (local_cache_dir self)
                               <$> tif_filename_of self gdf) gdfs /\
    List.length paths = List.length gdfs /\
    Forall (fun p => FS.exists_ fs p = true) paths.
Proof.
  intros Hen Hc Hne Hall.
  assert (Hreq : forallb truthy (required_fields self) = true).
  { unfold is_enabled, config_valid in Hen.
    destruct (negb (enabled self)); [discriminate|].
    apply andb_true_iff in Hen. tauto. }
  unfold fetch_data, fetch_data_body.
  destruct (negb (is_enabled self fs)) eqn:E1;
    [rewrite Hen in E1; discriminate|].
  destruct (negb (forallb truthy (required_fields self))) eqn:E2;
    [rewrite Hreq in E2; discriminate|].
  destruct gdfs as [|g0 gs]; [contradiction|].
  remember (g0 :: gs) as gdfs eqn:Eg.
  rewrite (fetch_fold_cached self net temp_dir fs gdfs [] (temp_files self) Hc Hall).
  simpl app. cbv zeta. simpl local_tif_paths. simpl st_temp_files. simpl st_fs.
  assert (Hlen : List.length
                   (omap (fun gdf => FS.join (local_cache_dir self)
                                       <$> tif_filename_of self gdf) gdfs)
                 = List.length gdfs /\
                 Forall (fun p => FS.exists_ fs p = true)
                   (omap (fun gdf => FS.join (local_cache_dir self)
                                       <$> tif_filename_of self gdf) gdfs)).
  { clear -Hall.
    induction Hall as [|gdf gdfs (n & u & Hn & Hu & Tn & Tu & Hex) _ [IH1 IH2]];
      simpl; [split; [reflexivity|constructor]|].
    assert (Hname : tif_filename_of self gdf = Some ("MNT_" +:+ n +:+ ".tif"))
      by (unfold tif_filename_of; rewrite Hn; reflexivity).
    rewrite Hname. simpl.
    split; [f_equal; exact IH1|]. constructor; assumption. }
  destruct Hlen as [Hlen Hex].
  destruct (omap _ gdfs) as [|p0 ps] eqn:Ep.
  { subst gdfs. discriminate. }
  exists (p0 :: ps). split; [|auto].
  destruct self. reflexivity.
Qed.

Lemma fetch_data_fully_cached_witness :
  fst (fetch_data Fixtures.cached_source Fixtures.offline Sample.one_tile "tmp"
         Fixtures.cache_fs)
  = Return (Some ["cache/MNT_31H05NE.tif"]).
Proof.
  destruct (fetch_data_fully_cached Fixtures.cached_source Fixtures.offline
              Sample.one_tile "tmp" Fixtures.cache_fs)
    as (paths & Hrun & Hpaths & _).
  - reflexivity.
  - reflexivity.
  - discriminate.
  - constructor; [|constructor].
    exists "31H05NE", "https://tiles.example/31H05NE/".
    repeat split; reflexivity.
  - rewrite Hrun, Hpaths. reflexivity.
Defined.

End MntFootprint.

(** ** Cleaning temporary files up *)

Section CleanupFacts.
Import Py PyStr Geo MntLidar FileUtils DataSourceBase.

Lemma safe_delete_file_effects (fs : FS.t) (filepath : string) :
  let fs' := snd (safe_delete_file fs filepath) in
  FS.locked fs' = FS.locked fs /\
  (forall p, p <> filepath -> FS.files fs' !! p = FS.files fs !! p) /\
  (forall p, FS.exists_ fs' p = true -> FS.exists_ fs p = true) /\
  (filepath ∉ FS.locked fs -> FS.exists_ fs' filepath = false) /\
  (fst (safe_delete_file fs filepath) = true <->
   FS.exists_ fs' filepath = false).
Proof.
  cbv zeta. unfold safe_delete_file, FS.remove.
  destruct (FS.exists_ fs filepath) eqn:Eex.
  - pose proof Eex as Hsome. unfold FS.exists_ in Hsome.
    apply bool_decide_eq_true in Hsome. destruct Hsome as [n En]. rewrite En.
    destruct (bool_decide (filepath ∈ FS.locked fs)) eqn:El; simpl.
    + apply bool_decide_eq_true in El.
      split; [reflexivity|]. split; [reflexivity|]. split; [tauto|].
      split; [tauto|]. rewrite Eex. split; discriminate.
    + assert (Hgone : FS.exists_ (FS.mk (delete filepath (FS.files fs))
                                    (FS.locked fs)) filepath = false).
      { unfold FS.exists_. simpl. rewrite lookup_delete_eq.
        apply bool_decide_eq_false. intros [x Hx]. discriminate. }
      split; [reflexivity|].
      split; [intros p Hp; apply lookup_delete_ne; congruence|].
      split.
      { intros p. unfold FS.exists_. simpl.
        destruct (decide (p = filepath)) as [->|Hne].
        - rewrite lookup_delete_eq. intros Hp.
          apply bool_decide_eq_true in Hp. destruct Hp. discriminate.
        - rewrite lookup_delete_ne by congruence. tauto. }
      split; [intros _; exact Hgone|]. rewrite Hgone. tauto.
  - simpl. rewrite Eex. repeat split; tauto.
Qed.

Lemma cleanup_fold_effects (paths : list string) (fs : FS.t) :
  let fs' := fold_left (fun fs p => snd (safe_delete_file fs p)) paths fs in
  FS.locked fs' = FS.locked fs /\
  (forall p, ~ In p paths -> FS.files fs' !! p = FS.files fs !! p) /\
  (forall p, FS.exists_ fs' p = true -> FS.exists_ fs p = true) /\
  (forall p, In p paths -> p ∉ FS.locked fs -> FS.exists_ fs' p = false).
Proof.
  cbv zeta. revert fs. induction paths as [|q paths IH]; intros fs; simpl.
  - repeat split; tauto.
  - destruct (IH (snd (safe_delete_file fs q))) as (K & F & Ex & Gone).
    destruct (safe_delete_file_effects fs q) as (K1 & F1 & Ex1 & Gone1 & _).
    cbv zeta in K1, F1, Ex1, Gone1.
    split; [congruence|]. split; [|split].
    + intros p Hp. rewrite F by tauto. apply F1. intros ->. tauto.
    + intros p Hp. apply Ex1, Ex, Hp.
    + intros p [->|Hin] Hl.
      * destruct (FS.exists_ (fold_left _ paths _) p) eqn:E; [|reflexivity].
        apply Ex in E. rewrite (Gone1 Hl) in E. discriminate.
      * apply Gone; [exact Hin|]. rewrite K1. exact Hl.
Qed.

(** X13.  Cleaning up after a source.  [cleanup_temp_files] empties the
    list of temporary files and removes each listed file that can be
    removed; a file that cannot be removed is skipped without an
    exception.  It touches no other file, creates none, and leaves the
    configuration of the source alone. *)
Theorem cleanup_temp_files_effects (self : MNTLiDARSource) (fs : FS.t) :
  let '(self', fs') := cleanup_temp_files self fs in
  temp_files self' = [] /\
  (name self', enabled self', required_fields self', local_cache_dir self')
  = (name self, enabled self, required_fields self, local_cache_dir self) /\
  FS.locked fs' = FS.locked fs /\
  (forall p, In p (temp_files self) -> p ∉ FS.locked fs ->
             FS.exists_ fs' p = false) /\
  (forall p, ~ In p (temp_files self) -> FS.files fs' !! p = FS.files fs !! p) /\
  (forall p, FS.exists_ fs' p = true -> FS.exists_ fs p = true).
Proof.
  unfold cleanup_temp_files. cbv zeta.
  destruct (cleanup_fold_effects (temp_files self) fs) as (K & F & Ex & Gone).
  cbv zeta in K, F, Ex, Gone.
  split; [reflexivity|]. split; [reflexivity|]. split; [exact K|].
  split; [exact Gone|]. split; [exact F|exact Ex].
Qed.

(** X14.  Fetching, then cleaning up.  After [fetch_data] and
    [cleanup_temp_files] in a row, the source lists no temporary file,
    nothing was locked, and every file outside the tile paths of the
    manifest and outside the temporary files listed before is as it was
    at the start. *)
Theorem fetch_then_cleanup (self : MNTLiDARSource) (net : Net)
    (gdfs : list GeoDataFrame) (temp_dir : string) (fs : FS.t) :
  let '(_, (self1, fs1)) := fetch_data self net gdfs temp_dir fs in
  let '(self2, fs2) := cleanup_temp_files self1 fs1 in
  temp_files self2 = [] /\
  FS.locked fs2 = FS.locked fs /\
  (forall p, In p (temp_files self1) -> p ∉ FS.locked fs ->
             FS.exists_ fs2 p = false) /\
  (forall p, ~ In p (tile_paths self temp_dir gdfs) ->
             ~ In p (temp_files self) ->
             FS.files fs2 !! p = FS.files fs !! p).
Proof.
  unfold fetch_data, fetch_data_body.
  assert (Hquiet :
            let '(self2, fs2) := cleanup_temp_files self fs in
            temp_files self2 = [] /\
            FS.locked fs2 = FS.locked fs /\
            (forall p, In p (temp_files self) -> p ∉ FS.locked fs ->
                       FS.exists_ fs2 p = false) /\
            (forall p, ~ In p (tile_paths self temp_dir gdfs) ->
                       ~ In p (temp_files self) ->
                       FS.files fs2 !! p = FS.files fs !! p)).
  { unfold cleanup_temp_files. cbv zeta.
    destruct (cleanup_fold_effects (temp_files self) fs) as (K & F & Ex & Gone).
    cbv zeta in K, F, Ex, Gone.
    split; [reflexivity|]. split; [exact K|]. split; [exact Gone|].
    intros p _ Hp. apply F, Hp. }
  destruct (negb (is_enabled self fs)); [exact Hquiet|].
  destruct (negb (forallb truthy (required_fields self))); [exact Hquiet|].
  destruct gdfs as [|g0 gs] eqn:Eg; [exact Hquiet|]. rewrite <- Eg. clear Hquiet.
  destruct (fetch_fold_footprint self net temp_dir gdfs
              (mkState [] (temp_files self) fs))
    as (new & newt & P & T & L & Hin & Hint & K & F).
  cbv zeta in P, T, L, Hin, Hint, K, F. simpl in P, T, K, F.
  set (st := fold_left (fetch_tile self net temp_dir) gdfs
               (mkState [] (temp_files self) fs)) in *.
  assert (Hgoal :
            let '(self2, fs2) :=
              cleanup_temp_files
                (mkSource (name self) (enabled self) (index_gpkg_path self)
                   (index_layer_name self) (index_feuillet_column self)
                   (index_url_column self) (local_cache_dir self)
                   (st_temp_files st)) (st_fs st) in
            temp_files self2 = [] /\
            FS.locked fs2 = FS.locked fs /\
            (forall p, In p (st_temp_files st) -> p ∉ FS.locked fs ->
                       FS.exists_ fs2 p = false) /\
            (forall p, ~ In p (tile_paths self temp_dir gdfs) ->
                       ~ In p (temp_files self) ->
                       FS.files fs2 !! p = FS.files fs !! p)).
  { unfold cleanup_temp_files. cbv zeta. simpl temp_files.
    destruct (cleanup_fold_effects (st_temp_files st) (st_fs st))
      as (K2 & F2 & Ex2 & Gone2).
    cbv zeta in K2, F2, Ex2, Gone2.
    split; [reflexivity|]. split; [congruence|].
    split; [intros p Hp Hl; apply Gone2; [exact Hp|rewrite K; exact Hl]|].
    intros p Hp1 Hp2. rewrite F2.
    - apply F, Hp1.
    - rewrite T. intros Hc. apply in_app_or in Hc. destruct Hc as [Hc|Hc];
        [tauto|]. apply Hp1, Hin, Hint, Hc. }
  destruct (local_tif_paths st); exact Hgoal.
Qed.

End CleanupFacts.


(** ** Zone names and the records of a run *)

Section RunAccounting.
Import Py PyStr Geo Zone ErrorHandler AoiResolver Pipeline Accounting.

Example short_name_montreal : get_mtm_short_name (Some "EPSG:32188") = "8".
Proof. reflexivity. Qed.

Example short_name_zone_2 : get_mtm_short_name (Some "EPSG:32182") = "EPSG32182".
Proof. reflexivity. Qed.

Lemma valid_mtm_codes (code : string) :
  is_Some (VALID_MTM_CRS !! code) ->
  In code ["32181"; "32182"; "32183"; "32184"; "32185"; "32186"; "32187";
           "32188"; "32189"; "32190"].
Proof.
  intros [d Hd]. unfold VALID_MTM_CRS in Hd.
  apply elem_of_list_to_map_2 in Hd. apply list_elem_of_In in Hd.
  simpl in Hd.
  repeat (destruct Hd as [Hd|Hd]; [injection Hd as <- _; simpl; tauto|]).
  destruct Hd.
Qed.

(** X15.  The short zone name used in folder and file names.  For a valid
    MTM code in canonical form the short name is the zone number that
    [VALID_MTM_CRS] gives for the code, except for zones 1 and 2: they
    are valid targets but have no short name, and come out as [EPSG]
    followed by the code.  The zone chosen from bounds always has a short
    name, one of 7, 8, 9 and 10. *)
Theorem short_name_of_valid_zone (code : string) :
  is_Some (VALID_MTM_CRS !! code) ->
  let short := get_mtm_short_name (Some ("EPSG:" +:+ code)) in
  ((In code ["32181"; "32182"] /\ short = "EPSG" +:+ code) \/
   VALID_MTM_CRS !! code
   = Some ("MTM zone " +:+ short +:+ " (EPSG:" +:+ code +:+ ")")) /\
  forall b, In (get_mtm_short_name
                  (Some ("EPSG:" +:+ get_mtm_zone_from_bounds b)))
               ["7"; "8"; "9"; "10"].
Proof.
  intros Hv. cbv zeta. split.
  - apply valid_mtm_codes in Hv. simpl in Hv.
    repeat (destruct Hv as [<-|Hv];
            [first [left; split; [simpl; tauto|reflexivity]
                   |right; vm_compute; reflexivity]|]).
    destruct Hv.
  - intros b. unfold get_mtm_zone_from_bounds. cbv zeta.
    repeat match goal with
           | |- context [if ?c then _ else _] => destruct c
           end; vm_compute; tauto.
Qed.

Lemma short_name_of_valid_zone_witness :
  VALID_MTM_CRS !! "32188" = Some "MTM zone 8 (EPSG:32188)".
Proof.
  destruct (short_name_of_valid_zone "32188") as [[[Hin _]|H] _].
  - vm_compute. eauto.
  - exfalso. simpl in Hin. destruct Hin as [Hin|[Hin|[]]]; discriminate.
  - exact H.
Defined.

Lemma process_mnt_head (E : Engine.t) (H : Hooks) (pm : PipelineManager)
    (a : Aoi) (geom : geometry) (ds : DataSource) (paths : list string)
    (summary : SourceOutcome) (w : World.t) :
  let s' := snd (fst (process_mnt E H pm a geom ds paths summary w)) in
  outcome_head s' = outcome_head summary /\ so_status s' = so_status summary.
Proof.
  cbv zeta. unfold process_mnt. cbv zeta.
  destruct (List.filter _ paths) as [|p ps]; [simpl; tauto|].
  destruct (merge_reproject_clip_rasters H _ _ _ _ w) as [[merged|] w1];
    [|simpl; tauto].
  destruct (generate_hillshade_gdal H _ _ w1) as [hs_ok w2].
  simpl. tauto.
Qed.

Lemma process_local_raster_head (H : Hooks) (pm : PipelineManager) (a : Aoi)
    (geom : geometry) (ds : DataSource) (path : string)
    (summary : SourceOutcome) (w : World.t) :
  let s' := snd (fst (process_local_raster H pm a geom ds path summary w)) in
  outcome_head s' = outcome_head summary /\ so_status s' = so_status summary.
Proof.
  cbv zeta. unfold process_local_raster. cbv zeta.
  destruct (merge_reproject_clip_rasters H _ _ _ _ w) as [[merged|] w1];
    simpl; tauto.
Qed.

Lemma process_vector_head (E : Engine.t) (pm : PipelineManager) (a : Aoi)
    (geom : geometry) (ds : DataSource) (path : string)
    (summary : SourceOutcome) (w : World.t) :
  let s' := snd (fst (process_vector E pm a geom ds path summary w)) in
  outcome_head s' = outcome_head summary /\ so_status s' = so_status summary.
Proof.
  cbv zeta. unfold process_vector.
  destruct (VectorProcessor.process_vector_data _ _ _ _ _ _ _ _ _)
    as [[[[ok before] after]|e] w1]; [|simpl; tauto].
  destruct (negb (before =? -1)%Z); destruct ok; simpl; tauto.
Qed.

Lemma dispatch_head (E : Engine.t) (H : Hooks) (pm : PipelineManager) (a : Aoi)
    (geom : geometry) (ds : DataSource) (fetched_data_result : fetched)
    (summary : SourceOutcome) (w : World.t) :
  let r := dispatch E H pm a geom ds fetched_data_result summary w in
  outcome_head (snd (fst r)) = outcome_head summary /\
  (so_status (snd (fst r)) = so_status summary \/
   fst (fst r) = true /\
   In (so_status (snd (fst r))) ["Index (handled)"; "Success (no data in AOI)"]).
Proof.
  cbv zeta. unfold dispatch.
  pose proof (fun paths => process_mnt_head E H pm a geom ds paths summary w) as Hm.
  pose proof (fun path => process_local_raster_head H pm a geom ds path summary w)
    as Hr.
  pose proof (fun path => process_vector_head E pm a geom ds path summary w) as Hv.
  cbv zeta in Hm, Hr, Hv.
  destruct (ds_class ds); destruct fetched_data_result as [|path|[|p ps]];
    try (destruct (FS.exists_ (World.fs w) path));
    try (destruct (String.eqb path "IS_AOI_INDEX_LAYER"));
    simpl;
    first [ split; [apply Hm|left; apply Hm]
          | split; [apply Hr|left; apply Hr]
          | split; [apply Hv|left; apply Hv]
          | tauto ].
Qed.

Lemma final_status_head (ok : bool) (summary : SourceOutcome) :
  outcome_head (final_status ok summary) = outcome_head summary.
Proof.
  unfold final_status.
  destruct (ok && _); [reflexivity|]. destruct (negb ok && _); reflexivity.
Qed.

(** The cases of one iteration of the loop of [run]. *)
Lemma process_source_cases (E : Engine.t) (H : Hooks) (pm : PipelineManager)
    (a : Aoi) (ds : DataSource) (w : World.t) :
  (forall o w',
      process_source E H pm a ds w = (Return (Some o), w') ->
      outcome_head o = source_head ds /\
      In (so_status o) loop_statuses /\
      (so_status o = "Ignored (not enabled)" <-> ds_enabled ds = false) /\
      (ds_enabled ds = false -> w' = w)) /\
  (forall w',
      process_source E H pm a ds w = (Return None, w') ->
      is_enabled_index_source ds = true /\ w' = w) /\
  (is_enabled_index_source ds = true ->
   process_source E H pm a ds w = (Return None, w)) /\
  (is_enabled_index_source ds = false ->
   forall e w', process_source E H pm a ds w = (Raise e, w') ->
                exists arg,
                  fetch_data H ds arg (default "" (temp_files_dir pm)) w
                  = (Raise e, w')).
Proof.
  unfold process_source, is_enabled_index_source. cbv zeta.
  destruct (ds_enabled ds) eqn:Een; simpl negb; cbv iota.
  2:{ rewrite andb_false_r. split; [|split; [|split]]; try discriminate.
      intros o w' Heq. injection Heq as <- <-. simpl.
      unfold source_head. rewrite Een.
      repeat split; try reflexivity; try tauto. }
  rewrite andb_true_r.
  destruct (String.eqb (ds_id ds) AOI_INDEX_ID) eqn:Eid.
  { split; [discriminate|]. split; [|split; [reflexivity|discriminate]].
    intros w' Heq. injection Heq as <-. auto. }
  assert (Hne : forall s : string,
             In s (List.tl loop_statuses) -> s = "Ignored (not enabled)" <-> true = false).
  { intros s Hin. simpl in Hin.
    repeat (destruct Hin as [<-|Hin]; [split; discriminate|]). destruct Hin. }
  destruct (combined_geometry_mtm a) as [geom|].
  2:{ split; [|split; [|split]]; try discriminate.
      intros o w' Heq. injection Heq as <- <-. simpl.
      split; [unfold source_head; rewrite Een; reflexivity|].
      split; [tauto|]. split; [split; discriminate|discriminate]. }
  destruct (if is_raster_class (ds_class ds) then Some (ArgAoi a)
            else ArgBounds <$> bounds_epsg4326 a) as [arg|].
  2:{ split; [|split; [|split]]; try discriminate.
      intros o w' Heq. injection Heq as <- <-. simpl.
      split; [unfold source_head; rewrite Een; reflexivity|].
      split; [tauto|]. split; [split; discriminate|discriminate]. }
  destruct (fetch_data H ds arg (default "" (temp_files_dir pm)) w)
    as [[fetched_data_result|e] w1] eqn:Efetch.
  2:{ split; [discriminate|]. split; [discriminate|]. split; [discriminate|].
      intros _ e' w' Heq. injection Heq as <- <-. eauto. }
  match goal with
  | |- context [dispatch E H pm a geom ds fetched_data_result ?s w1] =>
      pose proof (dispatch_head E H pm a geom ds fetched_data_result s w1) as Hd;
      destruct (dispatch E H pm a geom ds fetched_data_result s w1)
        as [[ok s'] w2]
  end.
  cbv zeta in Hd. simpl in Hd. destruct Hd as [Hhead Hstatus].
  split; [|split; [|split]]; try discriminate.
  intros o w' Heq. injection Heq as <- <-.
  split.
  { rewrite final_status_head, Hhead. unfold source_head, outcome_head. simpl.
    rewrite Een. reflexivity. }
  assert (Hin : In (so_status (final_status ok s')) (List.tl loop_statuses)).
  { unfold final_status.
    destruct Hstatus as [Hs|[-> Hs]].
    - rewrite Hs. destruct ok; simpl; tauto.
    - simpl in Hs. destruct Hs as [Hs|[Hs|[]]]; rewrite <- Hs; simpl; tauto. }
  split; [simpl; simpl in Hin; tauto|].
  split; [apply Hne, Hin|discriminate].
Qed.

(** X16.  The record of one source in the loop of [run].  A call that
    returns a record copies the id, name, type, enabled flag and priority
    of the source into it, and gives it one of seven statuses; the
    initial status "Fetch Failed" never reaches a record.  A source that
    is not enabled is recorded as ignored, with no fetch and no change to
    the world, and only such a source is.  No record is returned exactly
    for an enabled source with the id of the AOI index, which the AOI
    step handles. *)
Theorem process_source_record (E : Engine.t) (H : Hooks) (pm : PipelineManager)
    (a : Aoi) (ds : DataSource) (w : World.t) :
  (forall o w',
      process_source E H pm a ds w = (Return (Some o), w') ->
      outcome_head o = source_head ds /\
      In (so_status o) loop_statuses /\
      so_status o <> "Fetch Failed" /\
      (so_status o = "Ignored (not enabled)" <-> ds_enabled ds = false) /\
      (ds_enabled ds = false -> w' = w)) /\
  (forall w', process_source E H pm a ds w = (Return None, w') <->
              is_enabled_index_source ds = true /\ w' = w).
Proof.
  destruct (process_source_cases E H pm a ds w) as (Hsome & Hnone & Hidx & _).
  split.
  - intros o w' Hrun. destruct (Hsome o w' Hrun) as (H1 & H2 & H3 & H4).
    split; [exact H1|]. split; [exact H2|]. split; [|split; assumption].
    intros Hff. rewrite Hff in H2. simpl in H2.
    repeat (destruct H2 as [H2|H2]; [discriminate|]). exact H2.
  - intros w'. split; [apply Hnone|].
    intros [Hi ->]. apply Hidx, Hi.
Qed.

Lemma process_sources_heads (E : Engine.t) (H : Hooks) (pm : PipelineManager)
    (a : Aoi) (l : list DataSource) (summary summary' : list SourceOutcome)
    (w w' : World.t) :
  process_sources E H pm a l summary w = (Return tt, (summary', w')) ->
  exists rest,
    summary' = summary ++ rest /\
    map outcome_head rest = map source_head (recorded_sources l) /\
    Forall (fun o => In (so_status o) loop_statuses) rest.
Proof.
  revert summary w. induction l as [|ds l IH]; intros summary w; simpl.
  - intros Heq. injection Heq as <- <-. exists []. rewrite app_nil_r.
    repeat split. constructor.
  - destruct (process_source_cases E H pm a ds w) as (Hsome & Hnone & Hidx & _).
    destruct (process_source E H pm a ds w) as [[[o|]|e] w1]; [| |discriminate].
    + intros Hrest. destruct (IH _ _ Hrest) as (rest & -> & Hh & Hst).
      destruct (Hsome o w1 eq_refl) as (Hhead & Hin & Hign & _).
      assert (Hrec : is_enabled_index_source ds = false).
      { destruct (is_enabled_index_source ds) eqn:Ei; [|reflexivity].
        specialize (Hidx eq_refl). discriminate. }
      exists (o :: rest). split; [rewrite <- app_assoc; reflexivity|].
      unfold recorded_sources in *. simpl. rewrite Hrec. simpl.
      split; [rewrite Hhead, Hh; reflexivity|]. constructor; assumption.
    + intros Hrest. destruct (IH _ _ Hrest) as (rest & -> & Hh & Hst).
      destruct (Hnone w1 eq_refl) as [Hrec _].
      exists rest. split; [rewrite app_nil_r; reflexivity|].
      unfold recorded_sources in *. simpl. rewrite Hrec. simpl.
      split; assumption.
Qed.

Lemma find_index_source_head (l : list DataSource) (ds : DataSource) :
  find_index_source l = Some ds -> ds_id ds = AOI_INDEX_ID /\ ds_enabled ds = true.
Proof.
  intros Hf. apply find_some in Hf. destruct Hf as [_ Hf].
  unfold is_enabled_index_source in Hf. apply andb_true_iff in Hf.
  destruct Hf as [Hid Hen]. apply String.eqb_eq in Hid. auto.
Qed.

(** X17.  A run accounts for its sources.  When [run] returns a summary,
    the manager had passed the initial check, the summary is the one left
    in the manager, and its records are, up to the display order, one for
    the first enabled source with the id of the AOI index (if there is
    one) followed by one for every other source except the enabled ones
    with that id.  Each record carries the id, name, type, enabled flag
    and priority of its source. *)
Theorem run_accounts_for_sources (E : Engine.t) (H : Hooks) (pm pm' : PipelineManager)
    (w w' : World.t) (summary : list SourceOutcome) :
  run E H pm w = (Return (Some summary), (pm', w')) ->
  is_Some (initialized pm) /\
  processing_summary pm' = summary /\
  list_of_datasources pm' = list_of_datasources pm /\
  Permutation (map outcome_head summary)
    (map source_head
       (option_list (find_index_source (list_of_datasources pm))
        ++ recorded_sources (list_of_datasources pm))).
Proof.
  unfold run, run_body.
  destruct (initialized pm) as [a|] eqn:Einit; [|discriminate].
  destruct (initialized_inv pm a Einit) as (Haoi & out & Hout & Htruthy).
  unfold collect.
  assert (Hstep :
            exists recs,
              _process_aoi_layer E (set_processing_summary [] pm) w
              = (set_processing_summary recs pm,
                 snd (_process_aoi_layer E (set_processing_summary [] pm) w)) /\
              map outcome_head recs
              = map source_head
                  (option_list (find_index_source (list_of_datasources pm)))).
  { unfold _process_aoi_layer. simpl. rewrite Haoi, Hout, Htruthy. simpl.
    destruct (find_index_source (list_of_datasources pm)) as [ds|] eqn:Ef.
    - destruct (save_aoi_extent E a out (ds_output_layer_name ds) w)
        as [[[status bruts] final] w1].
      simpl. eexists. split; [reflexivity|]. reflexivity.
    - exists []. split; reflexivity. }
  destruct Hstep as (recs & Hstep & Hrecs).
  rewrite Hstep. simpl.
  destruct (process_sources E H (set_processing_summary recs pm) a
              (list_of_datasources pm) recs _) as [[[]|e] [summary1 w1]] eqn:Eloop.
  2:{ simpl. destruct (isinstance e SpatiaEngineError); [discriminate|].
      rewrite isinstance_Exception. discriminate. }
  destruct (process_sources_heads _ _ _ _ _ _ _ _ _ Eloop) as (rest & -> & Hh & _).
  simpl. intros Heq. injection Heq as <- <- <-.
  split; [eauto|]. split; [reflexivity|].
  split.
  { unfold display_summary. simpl. destruct (recs ++ rest); reflexivity. }
  unfold display_summary. simpl processing_summary.
  rewrite map_app, <- Hrecs, <- Hh, <- map_app.
  apply Permutation_map.
  destruct (recs ++ rest) as [|x xs] eqn:Ex; [reflexivity|].
  apply Permutation_sym. exact (sort_by_perm key_lt sort_key (x :: xs)).
Qed.

Lemma run_accounts_for_sources_witness :
  exists summary,
    fst (run Sample.engine Sample.hooks
           (Sample.manager [Sample.roads_wfs; Sample.lakes_disabled; Sample.aoi_index])
           Sample.world)
    = Return (Some summary) /\
    Permutation (map so_id summary) ["snrc_index_local_50k"; "roads_wfs"; "lakes"].
Proof.
  assert (Hrun : exists summary pm' w',
             run Sample.engine Sample.hooks
               (Sample.manager [Sample.roads_wfs; Sample.lakes_disabled;
                                Sample.aoi_index]) Sample.world
             = (Return (Some summary), (pm', w')))
    by (eexists _, _, _; vm_compute; reflexivity).
  destruct Hrun as (summary & pm' & w' & Hrun).
  exists summary. split; [rewrite Hrun; reflexivity|].
  destruct (run_accounts_for_sources _ _ _ _ _ _ _ Hrun) as (_ & _ & _ & Hperm).
  apply (Permutation_map (fun h => fst (fst (fst (fst h))))) in Hperm.
  rewrite !map_map in Hperm. exact Hperm.
Defined.

End RunAccounting.

(** ** Setting a run up *)

Section SetupFacts.
Import Py PyStr Geo Zone ErrorHandler AoiResolver Pipeline Setup.

Lemma truthy_cons (c : ascii) (s : string) : truthy (String c s) = true.
Proof. reflexivity. Qed.

Lemma truthy_app_l (a b : string) : truthy a = true -> truthy (a +:+ b) = true.
Proof.
  destruct a as [|c a]; [discriminate|]. intros _.
  rewrite app_str_cons. reflexivity.
Qed.

Lemma truthy_app_r (a b : string) : truthy b = true -> truthy (a +:+ b) = true.
Proof.
  destruct a as [|c a]; [rewrite app_str_nil; tauto|]. intros _.
  rewrite app_str_cons. reflexivity.
Qed.

Lemma truthy_path_join (a b : string) :
  truthy b = true -> truthy (path_join a b) = true.
Proof.
  intros Hb. unfold path_join, FS.join.
  destruct (startswith b "/"); [exact Hb|].
  destruct (truthy a) eqn:Ha; [|exact Hb].
  destruct (String.eqb _ "/"); apply truthy_app_l; exact Ha.
Qed.

Lemma define_snrc_true_target (E : Engine.t) (codes : list pyval) (a0 a : Aoi) :
  define_from_snrc_codes E codes a0 = (Return true, a) ->
  exists code, target_mtm_crs a = Some ("EPSG:" +:+ code).
Proof.
  unfold define_from_snrc_codes, handle_errors_method, define_from_snrc_codes_body.
  destruct codes as [|c0 cs]; [discriminate|].
  destruct (list_comp py_upper (c0 :: cs)) as [refs|e];
    [|simpl; destruct (isinstance e AOIError); [discriminate|];
      rewrite isinstance_Exception; discriminate].
  cbv zeta.
  destruct (flat_map (collect_code E "EPSG:32198") refs) as [|f0 fs];
    [discriminate|].
  destruct (geoms_for_union (f0 :: fs)) as [|g0 gs]; [discriminate|].
  destruct (Engine.unary_union E (g0 :: gs)) as [[u|]|e]; try discriminate.
  destruct (is_empty u); [discriminate|].
  destruct (Engine.to_crs E _ "EPSG:4326") as [gdf4326|e]; [|discriminate].
  match goal with
  | |- context [_finalize_definition E ?s] =>
      pose proof (finalize_true_target E s) as Ht;
      destruct (_finalize_definition E s) as [ok s']
  end.
  simpl. intros Heq. injection Heq as -> ->. apply Ht. reflexivity.
Qed.

Lemma define_kml_true_target (E : Engine.t) (fs : FS.t) (path : string)
    (a0 a : Aoi) :
  define_from_kml_file E fs path a0 = (Return true, a) ->
  exists code, target_mtm_crs a = Some ("EPSG:" +:+ code).
Proof.
  unfold define_from_kml_file, handle_errors_method, define_from_kml_file_body.
  destruct (negb (truthy path) || negb (FS.exists_ fs path)); [discriminate|].
  destruct (get_kml_bounds E fs path "EPSG:4326") as [gdf|]; [|discriminate].
  destruct (gdf_empty gdf); [discriminate|].
  destruct (geometry_iloc0 gdf) as [[geom|]|e]; try discriminate.
  destruct (is_empty geom); [discriminate|].
  cbv zeta.
  match goal with
  | |- context [_finalize_definition E ?s] =>
      pose proof (finalize_true_target E s) as Ht;
      destruct (_finalize_definition E s) as [ok s']
  end.
  simpl. intros Heq. injection Heq as -> ->. apply Ht. reflexivity.
Qed.

(** The cases of [setup_aoi]. *)
Lemma setup_aoi_cases (E : Engine.t) (fs : FS.t) (custom_crs : option string)
    (aoi_definition_type : string) (input : aoi_input) (pm : PipelineManager) :
  setup_aoi E fs custom_crs aoi_definition_type input pm
  = (Return false, set_aoi None pm) \/
  exists a0 a,
    setup_aoi E fs custom_crs aoi_definition_type input pm
    = (Return true, set_aoi (Some a) pm) /\
    init E custom_crs = Return a0 /\
    ((aoi_definition_type = "SNRC" /\
      exists l, input = InputList l /\
                define_from_snrc_codes E l a0 = (Return true, a)) \/
     (aoi_definition_type = "KML" /\
      exists path, input = InputStr path /\
                   define_from_kml_file E fs path a0 = (Return true, a))).
Proof.
  unfold setup_aoi, handle_errors_method, setup_aoi_body.
  destruct (init E custom_crs) as [a0|e]; [|left; reflexivity].
  destruct (String.eqb aoi_definition_type "SNRC") eqn:Es.
  { apply String.eqb_eq in Es.
    destruct input as [[|c cs]|s|]; try (left; reflexivity).
    destruct (define_from_snrc_codes E (c :: cs) a0) as [[[|]|e] a] eqn:Ed;
      try (left; reflexivity).
    right. exists a0, a. split; [reflexivity|]. split; [reflexivity|].
    left. split; [exact Es|]. eauto. }
  destruct (String.eqb aoi_definition_type "KML") eqn:Ek.
  { apply String.eqb_eq in Ek.
    destruct input as [l|s|]; try (left; reflexivity).
    destruct (define_from_kml_file E fs s a0) as [[[|]|e] a] eqn:Ed;
      try (left; reflexivity).
    right. exists a0, a. split; [reflexivity|]. split; [reflexivity|].
    right. split; [exact Ek|]. eauto. }
  left. reflexivity.
Qed.

(** X18.  [setup_aoi] never raises and leaves an AOI in the manager
    exactly when it returns [True]; a failure clears whatever AOI the
    manager held before.  The AOI it leaves is a fresh object on which
    the definition named by the type has succeeded: an SNRC definition
    for a non-empty list of codes, a KML definition for a path.  Nothing
    else in the manager changes. *)
Theorem setup_aoi_outcome (E : Engine.t) (fs : FS.t) (custom_crs : option string)
    (aoi_definition_type : string) (input : aoi_input) (pm : PipelineManager) :
  exists ok pm',
    setup_aoi E fs custom_crs aoi_definition_type input pm = (Return ok, pm') /\
    (ok = true <-> is_Some (aoi pm')) /\
    pm' = set_aoi (aoi pm') pm /\
    (forall a,
        aoi pm' = Some a ->
        exists a0,
          init E custom_crs = Return a0 /\
          ((aoi_definition_type = "SNRC" /\
            exists l, input = InputList l /\ l <> [] /\
                      define_from_snrc_codes E l a0 = (Return true, a)) \/
           (aoi_definition_type = "KML" /\
            exists path, input = InputStr path /\
                         define_from_kml_file E fs path a0 = (Return true, a)))).
Proof.
  destruct (setup_aoi_cases E fs custom_crs aoi_definition_type input pm)
    as [Hf|(a0 & a & Ht & Hinit & Hdef)].
  - exists false, (set_aoi None pm). split; [exact Hf|]. simpl.
    split; [split; [discriminate|intros [x Hx]; discriminate]|].
    split; [reflexivity|discriminate].
  - exists true, (set_aoi (Some a) pm). split; [exact Ht|]. simpl.
    split; [split; eauto|]. split; [reflexivity|].
    intros a' Ha. injection Ha as <-. exists a0. split; [exact Hinit|].
    destruct Hdef as [(Hty & l & Hl & Hd)|Hk]; [|right; exact Hk].
    left. split; [exact Hty|]. exists l. split; [exact Hl|]. split; [|exact Hd].
    intros ->. vm_compute in Hd. discriminate.
Qed.

(** The cases of [prepare_project_structure]. *)
Lemma prepare_cases (H : Hooks) (output_base_dir : string) (pm : PipelineManager) :
  (prepare_project_structure H output_base_dir pm = (Return false, pm) /\
   forall a, aoi pm = Some a ->
             opt_truthy (target_mtm_crs a) && truthy (project_id pm) = false) \/
  exists a folder,
    aoi pm = Some a /\ opt_truthy (target_mtm_crs a) = true /\
    truthy (project_id pm) = true /\
    folder = project_id pm +:+ "_GIS_extract_MTM"
             +:+ get_mtm_short_name (target_mtm_crs a) +:+ "_" +:+ date_yymmdd H /\
    prepare_project_structure H output_base_dir pm
    = (Return true,
       mkPM (project_id pm) (aoi pm) (list_of_datasources pm)
         (Some (path_join (path_join output_base_dir folder) (folder +:+ ".gpkg")))
         (Some (path_join (path_join output_base_dir folder)
                  (project_id pm +:+ "_extract_imagery_MTM"
                   +:+ get_mtm_short_name (target_mtm_crs a) +:+ "_"
                   +:+ date_yymmdd H)))
         (Some (path_join (path_join output_base_dir folder) "temp_files"))
         (Some (path_join output_base_dir folder))
         (processing_summary pm)).
Proof.
  unfold prepare_project_structure, handle_errors_method,
    prepare_project_structure_body.
  destruct (aoi pm) as [a|]; [|left; split; [reflexivity|discriminate]].
  destruct (opt_truthy (target_mtm_crs a)) eqn:Et; simpl.
  2:{ left. split; [reflexivity|]. intros a' Ha. injection Ha as <-.
      rewrite Et. reflexivity. }
  destruct (truthy (project_id pm)) eqn:Ep; simpl.
  2:{ left. split; [reflexivity|]. intros a' Ha. injection Ha as <-.
      rewrite Et. reflexivity. }
  right. eexists a, _. split; [reflexivity|].
  split; [first [exact Et|reflexivity]|].
  split; [first [exact Ep|reflexivity]|]. split; reflexivity.
Qed.

Lemma prepare_initialized (H : Hooks) (output_base_dir : string)
    (pm pm' : PipelineManager) :
  prepare_project_structure H output_base_dir pm = (Return true, pm') ->
  initialized pm' = aoi pm /\ is_Some (aoi pm).
Proof.
  destruct (prepare_cases H output_base_dir pm)
    as [[Hf _]|(a & folder & Ha & Ht & Hp & Hfolder & Hrun)].
  - rewrite Hf. discriminate.
  - rewrite Hrun. intros Heq. injection Heq as <-.
    split; [|eauto]. unfold initialized. simpl. rewrite Ha, Ht.
    assert (Hfold : truthy folder = true)
      by (subst folder; apply truthy_app_l, Hp).
    rewrite !truthy_path_join
      by (first [exact Hfold | reflexivity
                | apply truthy_app_l; first [exact Hp | exact Hfold]]).
    reflexivity.
Qed.

(** X19.  [prepare_project_structure] never raises.  It succeeds exactly
    when the manager holds an AOI with a target zone and a non-empty
    project id; a failure leaves the manager as it was.  On success the
    project folder is named after the project id, the short zone name and
    the date, the temporary directory and the output GeoPackage are
    joined to the project folder, and the manager passes the initial
    check of [run]. *)
Theorem prepare_project_structure_outcome (H : Hooks) (output_base_dir : string)
    (pm : PipelineManager) :
  exists ok pm',
    prepare_project_structure H output_base_dir pm = (Return ok, pm') /\
    (ok = true <->
     exists a, aoi pm = Some a /\ opt_truthy (target_mtm_crs a) = true /\
               truthy (project_id pm) = true) /\
    (ok = false -> pm' = pm) /\
    (ok = true ->
     initialized pm' = aoi pm /\
     (project_id pm', aoi pm', list_of_datasources pm', processing_summary pm')
     = (project_id pm, aoi pm, list_of_datasources pm, processing_summary pm) /\
     exists a folder dir,
       aoi pm = Some a /\
       folder = project_id pm +:+ "_GIS_extract_MTM"
                +:+ get_mtm_short_name (target_mtm_crs a) +:+ "_" +:+ date_yymmdd H /\
       dir = path_join output_base_dir folder /\
       project_output_dir pm' = Some dir /\
       temp_files_dir pm' = Some (path_join dir "temp_files") /\
       output_vector_gpkg_filepath pm' = Some (path_join dir (folder +:+ ".gpkg"))).
Proof.
  destruct (prepare_cases H output_base_dir pm)
    as [[Hf Hwhy]|(a & folder & Ha & Ht & Hp & Hfolder & Hrun)].
  - exists false, pm. split; [exact Hf|].
    split; [|split; [reflexivity|discriminate]].
    split; [discriminate|]. intros (a & Ha & Ht & Hp).
    specialize (Hwhy a Ha). rewrite Ht, Hp in Hwhy. discriminate.
  - eexists true, _. split; [exact Hrun|].
    split; [split; eauto|]. split; [discriminate|]. intros _.
    split; [exact (proj1 (prepare_initialized H output_base_dir pm _ Hrun))|].
    split; [reflexivity|].
    exists a, folder, (path_join output_base_dir folder).
    repeat split; try assumption; reflexivity.
Qed.

(** X20.  From set-up to run.  After a successful [setup_aoi] on a
    manager with a non-empty project id, [prepare_project_structure]
    cannot fail, and the manager it leaves passes the initial check of
    [run] with the AOI that [setup_aoi] defined, whose target zone is in
    canonical form. *)
Theorem setup_then_prepare (E : Engine.t) (H : Hooks) (fs : FS.t)
    (custom_crs : option string) (aoi_definition_type : string)
    (input : aoi_input) (output_base_dir : string) (pm pm1 : PipelineManager) :
  truthy (project_id pm) = true ->
  setup_aoi E fs custom_crs aoi_definition_type input pm = (Return true, pm1) ->
  exists pm2 a code,
    prepare_project_structure H output_base_dir pm1 = (Return true, pm2) /\
    aoi pm1 = Some a /\ initialized pm2 = Some a /\
    target_mtm_crs a = Some ("EPSG:" +:+ code) /\
    list_of_datasources pm2 = list_of_datasources pm.
Proof.
  intros Hp Hsetup.
  destruct (setup_aoi_cases E fs custom_crs aoi_definition_type input pm)
    as [Hf|(a0 & a & Ht & Hinit & Hdef)]; [rewrite Hf in Hsetup; discriminate|].
  rewrite Ht in Hsetup. injection Hsetup as <-.
  assert (Hcode : exists code, target_mtm_crs a = Some ("EPSG:" +:+ code)).
  { destruct Hdef as [(_ & l & _ & Hd)|(_ & path & _ & Hd)].
    - exact (define_snrc_true_target E l a0 a Hd).
    - exact (define_kml_true_target E fs path a0 a Hd). }
  destruct Hcode as [code Hcode].
  destruct (prepare_cases H output_base_dir (set_aoi (Some a) pm))
    as [[_ Hwhy]|(a' & folder & Ha & Htr & Hp' & Hfolder & Hrun)].
  - exfalso. specialize (Hwhy a eq_refl). rewrite Hcode in Hwhy.
    change (opt_truthy (Some ("EPSG:" +:+ code)))
      with (truthy ("EPSG:" +:+ code)) in Hwhy.
    rewrite (truthy_app_l "EPSG:" code eq_refl) in Hwhy.
    change (project_id (set_aoi (Some a) pm)) with (project_id pm) in Hwhy.
    rewrite Hp in Hwhy. discriminate.
  - simpl in Ha. injection Ha as <-.
    eexists _, a, code. split; [exact Hrun|]. split; [reflexivity|].
    split; [exact (proj1 (prepare_initialized H output_base_dir _ _ Hrun))|].
    split; [exact Hcode|reflexivity].
Qed.

Lemma setup_then_prepare_witness :
  exists pm1 pm2,
    setup_aoi Sample.engine Sample.fs None "SNRC" (InputList [PStr "31h05"])
      (new_manager "P42") = (Return true, pm1) /\
    prepare_project_structure Sample.hooks "out" pm1 = (Return true, pm2) /\
    is_Some (initialized pm2).
Proof.
  assert (Hrun : exists pm1,
             setup_aoi Sample.engine Sample.fs None "SNRC"
               (InputList [PStr "31h05"]) (new_manager "P42") = (Return true, pm1))
    by (eexists; vm_compute; reflexivity).
  destruct Hrun as [pm1 Hs].
  destruct (setup_then_prepare Sample.engine Sample.hooks Sample.fs None "SNRC"
              (InputList [PStr "31h05"]) "out" (new_manager "P42") pm1
              eq_refl Hs) as (pm2 & a & code & Hprep & _ & Hinit & _).
  exists pm1, pm2. split; [exact Hs|]. split; [exact Hprep|].
  rewrite Hinit. eauto.
Defined.

End SetupFacts.

(** ** The factory of the data sources *)

Section FactoryFacts.
Import Py PyStr Pipeline Factory.

Lemma create_datasource_some (C : Classes) (cfg : config) (ds : DataSource) :
  create_datasource C cfg = Some ds ->
  ds_enabled ds = true /\ validate_config C ds = Return [] /\
  exists ds_type datasource_class,
    cfg !! "type" = Some ds_type /\ truthy ds_type = true /\
    _registry !! ds_type = Some datasource_class /\
    construct C datasource_class cfg = Return ds.
Proof.
  unfold create_datasource.
  destruct (cfg !! "type") as [ds_type|] eqn:Et; [|discriminate].
  destruct (truthy ds_type) eqn:Etr; simpl; [|discriminate].
  destruct (_registry !! ds_type) as [cls|] eqn:Er; [|discriminate].
  destruct (construct C cls cfg) as [ds0|e] eqn:Ec; simpl; [|discriminate].
  unfold is_enabled.
  destruct (ds_enabled ds0) eqn:Een; simpl; [|discriminate].
  destruct (validate_config C ds0) as [errors|e] eqn:Ev; simpl; [|discriminate].
  destruct errors as [|x errors]; simpl; [|discriminate].
  intros Heq. injection Heq as <-.
  split; [exact Een|]. split; [exact Ev|]. exists ds_type, cls. auto.
Qed.

Lemma Z_ltb_asym (k1 k2 : Z) : (k1 <? k2)%Z = true -> (k2 <? k1)%Z = false.
Proof. lia. Qed.

Lemma Z_ltb_le_trans (k1 k2 k3 : Z) :
  (k2 <? k1)%Z = false -> (k3 <? k2)%Z = false -> (k3 <? k1)%Z = false.
Proof. lia. Qed.

Lemma StronglySorted_weaken {A : Type} (R S : A -> A -> Prop) (l : list A) :
  (forall x y, R x y -> S x y) -> StronglySorted R l -> StronglySorted S l.
Proof.
  intros HRS Hs. induction Hs as [|x l Hl IH Hx]; constructor; [exact IH|].
  rewrite List.Forall_forall in *. intros y Hy. apply HRS, Hx, Hy.
Qed.

(** X21.  What the factory delivers.  [create_datasources_from_list]
    returns the sources that could be created, each once, in ascending
    order of priority, sources of equal priority in the order of their
    configurations.  Every source in the list is enabled, has passed
    [validate_config] without an error, and was built by the class that
    the registry gives for the type of its configuration; a configuration
    without type, of an unknown type, or whose class raises, adds nothing.
    [load_datasources_from_config] leaves the same list in the
    manager. *)
Theorem factory_sorted_enabled (C : Classes) (configs : list config)
    (pm : PipelineManager) :
  let created := omap (create_datasource C) configs in
  let l := create_datasources_from_list C configs in
  Permutation created l /\
  StronglySorted (fun x y => (ds_priority x <= ds_priority y)%Z) l /\
  (forall p, List.filter (fun ds => (ds_priority ds =? p)%Z) l
             = List.filter (fun ds => (ds_priority ds =? p)%Z) created) /\
  Forall (fun ds =>
            ds_enabled ds = true /\ validate_config C ds = Return [] /\
            exists cfg ds_type datasource_class,
              In cfg configs /\ cfg !! "type" = Some ds_type /\
              _registry !! ds_type = Some datasource_class /\
              construct C datasource_class cfg = Return ds) l /\
  load_datasources_from_config C configs pm
  = (Return true,
     mkPM (project_id pm) (aoi pm) l (output_vector_gpkg_filepath pm)
       (imagery_output_subdir pm) (temp_files_dir pm) (project_output_dir pm)
       (processing_summary pm)).
Proof.
  cbv zeta. unfold create_datasources_from_list.
  set (created := omap (create_datasource C) configs).
  pose proof (sort_by_perm Z.ltb ds_priority created) as Hperm.
  split; [exact Hperm|]. split; [|split; [|split]].
  - pose proof (sort_by_sorted Z.ltb ds_priority Z_ltb_asym Z_ltb_le_trans created)
      as Hs.
    refine (StronglySorted_weaken _ _ _ _ Hs).
    intros x y Hxy. unfold before in Hxy. lia.
  - intros p.
    apply (sort_by_stable Z.ltb ds_priority (fun k => (k =? p)%Z)).
    intros k1 k2 H1 H2. lia.
  - assert (Hall : Forall (fun ds =>
                     ds_enabled ds = true /\ validate_config C ds = Return [] /\
                     exists cfg ds_type datasource_class,
                       In cfg configs /\ cfg !! "type" = Some ds_type /\
                       _registry !! ds_type = Some datasource_class /\
                       construct C datasource_class cfg = Return ds) created).
    { apply List.Forall_forall. intros ds Hin. subst created.
      apply list_elem_of_In, list_elem_of_omap in Hin.
      destruct Hin as (cfg & Hcfg & Hc).
      destruct (create_datasource_some C cfg ds Hc)
        as (He & Hv & t & cls & Ht & _ & Hr & Hk).
      split; [exact He|]. split; [exact Hv|].
      exists cfg, t, cls. apply list_elem_of_In in Hcfg. auto. }
    rewrite List.Forall_forall in *. intros ds Hin. apply Hall.
    apply (Permutation_in _ (Permutation_sym Hperm)), Hin.
  - unfold load_datasources_from_config. destruct configs; reflexivity.
Qed.

Example factory_sample :
  map ds_id (create_datasources_from_list Fixtures.classes
               [Fixtures.cfg_roads; Fixtures.cfg_unknown; Fixtures.cfg_index])
  = ["snrc_index_local_50k"; "roads_wfs"].
Proof. vm_compute. reflexivity. Qed.

End FactoryFacts.

(** ** The display name of an AOI *)

Section DisplayName.
Import Py PyStr Geo AoiResolver Setup.

Example display_name_snrc :
  get_display_name
    (mkAoi (Some "SNRC") ["31H/05"; "31H06"; "21E05"] None None None false None
       None [])
  = "31H_05_and_2_others".
Proof. vm_compute. reflexivity. Qed.

Example display_name_kml :
  get_display_name
    (mkAoi (Some "KML") ["/data/aoi/lac saint jean.v2.kml"] None None None false
       None None [])
  = "lac_saint_jean.v2".
Proof. vm_compute. reflexivity. Qed.

Lemma chars_app (a b : string) :
  list_ascii_of_string (a +:+ b)
  = list_ascii_of_string a ++ list_ascii_of_string b.
Proof.
  induction a as [|c a IH]; [rewrite app_str_nil; reflexivity|].
  rewrite app_str_cons. simpl. rewrite IH. reflexivity.
Qed.

Lemma pretty_N_char_digit (x : N) :
  In (pretty_N_char x) (list_ascii_of_string "0123456789").
Proof.
  unfold pretty_N_char.
  repeat match goal with
         | |- context [match ?y with _ => _ end] => destruct y
         end; simpl; tauto.
Qed.

Lemma pretty_N_go_chars (x : N) (s : string) (d : ascii) :
  In d (list_ascii_of_string (pretty_N_go x s)) ->
  In d (list_ascii_of_string s) \/ In d (list_ascii_of_string "0123456789").
Proof.
  revert s. induction (N.lt_wf_0 x) as [x _ IH]. intros s.
  assert (Hx : (x = 0 \/ 0 < x)%N) by lia. destruct Hx as [->|Hx].
  - rewrite pretty_N_go_0. tauto.
  - rewrite pretty_N_go_step by exact Hx. intros Hd.
    apply IH in Hd; [|apply N.div_lt; [exact Hx|reflexivity]].
    destruct Hd as [[<-|Hd]|Hd]; [right; apply pretty_N_char_digit|tauto|tauto].
Qed.

Lemma pretty_nat_chars (n : nat) (d : ascii) :
  In d (list_ascii_of_string (pretty n)) ->
  In d (list_ascii_of_string "0123456789").
Proof.
  unfold pretty, pretty_nat, pretty, pretty_N.
  destruct (decide (N.of_nat n = 0%N)); [simpl; tauto|].
  intros Hd. apply pretty_N_go_chars in Hd. destruct Hd as [[]|Hd]. exact Hd.
Qed.

Lemma replace_char_chars (a b : ascii) (s : string) (c : ascii) :
  In c (list_ascii_of_string (replace_char a b s)) ->
  c = b \/ (In c (list_ascii_of_string s) /\ c <> a).
Proof.
  induction s as [|d s IH]; simpl; [tauto|].
  intros [<-|Hin].
  - destruct (Ascii.eqb d a) eqn:E; [left; reflexivity|].
    right. apply Ascii.eqb_neq in E. tauto.
  - destruct (IH Hin) as [->|[H1 H2]]; tauto.
Qed.

Lemma substring_chars (n m : nat) (s : string) (c : ascii) :
  In c (list_ascii_of_string (substring n m s)) -> In c (list_ascii_of_string s).
Proof.
  revert n m. induction s as [|d s IH]; intros n m.
  - destruct n, m; simpl; tauto.
  - destruct n as [|n]; [destruct m as [|m]|]; simpl; [tauto| |].
    + intros [<-|Hin]; [tauto|]. right. exact (IH 0%nat m Hin).
    + intros Hin. right. exact (IH n m Hin).
Qed.

Lemma splitext_root_chars (p : string) (c : ascii) :
  In c (list_ascii_of_string (splitext_root p)) -> In c (list_ascii_of_string p).
Proof.
  unfold splitext_root.
  destruct (rfind "." p) as [dotIndex|]; [|tauto].
  cbv zeta.
  destruct (_ <=? dotIndex)%nat; [|tauto].
  destruct (existsb _ _); [|tauto].
  apply substring_chars.
Qed.

Lemma basename_from_chars (acc s : string) (c : ascii) :
  In c (list_ascii_of_string (FS.basename_from acc s)) ->
  (In c (list_ascii_of_string acc) \/ c <> "/"%char).
Proof.
  revert acc. induction s as [|d s IH]; intros acc; simpl; [tauto|].
  destruct (Ascii.eqb d "/") eqn:E.
  - intros Hin. destruct (IH _ Hin) as [[]|Hne]. tauto.
  - intros Hin. destruct (IH _ Hin) as [Hacc|Hne]; [|tauto].
    rewrite chars_app in Hacc. apply in_app_or in Hacc.
    destruct Hacc as [Hacc|[<-|[]]]; [tauto|].
    right. apply Ascii.eqb_neq in E. exact E.
Qed.

(** X22.  The display name of an AOI can stand in a file name: it never
    holds a path separator, whatever the references are, and for a KML
    definition it holds no blank either.  An AOI without definition type
    or without references is called [unknown_aoi]. *)
Theorem display_name_safe (self : Aoi) :
  (forall c, In c (list_ascii_of_string (get_display_name self)) ->
             c <> "/"%char) /\
  (definition_type self = Some "KML" ->
   forall c, In c (list_ascii_of_string (get_display_name self)) ->
             c <> " "%char) /\
  (input_references self = [] \/
   (definition_type self <> Some "SNRC" /\ definition_type self <> Some "KML") ->
   get_display_name self = "unknown_aoi").
Proof.
  assert (Hunknown : forall c, In c (list_ascii_of_string "unknown_aoi") ->
                               c <> "/"%char /\ c <> " "%char).
  { simpl. intros c Hc.
    repeat (destruct Hc as [<-|Hc]; [split; discriminate|]). destruct Hc. }
  assert (Hdigit : forall c, In c (list_ascii_of_string "0123456789") ->
                             c <> "/"%char).
  { simpl. intros c Hc.
    repeat (destruct Hc as [<-|Hc]; [discriminate|]). destruct Hc. }
  unfold get_display_name.
  destruct (bool_decide (definition_type self = Some "SNRC")) eqn:Es.
  - apply bool_decide_eq_true in Es.
    split; [|split].
    + destruct (input_references self) as [|r [|r2 rest]].
      * intros c Hc. apply (Hunknown c Hc).
      * intros c Hc. apply replace_char_chars in Hc.
        destruct Hc as [->|[_ Hne]]; [discriminate|exact Hne].
      * intros c Hc. rewrite !chars_app in Hc.
        apply in_app_or in Hc. destruct Hc as [Hc|Hc].
        { apply replace_char_chars in Hc.
          destruct Hc as [->|[_ Hne]]; [discriminate|exact Hne]. }
        apply in_app_or in Hc. destruct Hc as [Hc|Hc].
        { simpl in Hc. repeat (destruct Hc as [<-|Hc]; [discriminate|]).
          destruct Hc. }
        apply in_app_or in Hc. destruct Hc as [Hc|Hc].
        { apply Hdigit. exact (pretty_nat_chars _ c Hc). }
        simpl in Hc. repeat (destruct Hc as [<-|Hc]; [discriminate|]).
        destruct Hc.
    + intros Hk. rewrite Es in Hk. discriminate.
    + intros [->|[Hn _]]; [reflexivity|contradiction].
  - destruct (bool_decide (definition_type self = Some "KML")) eqn:Ek.
    + apply bool_decide_eq_true in Ek.
      split; [|split].
      * destruct (input_references self) as [|r rest].
        { intros c Hc. apply (Hunknown c Hc). }
        intros c Hc. apply replace_char_chars in Hc.
        destruct Hc as [->|[Hc _]]; [discriminate|].
        apply splitext_root_chars in Hc. unfold FS.basename in Hc.
        apply basename_from_chars in Hc. destruct Hc as [[]|Hne]. exact Hne.
      * intros _. destruct (input_references self) as [|r rest].
        { intros c Hc. apply (Hunknown c Hc). }
        intros c Hc. apply replace_char_chars in Hc.
        destruct Hc as [->|[_ Hne]]; [discriminate|exact Hne].
      * intros [->|[_ Hn]]; [reflexivity|contradiction].
    + split; [intros c Hc; apply (Hunknown c Hc)|].
      split; [intros _ c Hc; apply (Hunknown c Hc)|reflexivity].
Qed.

End DisplayName.

(** ** Local raster sources *)

Section LocalRasterFacts.
Import Py PyStr ErrorHandler AoiResolver LocalRaster.

(** X23.  A local raster source and its file.  After construction the
    source is enabled exactly when the configuration does not disable it
    and names a path that resolves to an existing file, and [is_enabled]
    agrees with the flag, so the constructor and [validate_config] never
    disagree.  [fetch_data] never raises and never returns a dangling
    path: on any later file system, what it returns is the resolved form
    of the configured path, the file exists there, and the source is
    enabled; on the file system of the construction an enabled source
    returns its resolved path. *)
Theorem local_raster_fetch (resolve_path : Resolver) (c : Config) (fs : FS.t) :
  let self := init resolve_path c fs in
  (enabled self = true <->
   cfg_enabled c <> Some false /\
   exists p, cfg_path c = Some p /\ truthy p = true /\
             FS.exists_ fs (resolve_path p) = true) /\
  is_enabled resolve_path self fs = enabled self /\
  (forall fs', exists r,
      fetch_data resolve_path self fs' = Return r /\
      forall q, r = Some q ->
                exists p, cfg_path c = Some p /\ q = resolve_path p /\
                          FS.exists_ fs' q = true /\ enabled self = true) /\
  (enabled self = true ->
   fetch_data resolve_path self fs = Return (resolve_path <$> cfg_path c)).
Proof.
  cbv zeta. unfold init, fetch_data, is_enabled, validate_config,
    no_path, set_enabled. cbv zeta. simpl.
  destruct (cfg_path c) as [p|] eqn:Ep; simpl.
  2:{ split; [split; [discriminate|intros (_ & p & Hp & _); discriminate]|].
      split; [reflexivity|]. split; [|discriminate].
      intros fs'. exists None. split; [reflexivity|discriminate]. }
  destruct (truthy p) eqn:Et; simpl.
  2:{ split; [split; [discriminate|]|].
      { intros (_ & p' & Hp & Ht' & _). injection Hp as <-. congruence. }
      split; [reflexivity|]. split; [|discriminate].
      intros fs'. exists None. split; [reflexivity|discriminate]. }
  destruct (FS.exists_ fs (resolve_path p)) eqn:Eex; simpl.
  2:{ split; [split; [discriminate|]|].
      { intros (_ & p' & Hp & _ & Hex). injection Hp as <-. congruence. }
      split; [reflexivity|]. split; [|discriminate].
      intros fs'. exists None. split; [reflexivity|discriminate]. }
  assert (Hfetch : forall fs',
             exists r,
               match
                 (if negb ((List.length
                              ([] ++ (if negb (FS.exists_ fs' (resolve_path p))
                                      then ["Raster file not found: "
                                            +:+ resolve_path p]
                                      else [])) =? 0)%nat) || false
                  then Return None
                  else if negb (FS.exists_ fs' (resolve_path p))
                       then Return None
                       else Return (Some (resolve_path p)))
               with
               | Return v => Return v
               | Raise e =>
                   if isinstance e DataSourceError then Return None
                   else if isinstance e Exception then Return None
                   else Raise e
               end = Return r /\
               forall q, r = Some q ->
                         exists p0, Some p = Some p0 /\ q = resolve_path p0 /\
                                    FS.exists_ fs' q = true /\ true = true).
  { intros fs'. destruct (FS.exists_ fs' (resolve_path p)) eqn:Ex'; simpl.
    - exists (Some (resolve_path p)). split; [reflexivity|].
      intros q Hq. injection Hq as <-. exists p. auto.
    - exists None. split; [reflexivity|discriminate]. }
  destruct (cfg_enabled c) as [[|]|] eqn:Een; simpl.
  - split; [split; [intros _; split; [discriminate|eauto]|reflexivity]|].
    rewrite Ep. simpl. rewrite Et. simpl.
    split; [rewrite Eex; reflexivity|].
    split; [exact Hfetch|]. intros _. rewrite Eex. reflexivity.
  - split; [split; [discriminate|intros [Hc _]; contradiction]|].
    split; [reflexivity|]. split; [|discriminate].
    intros fs'. exists None. split; [reflexivity|discriminate].
  - split; [split; [intros _; split; [discriminate|eauto]|reflexivity]|].
    rewrite Ep. simpl. rewrite Et. simpl.
    split; [rewrite Eex; reflexivity|].
    split; [exact Hfetch|]. intros _. rewrite Eex. reflexivity.
Qed.

Example local_raster_sample :
  fetch_data Fixtures.resolve_path
    (init Fixtures.resolve_path Fixtures.cfg_ortho Fixtures.ortho_fs)
    Fixtures.ortho_fs
  = Return (Some "/srv/gis/data/ortho.tif")
  /\ fetch_data Fixtures.resolve_path
       (init Fixtures.resolve_path Fixtures.cfg_ortho Fixtures.ortho_fs)
       Sample.fs
     = Return None.
Proof. split; vm_compute; reflexivity. Qed.

End LocalRasterFacts.

(** ** Local GeoPackage sources and their temporary files *)

Section LocalGpkgFacts.
Import Py PyStr Geo ErrorHandler AoiResolver LocalGpkg.

Lemma substring_app_skip (y t : string) (k : nat) :
  substring (String.length y) k (y +:+ t) = substring 0 k t.
Proof.
  induction y as [|c y IH]; [rewrite app_str_nil; reflexivity|].
  rewrite app_str_cons. simpl. exact IH.
Qed.

Lemma contains_app (sub y z : string) :
  sub <> "" -> contains sub (y +:+ sub +:+ z) = true.
Proof.
  intros Hne. unfold contains.
  destruct (String.index 0 sub (y +:+ sub +:+ z)) eqn:E; [reflexivity|].
  exfalso.
  apply (String.index_correct3 0 (String.length y) sub _ E Hne); [lia|].
  rewrite substring_app_skip. apply take_app_length.
Qed.

Lemma app_str_assoc (a b c : string) : (a +:+ b) +:+ c = a +:+ (b +:+ c).
Proof.
  induction a as [|d a IH]; rewrite ?app_str_nil; [reflexivity|].
  rewrite !app_str_cons, IH. reflexivity.
Qed.

Lemma basename_from_no_slash (acc b : string) :
  (forall c, In c (list_ascii_of_string b) -> c <> "/"%char) ->
  FS.basename_from acc b = acc +:+ b.
Proof.
  revert acc. induction b as [|d b IH]; intros acc Hb; simpl.
  - induction acc as [|c acc IHa]; [reflexivity|].
    rewrite app_str_cons, <- IHa. reflexivity.
  - destruct (Ascii.eqb d "/") eqn:E.
    + apply Ascii.eqb_eq in E. exfalso. apply (Hb d); [simpl; tauto|exact E].
    + rewrite IH by (intros c Hc; apply Hb; simpl; tauto).
      rewrite app_str_assoc, app_str_cons, app_str_nil. reflexivity.
Qed.

Lemma basename_from_app (acc x b : string) :
  (forall c, In c (list_ascii_of_string b) -> c <> "/"%char) ->
  FS.basename_from acc (x +:+ b) = FS.basename_from acc x +:+ b.
Proof.
  intros Hb. revert acc. induction x as [|d x IH]; intros acc.
  - rewrite app_str_nil. simpl. apply basename_from_no_slash, Hb.
  - rewrite app_str_cons. simpl. destruct (Ascii.eqb d "/"); apply IH.
Qed.

(** A file named [temp_...] without separator, joined to a non-empty
    temporary directory, passes the test of the [finally] block of
    [process_vector_data] (vector_processor.py, line 196). *)
Lemma temp_name_recognized (temp_dir rest : string) :
  truthy temp_dir = true ->
  (forall c, In c (list_ascii_of_string rest) -> c <> "/"%char) ->
  let p := FS.join temp_dir ("temp_" +:+ rest) in
  truthy p = true /\ startswith p temp_dir = true /\
  contains "temp_" (FS.basename p) = true.
Proof.
  intros Ht Hrest. cbv zeta. unfold FS.join. rewrite Ht.
  assert (Hname : forall c, In c (list_ascii_of_string ("temp_" +:+ rest)) ->
                            c <> "/"%char).
  { intros c Hc. rewrite chars_app in Hc. apply in_app_or in Hc.
    destruct Hc as [Hc|Hc]; [|apply Hrest, Hc].
    simpl in Hc. repeat (destruct Hc as [<-|Hc]; [discriminate|]). destruct Hc. }
  destruct (String.eqb _ "/").
  - split; [apply truthy_app_l, Ht|].
    split; [apply startswith_app; eauto|].
    unfold FS.basename. rewrite basename_from_app by exact Hname.
    apply contains_app. discriminate.
  - split; [apply truthy_app_l, Ht|].
    split; [apply startswith_app; eauto|].
    unfold FS.basename. rewrite <- app_str_assoc.
    rewrite basename_from_app by exact Hname.
    apply contains_app. discriminate.
Qed.

(** X24.  What [LocalGpkgDataSource.fetch_data] does.  It never raises
    and ends in one of three ways.  It returns [None] and changes
    nothing.  Or the source is enabled and has the id of the AOI index:
    it returns the marker [IS_AOI_INDEX_LAYER] and changes nothing.  Or
    the source is enabled, the configured layer could be read and holds
    features: it writes one file, [temp_filtered_<id>.geojson] in the
    temporary directory, returns its path and lists it as a temporary
    file.  Under a non-empty temporary directory, and with an id free of
    separators, that path passes the temporary-file test of
    [process_vector_data], which therefore deletes it after a successful
    normalization. *)
Theorem local_gpkg_fetch (E : Engine.t) (G : GeoJsonWriter)
    (self : LocalGpkgDataSource) (b : Zone.bounds) (temp_dir : string)
    (fs : FS.t) :
  exists r self' fs',
    fetch_data E G self b temp_dir fs = (Return r, (self', fs')) /\
    ((r = None /\ self' = self /\ fs' = fs) \/
     (r = Some "IS_AOI_INDEX_LAYER" /\ id self = "snrc_index_local_50k" /\
      is_enabled self fs = true /\ self' = self /\ fs' = fs) \/
     (exists gdf n p,
         id self <> "snrc_index_local_50k" /\ is_enabled self fs = true /\
         p = FS.join temp_dir
               ("temp_filtered_" +:+ default "unknown" (cfg_id (config self))
                +:+ ".geojson") /\
         r = Some p /\
         Engine.read_file E (default "" (cfg_path (config self)))
           (cfg_layer_name (config self)) = Return gdf /\
         gdf_empty gdf = false /\
         G gdf p = Return n /\ fs' = FS.write fs p n /\
         self' = add_temp_file p self /\
         (truthy temp_dir = true ->
          (forall c, In c (list_ascii_of_string
                             (default "unknown" (cfg_id (config self)))) ->
                     c <> "/"%char) ->
          truthy p = true /\ startswith p temp_dir = true /\
          contains "temp_" (FS.basename p) = true))).
Proof.
  unfold fetch_data, fetch_data_body.
  destruct (is_enabled self fs) eqn:Een; simpl negb; cbv iota;
    [|eexists _, _, _; split; [reflexivity|left; auto]].
  destruct (negb (opt_truthy (gpkg_path self))
            || negb (opt_truthy (layer_name self)));
    [eexists _, _, _; split; [reflexivity|left; auto]|].
  destruct (String.eqb (id self) "snrc_index_local_50k") eqn:Eid.
  { apply String.eqb_eq in Eid.
    eexists _, _, _. split; [reflexivity|]. right. left. auto. }
  apply String.eqb_neq in Eid.
  unfold filter_local_gpkg.
  destruct (negb (opt_truthy (cfg_path (config self)))
            || negb (opt_truthy (cfg_layer_name (config self))));
    [eexists _, _, _; split; [reflexivity|left; auto]|].
  destruct (Engine.read_file E _ _) as [gdf|e] eqn:Eread;
    [|eexists _, _, _; split; [reflexivity|left; auto]].
  destruct (gdf_empty gdf) eqn:Eempty;
    [eexists _, _, _; split; [reflexivity|left; auto]|].
  cbv zeta.
  set (p := FS.join temp_dir
              ("temp_filtered_" +:+ default "unknown" (cfg_id (config self))
               +:+ ".geojson")).
  destruct (G gdf p) as [n|e] eqn:Eg;
    [|eexists _, _, _; split; [reflexivity|left; auto]].
  assert (Hp : truthy p = true).
  { subst p. unfold FS.join. destruct (truthy temp_dir) eqn:Ht.
    - destruct (String.eqb _ "/"); apply truthy_app_l, Ht.
    - apply truthy_app_l. reflexivity. }
  rewrite Hp. simpl.
  eexists _, _, _. split; [reflexivity|]. right. right.
  exists gdf, n, p.
  do 9 (split; [first [assumption|reflexivity]|]).
  intros Ht Hid.
  pose proof (temp_name_recognized temp_dir
                ("filtered_" +:+ default "unknown" (cfg_id (config self))
                 +:+ ".geojson") Ht) as Hrec.
  cbv zeta in Hrec.
  change ("temp_" +:+ "filtered_" +:+ default "unknown" (cfg_id (config self))
          +:+ ".geojson")
    with ("temp_filtered_" +:+ default "unknown" (cfg_id (config self))
          +:+ ".geojson") in Hrec.
  apply Hrec. intros c Hc. rewrite !chars_app in Hc.
  apply in_app_or in Hc. destruct Hc as [Hc|Hc].
  { simpl in Hc. repeat (destruct Hc as [<-|Hc]; [discriminate|]). destruct Hc. }
  apply in_app_or in Hc. destruct Hc as [Hc|Hc]; [apply Hid, Hc|].
  simpl in Hc. repeat (destruct Hc as [<-|Hc]; [discriminate|]). destruct Hc.
Qed.

Example local_gpkg_sample :
  let self := init Fixtures.cfg_sheets Sample.index_fs in
  let r := fetch_data Sample.engine Fixtures.geojson self (-74, 45, -73.5, 45.5)%float
             "tmp" Sample.index_fs in
  fst r = Return (Some "tmp/temp_filtered_sheets.geojson") /\
  temp_files (fst (snd r)) = ["tmp/temp_filtered_sheets.geojson"] /\
  FS.getsize (snd (snd r)) "tmp/temp_filtered_sheets.geojson" = Return 896%N.
Proof. cbv zeta. repeat split; vm_compute; reflexivity. Qed.

End LocalGpkgFacts.
